(** * Service-Platform backend: search, booking and availability routes

    A shallow embedding of the Express route handlers of the services
    marketplace backend (search pipeline, booking creation, booking status
    transition, availability calculator) and of the socket accessor
    [getIO], followed by theorems about them.

    Conventions of the embedding.
    - A JavaScript number is a [JS.number]: a rational or one of NaN,
      +Infinity, -Infinity.  Only the sign of a difference, the order and
      truthiness are ever observed by the handlers, and those agree between
      IEEE doubles and exact rationals.
    - A query-string or body value that may be absent is an [option]:
      [None] is JavaScript's [undefined].
    - The persistence layer is a record of tables (lists of rows, in the
      order the database returns them); every Prisma call used by the
      handlers is a function on that record.
    - Library functions whose code is not part of the repository
      (moment's parser, the Date constructor, validator's isISO8601,
      isUUID and isFloat, parseFloat, the socket.io transport) are
      variables of the section [Routes].  So is the value of
      [calculateDistance]: it is the Haversine formula evaluated in
      floating point with Math.sin, Math.cos and Math.atan2, and the
      routes only compare it and test it for truthiness. *)

From Stdlib Require Import ZArith QArith List String Ascii Bool Lia.
From Stdlib Require Import DecimalString Sorted Permutation.
Import ListNotations.

Local Open Scope string_scope.
Local Open Scope Z_scope.

(** ** JavaScript values *)

Module JS.

Inductive number : Type :=
| NaN
| NegInf
| Fin (q : Q)
| PosInf.

Definition Infinity : number := PosInf.
Definition zero : number := Fin 0.

(** ToBoolean on a number: NaN and 0 are falsy. *)
Definition truthy (n : number) : bool :=
  match n with
  | NaN => false
  | Fin q => negb (Qeq_bool q 0)
  | NegInf | PosInf => true
  end.

(** [a - b]. *)
Definition sub (a b : number) : number :=
  match a, b with
  | NaN, _ | _, NaN => NaN
  | PosInf, PosInf => NaN
  | NegInf, NegInf => NaN
  | PosInf, _ => PosInf
  | NegInf, _ => NegInf
  | Fin _, PosInf => NegInf
  | Fin _, NegInf => PosInf
  | Fin x, Fin y => Fin (x - y)
  end.

(** [a < b]; false as soon as one side is NaN. *)
Definition ltb (a b : number) : bool :=
  match a, b with
  | NaN, _ | _, NaN => false
  | _, NegInf => false
  | NegInf, _ => true
  | PosInf, _ => false
  | Fin _, PosInf => true
  | Fin x, Fin y => negb (Qle_bool y x)
  end.

(** [a <= b]; false as soon as one side is NaN. *)
Definition leb (a b : number) : bool :=
  match a, b with
  | NaN, _ | _, NaN => false
  | NegInf, _ => true
  | _, PosInf => true
  | PosInf, _ => false
  | _, NegInf => false
  | Fin x, Fin y => Qle_bool x y
  end.

Definition geb (a b : number) : bool := leb b a.

(** A property that is undefined, null, or holds a number. *)
Inductive value : Type :=
| Undefined
| Null
| Num (n : number).

(** [v || Infinity]. *)
Definition orInfinity (v : value) : number :=
  match v with
  | Num n => if truthy n then n else Infinity
  | Undefined | Null => Infinity
  end.

(** ToBoolean on a string that may be undefined: only the empty string
    and undefined are falsy. *)
Definition given (s : option string) : bool :=
  match s with
  | Some s => negb (String.eqb s "")
  | None => false
  end.

(** ToBoolean on a nullable number column. *)
Definition present (c : option number) : bool :=
  match c with
  | Some n => truthy n
  | None => false
  end.

(** [n.toString()] for an integer. *)
Definition toString (z : Z) : string := NilZero.string_of_int (Z.to_int z).

(** [s.padStart(n, c)] for a one-character pad. *)
Definition padStart (n : nat) (c : ascii) (s : string) : string :=
  (string_of_list_ascii (repeat c (n - String.length s)) ++ s)%string.

Definition lowerChar (c : ascii) : ascii :=
  let n := nat_of_ascii c in
  if ((65 <=? n) && (n <=? 90))%nat then ascii_of_nat (n + 32) else c.

(** [s.toLowerCase()] on ASCII text. *)
Fixpoint toLowerCase (s : string) : string :=
  match s with
  | EmptyString => EmptyString
  | String c r => String (lowerChar c) (toLowerCase r)
  end.

(** [hay.includes(needle)]. *)
Fixpoint includes (needle hay : string) : bool :=
  if String.prefix needle hay then true
  else match hay with
       | EmptyString => false
       | String _ r => includes needle r
       end.

Definition isSpace (c : ascii) : bool :=
  let n := nat_of_ascii c in
  ((n =? 32) || ((9 <=? n) && (n <=? 13)))%nat.

Fixpoint dropSpaces (l : list ascii) : list ascii :=
  match l with
  | c :: r => if isSpace c then dropSpaces r else l
  | [] => []
  end.

(** [s.trim()] on ASCII text. *)
Definition trim (s : string) : string :=
  string_of_list_ascii (rev (dropSpaces (rev (dropSpaces (list_ascii_of_string s))))).

(** A thrown [Error]. *)
Record Error : Type := mkError { message : string }.

(** [Array.prototype.sort(cmp)]: a stable sort; [cmp a b] negative puts
    [a] first, positive puts [b] first, zero or NaN keeps the order of
    arrival.  Written as the stable insertion sort, to which every
    stable sort is equal on a comparator that is a consistent order. *)
Section Sort.
Context {A : Type} (cmp : A -> A -> number).

Definition after (a b : A) : bool := ltb zero (cmp a b).

Fixpoint insert (x : A) (l : list A) : list A :=
  match l with
  | [] => [x]
  | y :: r => if after x y then y :: insert x r else x :: l
  end.

Definition sort (l : list A) : list A := fold_right insert [] l.
End Sort.

End JS.

(** ** Data model *)

(** Modelled from the spec: the Prisma schema is not among the sources.
    The tables and columns are those of section 3 of the specification,
    restricted to the columns the handlers read or write.  A nullable
    column is an [option]; a DateTime column is its timestamp. *)

Module User.
Record t : Type := mk {
  id : Z;
  name : string;
  latitude : option JS.number;
  longitude : option JS.number
}.
End User.

Module Provider.
Record t : Type := mk {
  id : Z;
  userId : Z;
  isAvailable : bool;
  averageRating : JS.number;
  totalReviews : Z
}.
End Provider.

Module Category.
Record t : Type := mk {
  id : Z;
  name : string
}.
End Category.

Module Service.
Record t : Type := mk {
  id : Z;
  name : string;
  categoryId : Z;
  providerId : Z;
  basePrice : JS.number;
  duration : Z;
  isActive : bool;
  createdAt : Z
}.
End Service.

Module Status.
Inductive t : Type := PENDING | CONFIRMED | IN_PROGRESS | COMPLETED | CANCELLED.

Definition eqb (a b : t) : bool :=
  match a, b with
  | PENDING, PENDING | CONFIRMED, CONFIRMED | IN_PROGRESS, IN_PROGRESS
  | COMPLETED, COMPLETED | CANCELLED, CANCELLED => true
  | _, _ => false
  end.

Definition isIn (l : list t) (s : t) : bool := existsb (eqb s) l.

Definition toString (s : t) : string :=
  match s with
  | PENDING => "PENDING"
  | CONFIRMED => "CONFIRMED"
  | IN_PROGRESS => "IN_PROGRESS"
  | COMPLETED => "COMPLETED"
  | CANCELLED => "CANCELLED"
  end.
End Status.

Module Booking.
Record t : Type := mk {
  id : Z;
  bookingId : string;
  customerId : Z;
  serviceId : Z;
  providerId : Z;
  scheduledDate : Z;
  scheduledTime : string;
  duration : Z;
  totalPrice : JS.number;
  notes : option string;
  status : Status.t;
  cancellationReason : option string
}.

Definition setStatus (s : Status.t) (b : t) : t :=
  mk (id b) (bookingId b) (customerId b) (serviceId b) (providerId b)
     (scheduledDate b) (scheduledTime b) (duration b) (totalPrice b)
     (notes b) s (cancellationReason b).

Definition setCancellationReason (r : option string) (b : t) : t :=
  mk (id b) (bookingId b) (customerId b) (serviceId b) (providerId b)
     (scheduledDate b) (scheduledTime b) (duration b) (totalPrice b)
     (notes b) (status b) r.
End Booking.

Record DB : Type := mkDB {
  users : list User.t;
  providers : list Provider.t;
  categories : list Category.t;
  services : list Service.t;
  bookings : list Booking.t
}.

Definition withBookings (bs : list Booking.t) (db : DB) : DB :=
  mkDB (users db) (providers db) (categories db) (services db) bs.

(** ** Persistence layer (the Prisma calls the handlers make) *)

Module Prisma.

Definition findUser (db : DB) (i : Z) : option User.t :=
  find (fun u => User.id u =? i) (users db).

Definition findProvider (db : DB) (i : Z) : option Provider.t :=
  find (fun p => Provider.id p =? i) (providers db).

Definition findCategory (db : DB) (i : Z) : option Category.t :=
  find (fun c => Category.id c =? i) (categories db).

(** A service row with the relations the search route includes
    ([category], [provider], [provider.user]) and the [distance]
    property the route attaches later (undefined at first). *)
Record Found : Type := mkFound {
  service : Service.t;
  category : Category.t;
  provider : Provider.t;
  user : User.t;
  distance : JS.value
}.

Definition withDistance (d : JS.value) (s : Found) : Found :=
  mkFound (service s) (category s) (provider s) (user s) d.

(** The [include] of the search route.  Relations are required by the
    schema; a row whose relation does not resolve is not returned. *)
Definition include (db : DB) (s : Service.t) : option Found :=
  match findProvider db (Service.providerId s) with
  | None => None
  | Some p =>
      match findUser db (Provider.userId p), findCategory db (Service.categoryId s) with
      | Some u, Some c => Some (mkFound s c p u JS.Undefined)
      | _, _ => None
      end
  end.

Fixpoint includeAll (db : DB) (l : list Service.t) : list Found :=
  match l with
  | [] => []
  | s :: r =>
      match include db s with
      | Some f => f :: includeAll db r
      | None => includeAll db r
      end
  end.

(** The where clause the search route builds. *)
Record Where : Type := mkWhere {
  minAverageRating : JS.number;
  categoryContains : option string;
  basePriceRange : option (option JS.number * option JS.number)
}.

Definition inRange (r : option (option JS.number * option JS.number)) (x : JS.number) : bool :=
  match r with
  | None => true
  | Some (lo, hi) =>
      match lo with Some l => JS.geb x l | None => true end
      && match hi with Some h => JS.leb x h | None => true end
  end.

(** [isActive: true, provider: { isAvailable: true, averageRating: { gte } }],
    with the optional [category.name contains, insensitive] and
    [basePrice] bounds. *)
Definition matches (w : Where) (s : Found) : bool :=
  Service.isActive (service s)
  && Provider.isAvailable (provider s)
  && JS.geb (Provider.averageRating (provider s)) (minAverageRating w)
  && match categoryContains w with
     | Some c => JS.includes (JS.toLowerCase c) (JS.toLowerCase (Category.name (category s)))
     | None => true
     end
  && inRange (basePriceRange w) (Service.basePrice (service s)).

Definition candidates (db : DB) (w : Where) : list Found :=
  filter (matches w) (includeAll db (services db)).

(** [prisma.service.findMany({ where, include, skip, take })]. *)
Definition service_findMany (db : DB) (w : Where) (skip take : Z) : list Found :=
  firstn (Z.to_nat take) (skipn (Z.to_nat skip) (candidates db w)).

(** [prisma.service.count({ where })]. *)
Definition service_count (db : DB) (w : Where) : Z :=
  Z.of_nat (List.length (candidates db w)).

(** [prisma.service.findFirst({ where: { id, isActive: true }, include: { provider } })]. *)
Definition service_findFirst (db : DB) (i : Z) : option (Service.t * Provider.t) :=
  match find (fun s => (Service.id s =? i) && Service.isActive s) (services db) with
  | None => None
  | Some s =>
      match findProvider db (Service.providerId s) with
      | Some p => Some (s, p)
      | None => None
      end
  end.

(** [prisma.booking.findMany({ where: { providerId, scheduledDate, status: { in }, ... } })]
    with one more row predicate [extra]. *)
Definition booking_findMany (db : DB) (providerId date : Z) (statuses : list Status.t)
           (extra : Booking.t -> bool) : list Booking.t :=
  filter (fun b => (Booking.providerId b =? providerId)
                   && (Booking.scheduledDate b =? date)
                   && Status.isIn statuses (Booking.status b)
                   && extra b)
         (bookings db).

Definition nextId (db : DB) : Z :=
  1 + fold_right Z.max 0 (map Booking.id (bookings db)).

(** [prisma.booking.create({ data })].  The columns not in [data] take
    the schema defaults.
    Modelled from the spec: the defaults are not in the sources; a
    booking is created PENDING with no cancellation reason (section 3). *)
Definition booking_create (db : DB) (bookingId : string) (customerId serviceId providerId : Z)
           (scheduledDate : Z) (scheduledTime : string) (duration : Z)
           (totalPrice : JS.number) (notes : option string) : DB * Booking.t :=
  let b := Booking.mk (nextId db) bookingId customerId serviceId providerId
                      scheduledDate scheduledTime duration totalPrice notes
                      Status.PENDING None in
  (withBookings (bookings db ++ [b]) db, b).

(** [prisma.booking.findFirst({ where: { bookingId, provider: { userId } } })]. *)
Definition booking_findFirst (db : DB) (bookingId : string) (userId : Z) : option Booking.t :=
  find (fun b => String.eqb (Booking.bookingId b) bookingId
                 && match findProvider db (Booking.providerId b) with
                    | Some p => Provider.userId p =? userId
                    | None => false
                    end)
       (bookings db).

(** A field of [data] in an update: Prisma writes a value or null, and
    leaves the column as it is when the field is [undefined]. *)
Inductive Field (A : Type) : Type :=
| Skip
| SetNull
| SetTo (a : A).
Arguments Skip {A}.
Arguments SetNull {A}.
Arguments SetTo {A} a.

Definition applyField {A : Type} (f : Field A) (old : option A) : option A :=
  match f with
  | Skip => old
  | SetNull => None
  | SetTo a => Some a
  end.

Definition updateRow (s : Status.t) (r : Field string) (b : Booking.t) : Booking.t :=
  Booking.setCancellationReason (applyField r (Booking.cancellationReason b))
                                (Booking.setStatus s b).

(** [prisma.booking.update({ where: { id }, data: { status, cancellationReason } })]:
    the new table and the updated row. *)
Definition booking_update (db : DB) (i : Z) (s : Status.t) (r : Field string)
  : DB * option Booking.t :=
  (withBookings (map (fun b => if Booking.id b =? i then updateRow s r b else b) (bookings db)) db,
   option_map (updateRow s r) (find (fun b => Booking.id b =? i) (bookings db))).

End Prisma.

(** ** moment values *)

Module Moment.

(** A moment: the timestamp in milliseconds, or an invalid moment. *)
Definition t : Type := option Z.

(** [m.clone().add(n, 'minutes')]. *)
Definition add (m : t) (n : Z) : t := option_map (fun ms => ms + n * 60000) m.

(** [a.isBefore(b)] and [a.isAfter(b)]: false when either side is invalid. *)
Definition isBefore (a b : t) : bool :=
  match a, b with
  | Some x, Some y => x <? y
  | _, _ => false
  end.

Definition isAfter (a b : t) : bool :=
  match a, b with
  | Some x, Some y => y <? x
  | _, _ => false
  end.

End Moment.

(** ** HTTP and realtime vocabulary *)

(** What a handler sends: [res.status(400).json({ errors })] with the
    fields that failed validation, [res.status(code).json({ error })], or
    [res.status(code).json(body)]. *)
Inductive Response (A : Type) : Type :=
| Invalid (errors : list string)
| Failure (code : Z) (error : string)
| Success (code : Z) (body : A).
Arguments Invalid {A} errors.
Arguments Failure {A} code error.
Arguments Success {A} code body.

(** One validation chain: the field is reported when its check fails. *)
Definition check (field : string) (ok : bool) : list string :=
  if ok then [] else [field].

(** [.optional()]: an absent value passes. *)
Definition optional {A : Type} (v : option A) (ok : A -> bool) : bool :=
  match v with
  | Some a => ok a
  | None => true
  end.

Definition isEmpty {A : Type} (l : list A) : bool :=
  match l with
  | [] => true
  | _ :: _ => false
  end.

(** [io.to(room).emit(event, { type, booking, message })]. *)
Record Emission : Type := mkEmission {
  room : string;
  event : string;
  type : string;
  payload : Booking.t;
  text : string
}.

(** The socket server handle: what it has been asked to send. *)
Definition Server : Type := list Emission.

(** The process state a handler runs in: the database, the module
    variable [io] of lib/socket.js (undefined until [initializeSocket]),
    and the lines written to the console. *)
Record World : Type := mkWorld {
  db : DB;
  io : option Server;
  console : list string
}.

Definition withDb (d : DB) (w : World) : World := mkWorld d (io w) (console w).
Definition withIo (s : Server) (w : World) : World := mkWorld (db w) (Some s) (console w).
Definition log (line : string) (w : World) : World :=
  mkWorld (db w) (io w) (console w ++ [line]).

(** [getIO] of lib/socket.js. *)
Definition getIO (w : World) : JS.Error + Server :=
  match io w with
  | None => inl (JS.mkError "Socket.io not initialized")
  | Some s => inr s
  end.

(** ** Request shapes *)

Module SearchQuery.
Record t : Type := mk {
  category : option string;
  minRating : option string;
  maxDistance : option string;
  minPrice : option string;
  maxPrice : option string;
  latitude : option string;
  longitude : option string;
  sortBy : option string;
  page : option Z;
  limit : option Z
}.
End SearchQuery.

Record Pagination : Type := mkPagination {
  currentPage : Z;
  totalPages : Z;
  totalCount : Z;
  hasNext : bool;
  hasPrev : bool
}.

Module CreateBody.
Record t : Type := mk {
  serviceId : Z;
  scheduledDate : string;
  scheduledTime : string;
  notes : option string
}.
End CreateBody.

Module StatusBody.
Record t : Type := mk {
  bookingId : string;
  status : Status.t;
  cancellationReason : option string
}.
End StatusBody.

Module AvailabilityQuery.
Record t : Type := mk {
  serviceId : Z;
  date : string
}.
End AvailabilityQuery.

Record Slot : Type := mkSlot {
  time : string;
  available : bool
}.

(** ** Pure helpers of the routes *)

Definition isDigit (c : ascii) : bool :=
  ((48 <=? nat_of_ascii c) && (nat_of_ascii c <=? 57))%nat.

Definition charIn (lo hi : ascii) (c : ascii) : bool :=
  ((nat_of_ascii lo <=? nat_of_ascii c) && (nat_of_ascii c <=? nat_of_ascii hi))%nat.

(** The pattern [^([0-1]?[0-9]|2[0-3]):[0-5][0-9]$] of the create route. *)
Definition matchesTime (s : string) : bool :=
  match list_ascii_of_string s with
  | [h; colon; m1; m2] =>
      isDigit h && Ascii.eqb colon ":" && charIn "0" "5" m1 && isDigit m2
  | [h1; h2; colon; m1; m2] =>
      ((charIn "0" "1" h1 && isDigit h2) || (Ascii.eqb h1 "2" && charIn "0" "3" h2))
      && Ascii.eqb colon ":" && charIn "0" "5" m1 && isDigit m2
  | _ => false
  end.

(** The values a loop [for (let x = lo; x < hi; x += step)] takes. *)
Definition range (lo hi step : Z) : list Z :=
  map (fun k => lo + step * Z.of_nat k) (seq 0 (Z.to_nat ((hi - lo + step - 1) / step))).

(** [`${hour.toString().padStart(2, '0')}:${minute.toString().padStart(2, '0')}`]. *)
Definition timeString (hour minute : Z) : string :=
  (JS.padStart 2 "0" (JS.toString hour) ++ ":" ++ JS.padStart 2 "0" (JS.toString minute))%string.

(** [Math.ceil(a / b)] for [a >= 0] and [b > 0]. *)
Definition ceilDiv (a b : Z) : Z := (a + b - 1) / b.

(** ** Plain instances of the library functions

    The routes below are parametric in the library functions.  This module
    gives one executable instance of each, covering the plain shapes
    (calendar dates [YYYY-MM-DD], times [HH:MM], decimal numerals, UTC),
    on which the parametric theorems are run on concrete requests. *)

Module Plain.

Definition digit (c : ascii) : option Z :=
  if isDigit c then Some (Z.of_nat (nat_of_ascii c) - 48) else None.

Fixpoint numeralFrom (acc : Z) (s : string) : option Z :=
  match s with
  | EmptyString => Some acc
  | String c r =>
      match digit c with
      | Some d => numeralFrom (10 * acc + d) r
      | None => None
      end
  end.

(** A non-empty run of decimal digits. *)
Definition numeral (s : string) : option Z :=
  match s with
  | EmptyString => None
  | _ => numeralFrom 0 s
  end.

Definition isLeap (y : Z) : bool :=
  ((y mod 4 =? 0) && negb (y mod 100 =? 0)) || (y mod 400 =? 0).

Definition daysInMonth (y m : Z) : Z :=
  if m =? 2 then (if isLeap y then 29 else 28)
  else if (m =? 4) || (m =? 6) || (m =? 9) || (m =? 11) then 30
  else 31.

(** Days from 1970-01-01 to the civil date [y]-[m]-[d]. *)
Definition daysFromCivil (y m d : Z) : Z :=
  let y' := if m <=? 2 then y - 1 else y in
  let era := y' / 400 in
  let yoe := y' - era * 400 in
  let mp := (m + 9) mod 12 in
  let doy := (153 * mp + 2) / 5 + d - 1 in
  let doe := yoe * 365 + yoe / 4 - yoe / 100 + doy in
  era * 146097 + doe - 719468.

(** [YYYY-MM-DD] to the timestamp of its midnight. *)
Definition parseDate (s : string) : option Z :=
  if (Nat.eqb (String.length s) 10)
     && String.eqb (substring 4 1 s) "-" && String.eqb (substring 7 1 s) "-"
  then
    match numeral (substring 0 4 s), numeral (substring 5 2 s), numeral (substring 8 2 s) with
    | Some y, Some m, Some d =>
        if (1 <=? m) && (m <=? 12) && (1 <=? d) && (d <=? daysInMonth y m)
        then Some (daysFromCivil y m d * 86400000)
        else None
    | _, _, _ => None
    end
  else None.

(** [HH:MM] to the milliseconds since midnight. *)
Definition parseTime (s : string) : option Z :=
  if (Nat.eqb (String.length s) 5) && String.eqb (substring 2 1 s) ":"
  then
    match numeral (substring 0 2 s), numeral (substring 3 2 s) with
    | Some h, Some m =>
        if (h <=? 23) && (m <=? 59) then Some ((h * 60 + m) * 60000) else None
    | _, _ => None
    end
  else None.

(** [moment("YYYY-MM-DD HH:MM")] in a UTC process; any other text is an
    invalid moment here. *)
Definition moment (s : string) : Moment.t :=
  if (Nat.eqb (String.length s) 16) && String.eqb (substring 10 1 s) " "
  then
    match parseDate (substring 0 10 s), parseTime (substring 11 5 s) with
    | Some d, Some t => Some (d + t)
    | _, _ => None
    end
  else None.

Definition isISO8601 (s : string) : bool :=
  match parseDate s with
  | Some _ => true
  | None => false
  end.

(** [new Date("YYYY-MM-DD")]; texts [isISO8601] rejects never reach it
    and are sent to the epoch. *)
Definition newDate (s : string) : Z :=
  match parseDate s with
  | Some d => d
  | None => 0
  end.

Definition isHex (c : ascii) : bool :=
  isDigit c || charIn "a" "f" c || charIn "A" "F" c.

Fixpoint uuidShape (groups : list nat) (l : list ascii) : bool :=
  match groups with
  | [] => isEmpty l
  | n :: rest =>
      forallb isHex (firstn n l) && Nat.eqb (List.length (firstn n l)) n
      && match rest, skipn n l with
         | [], [] => true
         | _ :: _, dash :: l' => Ascii.eqb dash "-" && uuidShape rest l'
         | _, _ => false
         end
  end.

(** Hexadecimal groups 8-4-4-4-12. *)
Definition isUUID (s : string) : bool :=
  uuidShape [8; 4; 4; 4; 12]%nat (list_ascii_of_string s).

Definition splitSign (s : string) : bool * string :=
  match s with
  | String "-" r => (true, r)
  | String "+" r => (false, r)
  | _ => (false, s)
  end.

Definition pow10 (n : nat) : Z := 10 ^ Z.of_nat n.

(** Decimal numerals [[+-]digits[.digits]] as rationals. *)
Definition decimal (s : string) : option Q :=
  let (neg, body) := splitSign s in
  let i := match index 0 "." body with Some i => i | None => String.length body end in
  let whole := substring 0 i body in
  let frac := substring (i + 1) (String.length body - (i + 1)) body in
  match numeral whole with
  | None => None
  | Some w =>
      let f := if Nat.eqb (String.length frac) 0 then Some 0 else numeral frac in
      match f with
      | None => None
      | Some f =>
          let q := (inject_Z w + inject_Z f / inject_Z (pow10 (String.length frac)))%Q in
          Some (if neg then Qopp q else q)
      end
  end.

Definition isFloat (s : string) : bool :=
  match decimal s with
  | Some _ => true
  | None => false
  end.

Definition parseFloat (s : string) : JS.number :=
  match decimal s with
  | Some q => JS.Fin q
  | None => JS.NaN
  end.

Definition absDiff (a b : JS.number) : JS.number :=
  if JS.ltb a b then JS.sub b a else JS.sub a b.

Definition scale (k : Q) (n : JS.number) : JS.number :=
  match n with
  | JS.Fin q => JS.Fin (k * q)
  | other => other
  end.

(** A rational stand-in for the great-circle distance: the length of
    the path along the meridian and then along the equator, in km.  It
    is 0 exactly between identical points, as the Haversine value is. *)
Definition calculateDistance (lat1 lon1 lat2 lon2 : JS.number) : JS.number :=
  match absDiff lat1 lat2, absDiff lon1 lon2 with
  | JS.Fin a, JS.Fin b => scale ((6371 # 1) * (355 # 113) / (180 # 1)) (JS.Fin (a + b))
  | _, _ => JS.NaN
  end.

(** A transport that accepts every emission. *)
Definition emit (s : Server) (e : Emission) : JS.Error + Server := inr (s ++ [e])%list.

(** A transport that refuses every emission. *)
Definition emitRefused (s : Server) (e : Emission) : JS.Error + Server :=
  inl (JS.mkError "transport closed").

End Plain.

(** The statuses the create route treats as occupying the provider. *)
Definition activeStatuses : list Status.t :=
  [Status.PENDING; Status.CONFIRMED; Status.IN_PROGRESS].

(** ** Vocabulary of the specification *)

Module Spec.

(** The overlap test of section 4.3 on a slot and a booking:
    slotStart < bookingEnd and slotEnd > bookingStart, the ends being
    the starts plus the durations in minutes.  An unreadable start
    denotes no interval, and overlaps nothing. *)
Definition overlaps (slotStart : Moment.t) (serviceDuration : Z)
           (bookingStart : Moment.t) (bookingDuration : Z) : Prop :=
  exists s b,
    slotStart = Some s /\ bookingStart = Some b
    /\ s < b + bookingDuration * 60000
    /\ s + serviceDuration * 60000 > b.

(** The minute of the day an [H:MM] or [HH:MM] text names. *)
Definition minuteOfDay (s : string) : option Z :=
  match index 0 ":" s with
  | None => None
  | Some i =>
      match Plain.numeral (substring 0 i s),
            Plain.numeral (substring (i + 1) (String.length s - (i + 1)) s) with
      | Some h, Some m => Some (h * 60 + m)
      | _, _ => None
      end
  end.

Definition active (b : Booking.t) : bool :=
  Status.isIn activeStatuses (Booking.status b).

(** Two distinct active bookings of one provider on one date whose
    intervals [scheduledTime, scheduledTime + duration) overlap. *)
Definition clash (a b : Booking.t) : bool :=
  negb (Booking.id a =? Booking.id b)
  && active a && active b
  && (Booking.providerId a =? Booking.providerId b)
  && (Booking.scheduledDate a =? Booking.scheduledDate b)
  && match minuteOfDay (Booking.scheduledTime a), minuteOfDay (Booking.scheduledTime b) with
     | Some x, Some y => (x <? y + Booking.duration b) && (y <? x + Booking.duration a)
     | _, _ => false
     end.

(** The intended invariant of section 3: no two active bookings clash. *)
Definition noOverlap (d : DB) : bool :=
  forallb (fun a => forallb (fun b => negb (clash a b)) (bookings d)) (bookings d).

(** A stored coordinate that is exactly 0. *)
Definition exactlyZero (c : option JS.number) : Prop :=
  exists q, c = Some (JS.Fin q) /\ (q == 0)%Q.

(** A distance that is exactly 0, and one that is positive. *)
Definition zeroDistance (v : JS.value) : Prop :=
  exists q, v = JS.Num (JS.Fin q) /\ (q == 0)%Q.

Definition positiveDistance (v : JS.value) : Prop :=
  exists q, v = JS.Num (JS.Fin q) /\ (0 < q)%Q.

End Spec.

(** ** A sample marketplace *)

Module Sample.

Definition ann : User.t := User.mk 1 "Ann" (Some (JS.Fin 0)) (Some (JS.Fin 10)).
Definition bob : User.t := User.mk 2 "Bob" (Some (JS.Fin 1)) (Some (JS.Fin 1)).
Definition cy : User.t := User.mk 3 "Cy" (Some (JS.Fin 2)) (Some (JS.Fin 2)).
Definition dee : User.t := User.mk 4 "Dee" None None.

Definition annProvider : Provider.t := Provider.mk 10 1 true (JS.Fin 4) 7.
Definition bobProvider : Provider.t := Provider.mk 20 2 true (JS.Fin 5) 3.
Definition cyProvider : Provider.t := Provider.mk 30 3 true (JS.Fin 5) 9.

Definition cleaning : Category.t := Category.mk 1 "Cleaning".

Definition windows : Service.t := Service.mk 100 "Windows" 1 10 (JS.Fin 30) 60 true 1000.
Definition carpets : Service.t := Service.mk 200 "Carpets" 1 20 (JS.Fin 20) 60 true 2000.
Definition gutters : Service.t := Service.mk 300 "Gutters" 1 30 (JS.Fin 25) 60 true 3000.

Definition june1 : Z := Plain.newDate "2024-06-01".
Definition june2 : Z := Plain.newDate "2024-06-02".

(** Dee's confirmed booking of Bob at 10:00 for 60 minutes. *)
Definition atTen : Booking.t :=
  Booking.mk 1 "123e4567-e89b-42d3-a456-426614174000" 4 200 20 june1 "10:00" 60
             (JS.Fin 20) None Status.CONFIRMED None.

(** Dee's booking of Cy, cancelled with a reason. *)
Definition cancelled : Booking.t :=
  Booking.mk 2 "123e4567-e89b-42d3-a456-426614174001" 4 300 30 june2 "14:00" 60
             (JS.Fin 25) None Status.CANCELLED (Some "late").

Definition market : DB :=
  mkDB [ann; bob; cy; dee] [annProvider; bobProvider; cyProvider] [cleaning]
       [windows; carpets; gutters] [atTen; cancelled].

(** The process before [initializeSocket] has run. *)
Definition world : World := mkWorld market None [].

(** The process with the socket server initialised. *)
Definition online : World := mkWorld market (Some []) [].

Definition noQuery : SearchQuery.t :=
  SearchQuery.mk None None None None None None None None None None.

(** [?latitude=1&longitude=1&maxDistance=500]. *)
Definition nearby : SearchQuery.t :=
  SearchQuery.mk None None (Some "500") None None (Some "1") (Some "1") None None None.

(** [?latitude=1&longitude=1]. *)
Definition around : SearchQuery.t :=
  SearchQuery.mk None None None None None (Some "1") (Some "1") None None None.

(** [?latitude=1&longitude=1&sortBy=distance]. *)
Definition nearestFirst : SearchQuery.t :=
  SearchQuery.mk None None None None None (Some "1") (Some "1") (Some "distance") None None.

Definition carpetsOnJune1 : AvailabilityQuery.t := AvailabilityQuery.mk 200 "2024-06-01".

Definition carpetsAtHalfPastNine : CreateBody.t := CreateBody.mk 200 "2024-06-01" "09:30" None.
Definition guttersAtNine : CreateBody.t := CreateBody.mk 300 "2024-06-01" "09:00" (Some "ring twice").

(** Bodies of PATCH /bookings/:bookingId/status. *)
Definition cancelAtTen : StatusBody.t :=
  StatusBody.mk "123e4567-e89b-42d3-a456-426614174000" Status.CANCELLED (Some "sick").
Definition confirmAtTen : StatusBody.t :=
  StatusBody.mk "123e4567-e89b-42d3-a456-426614174000" Status.CONFIRMED None.
Definition cancelAgain : StatusBody.t :=
  StatusBody.mk "123e4567-e89b-42d3-a456-426614174001" Status.CANCELLED None.
Definition malformed : StatusBody.t := StatusBody.mk "42" Status.CONFIRMED None.
Definition backToPending : StatusBody.t :=
  StatusBody.mk "123e4567-e89b-42d3-a456-426614174000" Status.PENDING None.

(** The value [uuidv4()] returns in the sample runs. *)
Definition uuid : string := "123e4567-e89b-42d3-a456-426614174002".

End Sample.

(** ** Messages and accounts *)

(** Modelled from the spec: the Prisma schema is not among the sources.
    A message has the columns of section 3 that the mark_read handler
    reads or writes, with its sender and content. *)
Module Message.
Record t : Type := mk {
  id : Z;
  senderId : Z;
  receiverId : Z;
  content : string;
  isRead : bool
}.

Definition setRead (r : bool) (m : t) : t :=
  mk (id m) (senderId m) (receiverId m) (content m) r.
End Message.

(** Modelled from the spec: the credential columns of the user table,
    which only the auth routes read and write, with the columns those
    routes return. *)
Module Account.
Record t : Type := mk {
  id : Z;
  email : string;
  password : string;
  name : string;
  createdAt : Z
}.

(** The row without its password: the [select] of signup, the
    [userWithoutPassword] of signin. *)
Record Public : Type := mkPublic {
  publicId : Z;
  publicEmail : string;
  publicName : string;
  publicCreatedAt : Z
}.

Definition public (a : t) : Public := mkPublic (id a) (email a) (name a) (createdAt a).
End Account.

(** The body of POST /auth/signup and POST /auth/signin. *)
Module Credentials.
Record t : Type := mk {
  email : option string;
  password : option string;
  name : option string
}.
End Credentials.

(** What the auth routes answer on success. *)
Record Session : Type := mkSession {
  greeting : string;
  account : Account.Public;
  token : string
}.

(** What a socket handler sends back to its own socket:
    [socket.emit('messages_marked_read', messageIds)] or
    [socket.emit('error', { message })]. *)
Inductive Reply : Type :=
| MessagesMarkedRead (messageIds : list Z)
| SocketError (message : string).

(** The room every socket of a user joins, [`user_${userId}`]. *)
Definition personalRoom (userId : Z) : string := ("user_" ++ JS.toString userId)%string.

(** ** Plain instances of the token and password functions *)

Module PlainAuth.

(** A token that names its user in clear: [token:<id>]. *)
Definition jwtSign (userId : Z) : string := ("token:" ++ JS.toString userId)%string.

Definition jwtVerify (token : string) : option Z :=
  if String.prefix "token:" token
  then Plain.numeral (substring 6 (String.length token - 6) token)
  else None.

(** A digest that keeps the password in clear behind a tag. *)
Definition bcryptHash (password : string) : string := ("digest:" ++ password)%string.

Definition bcryptCompare (password digest : string) : bool :=
  String.eqb digest (bcryptHash password).

End PlainAuth.


(** The largest value of a Prisma [Int] column, a 32-bit signed integer.
    [isInt({ min: 1 })] accepts larger ids; the client refuses them
    before any query runs, and the catch of the route then logs the error
    and answers 500.  The handlers above stop short of that catch, so the
    facts about the lookup of a service are stated for ids up to this
    bound. *)
Definition int32Max : Z := 2147483647.

(** ** A sample inbox and sample accounts *)

Module Inbox.

(** Two messages for Bob and one for Cy, none read. *)
Definition forBob : Message.t := Message.mk 1 4 2 "When can you come?" false.
Definition forCy : Message.t := Message.mk 2 4 3 "Please bring a ladder" false.
Definition alsoForBob : Message.t := Message.mk 3 1 2 "Lunch?" false.

Definition messages : list Message.t := [forBob; forCy; alsoForBob].

Definition deeAccount : Account.t :=
  Account.mk 4 "dee@example.org" (PlainAuth.bcryptHash "opensesame") "Dee" 500.

Definition accounts : list Account.t := [deeAccount].

Definition eve : Credentials.t :=
  Credentials.mk (Some "eve@example.org") (Some "correct horse") (Some "Eve").

Definition eveShort : Credentials.t :=
  Credentials.mk (Some "eve@example.org") (Some "horse") (Some "Eve").

Definition deeAgain : Credentials.t :=
  Credentials.mk (Some "dee@example.org") (Some "another one") (Some "Dee").

Definition deeWrongPassword : Credentials.t :=
  Credentials.mk (Some "dee@example.org") (Some "guess") None.

Definition nobody : Credentials.t :=
  Credentials.mk (Some "nobody@example.org") (Some "guess") None.

End Inbox.

(** ** Dates that carry a time *)

(** The availability route takes any text [isISO8601()] accepts as its
    date, and an ISO 8601 text may carry a time: [2024-06-01T00:00:00Z].
    These instances read such a text as well as the plain calendar date. *)
Module Stamp.

(** [YYYY-MM-DDTHH:MM:SSZ] to its timestamp. *)
Definition parseDateTime (s : string) : option Z :=
  if (Nat.eqb (String.length s) 20)
     && String.eqb (substring 10 1 s) "T" && String.eqb (substring 13 1 s) ":"
     && String.eqb (substring 16 1 s) ":" && String.eqb (substring 19 1 s) "Z"
  then
    match Plain.parseDate (substring 0 10 s), Plain.numeral (substring 11 2 s),
          Plain.numeral (substring 14 2 s), Plain.numeral (substring 17 2 s) with
    | Some d, Some h, Some m, Some sec =>
        if (h <=? 23) && (m <=? 59) && (sec <=? 59)
        then Some (d + ((h * 60 + m) * 60 + sec) * 1000)
        else None
    | _, _, _, _ => None
    end
  else None.

(** A calendar date, or a date with its time. *)
Definition parse (s : string) : option Z :=
  match Plain.parseDate s with
  | Some d => Some d
  | None => parseDateTime s
  end.

Definition isISO8601 (s : string) : bool :=
  match parse s with
  | Some _ => true
  | None => false
  end.

(** [new Date(text)] in a UTC process; texts [isISO8601] rejects never
    reach it and are sent to the epoch. *)
Definition newDate (s : string) : Z :=
  match parse s with
  | Some t => t
  | None => 0
  end.

(** [moment(text)] in a UTC process: [YYYY-MM-DD HH:MM] and the date
    with its time are read.  A text with anything after the [Z] is not:
    the ISO 8601 pattern of moment is anchored at both ends, and the
    [Date] it falls back on does not read a second time of day. *)
Definition moment (s : string) : Moment.t :=
  match Plain.moment s with
  | Some t => Some t
  | None => parseDateTime s
  end.

End Stamp.

(** The overlap test of section 4.3 on the clock of the day: the slot
    [time, time + serviceDuration) against the booking
    [scheduledTime, scheduledTime + duration), both in minutes of the
    day; it reads the times alone, not the date text. *)
Definition overlapsOnTheClock (time : string) (serviceDuration : Z) (booking : Booking.t) : bool :=
  match Spec.minuteOfDay time, Spec.minuteOfDay (Booking.scheduledTime booking) with
  | Some slotStart, Some bookingStart =>
      (slotStart <? bookingStart + Booking.duration booking)
      && (bookingStart <? slotStart + serviceDuration)
  | _, _ => false
  end.

(** ** Further requests on the sample marketplace *)

Module Cases.

(** [?sortBy=price], [?sortBy=rating]. *)
Definition cheapestFirst : SearchQuery.t :=
  SearchQuery.mk None None None None None None None (Some "price") None None.
Definition bestFirst : SearchQuery.t :=
  SearchQuery.mk None None None None None None None (Some "rating") None None.

(** [?minPrice=20&maxPrice=28]. *)
Definition priced : SearchQuery.t :=
  SearchQuery.mk None None None (Some "20") (Some "28") None None None None None.

(** [?limit=51]. *)
Definition tooMany : SearchQuery.t :=
  SearchQuery.mk None None None None None None None None None (Some 51).

(** [?page=1&limit=1]. *)
Definition oneByOne : SearchQuery.t :=
  SearchQuery.mk None None None None None None None None (Some 1) (Some 1).

(** A pending booking of Bob at 11:00 on 2024-06-01. *)
Definition pendingAtEleven : Booking.t :=
  Booking.mk 7 "123e4567-e89b-42d3-a456-426614174007" 4 200 20 Sample.june1 "11:00" 60
             (JS.Fin 20) None Status.PENDING None.

(** [GET /bookings/availability/200?date=2024-06-01T00:00:00Z]: the day
    of [Sample.carpetsOnJune1], written with its time. *)
Definition carpetsOnJune1WithTime : AvailabilityQuery.t :=
  AvailabilityQuery.mk 200 "2024-06-01T00:00:00Z".

Definition unknownService : AvailabilityQuery.t := AvailabilityQuery.mk 999 "2024-06-01".
Definition unknownBody : CreateBody.t := CreateBody.mk 999 "2024-06-01" "09:00" None.

(** Bob's token. *)
Definition bobToken : option string := Some "token:2".
(** A token for an id no user has. *)
Definition ghostToken : option string := Some "token:77".

End Cases.

(** ** The socket server and the auth routes *)

Section Accounts.

(** *** The socket server (lib/socket.js) *)

(** [jwt.verify(token, process.env.JWT_SECRET).userId]: the user id the
    token carries, [None] when verification throws or the payload has no
    userId (the lookup by an undefined id throws as well). *)
Variable jwtVerify : string -> option Z.

(** The authentication middleware of [io.use]: the user the socket is
    bound to ([socket.user], [socket.userId]), or the error passed to
    [next]. *)
Definition authenticateSocket (d : DB) (token : option string) : JS.Error + User.t :=
  if negb (JS.given token) then inl (JS.mkError "Authentication error")
  else
    match token with
    | None => inl (JS.mkError "Authentication error")
    | Some t =>
        match jwtVerify t with
        | None => inl (JS.mkError "Authentication error")
        | Some userId =>
            match Prisma.findUser d userId with
            | None => inl (JS.mkError "User not found")
            | Some user => inr user
            end
        end
    end.

(** A connection: the middleware, then the connection handler, which
    joins the socket to the personal room of its user.  The result is
    the user and the rooms of the socket. *)
Definition connect (d : DB) (token : option string) : JS.Error + (User.t * list string) :=
  match authenticateSocket d token with
  | inl e => inl e
  | inr user => inr (user, [personalRoom (User.id user)])
  end.

(** [prisma.message.updateMany({ where: { id: { in: messageIds }, receiverId },
    data: { isRead: true } })]. *)
Definition message_updateMany (messages : list Message.t) (messageIds : list Z)
           (receiverId : Z) : list Message.t :=
  map (fun m => if existsb (Z.eqb (Message.id m)) messageIds
                   && (Message.receiverId m =? receiverId)
                then Message.setRead true m else m)
      messages.

(** The mark_read handler of the socket of user [socketUserId]. *)
Definition markRead (messages : list Message.t) (socketUserId : Z) (messageIds : list Z)
  : list Message.t * Reply :=
  (message_updateMany messages messageIds socketUserId, MessagesMarkedRead messageIds).

(** *** The auth routes *)

(** [jwt.sign({ userId }, process.env.JWT_SECRET, { expiresIn: '7d' })]
    as it signs during one request.  The token carries the times of
    issue and of expiry beside the user id, so the signer of a later
    request is another function. *)
Variable jwtSign : Z -> string.
(** [bcrypt.compare(password, digest)]. *)
Variable bcryptCompare : string -> string -> bool.

Definition generateToken (userId : Z) : string := jwtSign userId.

(** [prisma.user.findUnique({ where: { email } })]. *)
Definition account_findUnique (accounts : list Account.t) (email : string)
  : option Account.t :=
  find (fun a => String.eqb (Account.email a) email) accounts.

Definition account_nextId (accounts : list Account.t) : Z :=
  1 + fold_right Z.max 0 (map Account.id accounts).

(** A body field read as text: what the handler works with once the
    field has passed its truthiness test. *)
Definition field (v : option string) : string :=
  match v with
  | Some s => s
  | None => ""
  end.

(** POST /auth/signup.  [hashedPassword] is what [bcrypt.hash(password, 12)]
    resolves to in this run and [now] the creation time the database
    stamps. *)
Definition signup (accounts : list Account.t) (hashedPassword : string) (now : Z)
           (body : Credentials.t) : list Account.t * Response Session :=
  if negb (JS.given (Credentials.email body)) || negb (JS.given (Credentials.password body))
     || negb (JS.given (Credentials.name body))
  then (accounts, Failure 400 "Email, password, and name are required")
  else if (String.length (field (Credentials.password body)) <? 6)%nat
  then (accounts, Failure 400 "Password must be at least 6 characters long")
  else
    match account_findUnique accounts (field (Credentials.email body)) with
    | Some existingUser => (accounts, Failure 400 "User with this email already exists")
    | None =>
        let user := Account.mk (account_nextId accounts) (field (Credentials.email body))
                               hashedPassword (field (Credentials.name body)) now in
        let token := generateToken (Account.id user) in
        ((accounts ++ [user])%list,
         Success 201 (mkSession "User created successfully" (Account.public user) token))
    end.

(** POST /auth/signin. *)
Definition signin (accounts : list Account.t) (body : Credentials.t) : Response Session :=
  if negb (JS.given (Credentials.email body)) || negb (JS.given (Credentials.password body))
  then Failure 400 "Email and password are required"
  else
    match account_findUnique accounts (field (Credentials.email body)) with
    | None => Failure 401 "Invalid email or password"
    | Some user =>
        let isValidPassword :=
          bcryptCompare (field (Credentials.password body)) (Account.password user) in
        if negb isValidPassword then Failure 401 "Invalid email or password"
        else
          let token := generateToken (Account.id user) in
          Success 200 (mkSession "Sign in successful" (Account.public user) token)
    end.

End Accounts.

(** ** The route handlers *)

Section Routes.

(** [moment(text)]: the parsed moment, invalid ([None]) when moment
    cannot read the text. *)
Variable moment : string -> Moment.t.
(** [new Date(text)] as the timestamp stored in a DateTime column. *)
Variable newDate : string -> Z.
(** The validator.js checks behind [isISO8601()], [isUUID()], [isFloat()]. *)
Variable isISO8601 : string -> bool.
Variable isUUID : string -> bool.
Variable isFloat : string -> bool.
Variable parseFloat : string -> JS.number.
(** [calculateDistance(lat1, lon1, lat2, lon2)], the Haversine formula
    in floating point. *)
Variable calculateDistance : JS.number -> JS.number -> JS.number -> JS.number -> JS.number.
(** [io.to(room).emit(...)]: the server after the emission, or the
    error the transport throws. *)
Variable emit : Server -> Emission -> JS.Error + Server.

(** [parseFloat(v)] on a value that may be undefined. *)
Definition parseFloatOf (v : option string) : JS.number :=
  match v with
  | Some s => parseFloat s
  | None => JS.NaN
  end.

(** [isFloat({ min, max })]. *)
Definition isFloatWithin (lo hi : option JS.number) (s : string) : bool :=
  isFloat s
  && match lo with Some l => JS.geb (parseFloat s) l | None => true end
  && match hi with Some h => JS.leb (parseFloat s) h | None => true end.

(** *** GET /services *)

Definition validateSearch (q : SearchQuery.t) : list string :=
  check "category" (optional (SearchQuery.category q) (fun _ => true))
  ++ check "minRating" (optional (SearchQuery.minRating q)
                                 (isFloatWithin (Some (JS.Fin 0)) (Some (JS.Fin 5))))
  ++ check "maxDistance" (optional (SearchQuery.maxDistance q) (isFloatWithin (Some (JS.Fin 0)) None))
  ++ check "minPrice" (optional (SearchQuery.minPrice q) (isFloatWithin (Some (JS.Fin 0)) None))
  ++ check "maxPrice" (optional (SearchQuery.maxPrice q) (isFloatWithin (Some (JS.Fin 0)) None))
  ++ check "latitude" (optional (SearchQuery.latitude q) isFloat)
  ++ check "longitude" (optional (SearchQuery.longitude q) isFloat)
  ++ check "sortBy" (optional (SearchQuery.sortBy q)
                              (fun s => existsb (String.eqb s) ["price"; "rating"; "distance"; "newest"]))
  ++ check "page" (optional (SearchQuery.page q) (fun p => 1 <=? p))
  ++ check "limit" (optional (SearchQuery.limit q) (fun l => (1 <=? l) && (l <=? 50))).

Definition pageOf (q : SearchQuery.t) : Z :=
  match SearchQuery.page q with Some p => p | None => 1 end.

Definition limitOf (q : SearchQuery.t) : Z :=
  match SearchQuery.limit q with Some l => l | None => 20 end.

Definition skipOf (q : SearchQuery.t) : Z := (pageOf q - 1) * limitOf q.

Definition takeOf (q : SearchQuery.t) : Z := limitOf q.

Definition whereClause (q : SearchQuery.t) : Prisma.Where :=
  Prisma.mkWhere
    (match SearchQuery.minRating q with Some s => parseFloat s | None => JS.zero end)
    (if JS.given (SearchQuery.category q) then SearchQuery.category q else None)
    (if JS.given (SearchQuery.minPrice q) || JS.given (SearchQuery.maxPrice q)
     then Some (if JS.given (SearchQuery.minPrice q)
                then Some (parseFloatOf (SearchQuery.minPrice q)) else None,
                if JS.given (SearchQuery.maxPrice q)
                then Some (parseFloatOf (SearchQuery.maxPrice q)) else None)
     else None).

(** The callback of the distance filter. *)
Definition withinDistance (q : SearchQuery.t) (s : Prisma.Found) : bool :=
  let providerLat := User.latitude (Prisma.user s) in
  let providerLon := User.longitude (Prisma.user s) in
  match providerLat, providerLon with
  | Some lat, Some lon =>
      if negb (JS.truthy lat) || negb (JS.truthy lon) then false
      else
        let distance := calculateDistance (parseFloatOf (SearchQuery.latitude q))
                                          (parseFloatOf (SearchQuery.longitude q))
                                          lat lon in
        JS.leb distance (parseFloatOf (SearchQuery.maxDistance q))
  | _, _ => false
  end.

(** The callback that adds [distance] to a service. *)
Definition attachDistance (q : SearchQuery.t) (s : Prisma.Found) : Prisma.Found :=
  let providerLat := User.latitude (Prisma.user s) in
  let providerLon := User.longitude (Prisma.user s) in
  let distance :=
    match providerLat, providerLon with
    | Some lat, Some lon =>
        if JS.truthy lat && JS.truthy lon
        then JS.Num (calculateDistance (parseFloatOf (SearchQuery.latitude q))
                                       (parseFloatOf (SearchQuery.longitude q))
                                       lat lon)
        else JS.Null
    | _, _ => JS.Null
    end in
  Prisma.withDistance distance s.

Definition byPrice (a b : Prisma.Found) : JS.number :=
  JS.sub (Service.basePrice (Prisma.service a)) (Service.basePrice (Prisma.service b)).

Definition byRating (a b : Prisma.Found) : JS.number :=
  JS.sub (Provider.averageRating (Prisma.provider b)) (Provider.averageRating (Prisma.provider a)).

Definition byDistance (a b : Prisma.Found) : JS.number :=
  JS.sub (JS.orInfinity (Prisma.distance a)) (JS.orInfinity (Prisma.distance b)).

Definition byNewest (a b : Prisma.Found) : JS.number :=
  JS.Fin (inject_Z (Service.createdAt (Prisma.service b) - Service.createdAt (Prisma.service a))).

Definition located (q : SearchQuery.t) : bool :=
  JS.given (SearchQuery.latitude q) && JS.given (SearchQuery.longitude q).

(** The [switch (sortBy)]. *)
Definition sortServices (q : SearchQuery.t) (l : list Prisma.Found) : list Prisma.Found :=
  let sortBy := match SearchQuery.sortBy q with Some s => s | None => "newest" end in
  if String.eqb sortBy "price" then JS.sort byPrice l
  else if String.eqb sortBy "rating" then JS.sort byRating l
  else if String.eqb sortBy "distance" then (if located q then JS.sort byDistance l else l)
  else JS.sort byNewest l.

Definition filterByDistance (q : SearchQuery.t) (l : list Prisma.Found) : list Prisma.Found :=
  if located q && JS.given (SearchQuery.maxDistance q) then filter (withinDistance q) l else l.

Definition addDistance (q : SearchQuery.t) (l : list Prisma.Found) : list Prisma.Found :=
  if located q then map (attachDistance q) l else l.

Definition searchServices (db : DB) (q : SearchQuery.t)
  : Response (list Prisma.Found * Pagination) :=
  let errors := validateSearch q in
  if negb (isEmpty errors) then Invalid errors
  else
    let skip := skipOf q in
    let take := takeOf q in
    let services := Prisma.service_findMany db (whereClause q) skip take in
    let services := filterByDistance q services in
    let services := addDistance q services in
    let services := sortServices q services in
    let totalCount := Prisma.service_count db (whereClause q) in
    Success 200 (services,
                 mkPagination (pageOf q) (ceilDiv totalCount take) totalCount
                              (skip + take <? totalCount) (1 <? pageOf q)).

(** *** Realtime notification of a route: the inner [try { ... } catch]. *)

Definition notify (w : World) (e : Emission) : World :=
  match getIO w with
  | inl socketError => log ("Socket notification failed: " ++ JS.message socketError) w
  | inr server =>
      match emit server e with
      | inl socketError => log ("Socket notification failed: " ++ JS.message socketError) w
      | inr server' => withIo server' w
      end
  end.

(** *** POST /bookings *)

Definition validateCreate (body : CreateBody.t) : list string :=
  check "serviceId" (1 <=? CreateBody.serviceId body)
  ++ check "scheduledDate" (isISO8601 (CreateBody.scheduledDate body))
  ++ check "scheduledTime" (matchesTime (CreateBody.scheduledTime body))
  ++ check "notes" (optional (CreateBody.notes body) (fun _ => true)).

(** The [conflictingBookings] query. *)
Definition conflictingBookings (d : DB) (provider : Provider.t) (body : CreateBody.t)
  : list Booking.t :=
  Prisma.booking_findMany d (Provider.id provider) (newDate (CreateBody.scheduledDate body))
    activeStatuses
    (fun b => String.leb (Booking.scheduledTime b) (CreateBody.scheduledTime body)).

(** [io.to(`user_${service.provider.userId}`).emit('new_booking', ...)];
    the customer included in the created booking is the authenticated
    user. *)
Definition newBookingEmission (user : User.t) (provider : Provider.t) (booking : Booking.t)
  : Emission :=
  mkEmission ("user_" ++ JS.toString (Provider.userId provider)) "new_booking"
             "NEW_BOOKING" booking ("New booking request from " ++ User.name user).

(** The handler, run for the authenticated [user] ([req.user]); [uuid]
    is the value [uuidv4()] returns in this run.  [notes] is the body
    field after the [trim()] of its validation chain. *)
Definition createBooking (w : World) (uuid : string) (user : User.t) (body : CreateBody.t)
  : World * Response (string * Booking.t) :=
  let errors := validateCreate body in
  if negb (isEmpty errors) then (w, Invalid errors)
  else
    let notes := option_map JS.trim (CreateBody.notes body) in
    let customerId := User.id user in
    match Prisma.service_findFirst (db w) (CreateBody.serviceId body) with
    | None => (w, Failure 404 "Service not found")
    | Some (service, provider) =>
        if negb (Provider.isAvailable provider)
        then (w, Failure 400 "Provider is currently unavailable")
        else
          let bookingDateTime :=
            moment (CreateBody.scheduledDate body ++ " " ++ CreateBody.scheduledTime body) in
          let endDateTime := Moment.add bookingDateTime (Service.duration service) in
          if (0 <? List.length (conflictingBookings (db w) provider body))%nat
          then (w, Failure 400 "Time slot is not available")
          else
            let (db', booking) :=
              Prisma.booking_create (db w) uuid customerId (Service.id service)
                (Provider.id provider) (newDate (CreateBody.scheduledDate body))
                (CreateBody.scheduledTime body) (Service.duration service)
                (Service.basePrice service)
                (if JS.given notes then notes else None) in
            let w' := notify (withDb db' w) (newBookingEmission user provider booking) in
            (w', Success 201 ("Booking created successfully", booking))
    end.

(** *** PATCH /bookings/:bookingId/status *)

Definition validateStatus (body : StatusBody.t) : list string :=
  check "bookingId" (isUUID (StatusBody.bookingId body))
  ++ check "status" (Status.isIn [Status.CONFIRMED; Status.IN_PROGRESS;
                                  Status.COMPLETED; Status.CANCELLED]
                                 (StatusBody.status body))
  ++ check "cancellationReason" (optional (StatusBody.cancellationReason body) (fun _ => true)).

(** [cancellationReason: status === 'CANCELLED' ? cancellationReason : null]. *)
Definition reasonField (body : StatusBody.t) : Prisma.Field string :=
  if Status.eqb (StatusBody.status body) Status.CANCELLED
  then match StatusBody.cancellationReason body with
       | Some r => Prisma.SetTo r
       | None => Prisma.Skip
       end
  else Prisma.SetNull.

(** [io.to(`user_${booking.customer.id}`).emit('booking_update', ...)]. *)
Definition statusEmission (booking updatedBooking : Booking.t) (status : Status.t) : Emission :=
  mkEmission ("user_" ++ JS.toString (Booking.customerId booking)) "booking_update"
             "BOOKING_STATUS_UPDATED" updatedBooking
             ("Your booking has been " ++ JS.toLowerCase (Status.toString status)).

Definition updateStatus (w : World) (user : User.t) (body : StatusBody.t)
  : World * Response (string * Booking.t) :=
  let errors := validateStatus body in
  if negb (isEmpty errors) then (w, Invalid errors)
  else
    let userId := User.id user in
    match Prisma.booking_findFirst (db w) (StatusBody.bookingId body) userId with
    | None => (w, Failure 404 "Booking not found")
    | Some booking =>
        match Prisma.booking_update (db w) (Booking.id booking) (StatusBody.status body)
                                    (reasonField body) with
        | (_, None) =>
            (log "Booking update error:" w, Failure 500 "Internal server error")
        | (db', Some updatedBooking) =>
            let w' :=
              notify (withDb db' w) (statusEmission booking updatedBooking (StatusBody.status body)) in
            (w', Success 200 ("Booking status updated successfully", updatedBooking))
        end
    end.

(** *** GET /bookings/availability/:serviceId *)

Definition validateAvailability (q : AvailabilityQuery.t) : list string :=
  check "serviceId" (1 <=? AvailabilityQuery.serviceId q)
  ++ check "date" (isISO8601 (AvailabilityQuery.date q)).

(** The callback of [existingBookings.some]: does the slot at [time]
    conflict with [booking]? *)
Definition conflicts (date time : string) (serviceDuration : Z) (booking : Booking.t) : bool :=
  let bookingStart := moment (date ++ " " ++ Booking.scheduledTime booking) in
  let bookingEnd := Moment.add bookingStart (Booking.duration booking) in
  let slotStart := moment (date ++ " " ++ time) in
  let slotEnd := Moment.add slotStart serviceDuration in
  Moment.isBefore slotStart bookingEnd && Moment.isAfter slotEnd bookingStart.

(** The two nested loops that fill [timeSlots]. *)
Definition timeSlots (date : string) (serviceDuration : Z) (existingBookings : list Booking.t)
  : list Slot :=
  flat_map (fun hour =>
    flat_map (fun minute =>
      let time := timeString hour minute in
      let isAvailable := negb (existsb (conflicts date time serviceDuration) existingBookings) in
      if isAvailable then [mkSlot time true] else [])
      (range 0 60 30))
    (range 9 18 1).

Definition existingBookings (d : DB) (provider : Provider.t) (date : string) : list Booking.t :=
  Prisma.booking_findMany d (Provider.id provider) (newDate date)
    [Status.CONFIRMED; Status.IN_PROGRESS] (fun _ => true).

Definition getAvailability (d : DB) (q : AvailabilityQuery.t) : Response (list Slot) :=
  let errors := validateAvailability q in
  if negb (isEmpty errors) then Invalid errors
  else
    match Prisma.service_findFirst d (AvailabilityQuery.serviceId q) with
    | None => Failure 404 "Service not found"
    | Some (service, provider) =>
        Success 200 (timeSlots (AvailabilityQuery.date q) (Service.duration service)
                               (existingBookings d provider (AvailabilityQuery.date q)))
    end.

(** *** Names for what the routes produce *)

(** The booking a successful run of the create route stores. *)
Definition created (w : World) (uuid : string) (user : User.t) (body : CreateBody.t)
           (service : Service.t) (provider : Provider.t) : Booking.t :=
  snd (Prisma.booking_create (db w) uuid (User.id user) (Service.id service)
         (Provider.id provider) (newDate (CreateBody.scheduledDate body))
         (CreateBody.scheduledTime body) (Service.duration service)
         (Service.basePrice service)
         (if JS.given (option_map JS.trim (CreateBody.notes body))
          then option_map JS.trim (CreateBody.notes body) else None)).

(** The error the realtime emission of [e] ends in, if it fails:
    thrown by [getIO] or by the transport. *)
Definition emissionError (w : World) (e : Emission) : option JS.Error :=
  match getIO w with
  | inl socketError => Some socketError
  | inr server =>
      match emit server e with
      | inl socketError => Some socketError
      | inr _ => None
      end
  end.

(** The page the search route fetches, before any distance filter. *)
Definition fetchedPage (d : DB) (q : SearchQuery.t) : list Prisma.Found :=
  firstn (Z.to_nat (takeOf q)) (skipn (Z.to_nat (skipOf q)) (Prisma.candidates d (whereClause q))).

(** The sort key of the distance comparator: [distance || Infinity]. *)
Definition distanceKey (s : Prisma.Found) : JS.number := JS.orInfinity (Prisma.distance s).

(** The same search on the following page: [page + 1], everything else
    as in [q]. *)
Definition nextPage (q : SearchQuery.t) : SearchQuery.t :=
  SearchQuery.mk (SearchQuery.category q) (SearchQuery.minRating q)
                 (SearchQuery.maxDistance q) (SearchQuery.minPrice q)
                 (SearchQuery.maxPrice q) (SearchQuery.latitude q)
                 (SearchQuery.longitude q) (SearchQuery.sortBy q)
                 (Some (pageOf q + 1)) (SearchQuery.limit q).

(** The times the two loops of the availability route go through. *)
Definition gridTimes : list string :=
  flat_map (fun hour => map (timeString hour) (range 0 60 30)) (range 9 18 1).

(** *** GET /popular *)

(** The where clause of the route: [isActive: true,
    provider: { isAvailable: true, averageRating: { gte: 4.0 } }]. *)
Definition popular (s : Prisma.Found) : bool :=
  Service.isActive (Prisma.service s)
  && Provider.isAvailable (Prisma.provider s)
  && JS.geb (Provider.averageRating (Prisma.provider s)) (JS.Fin 4).

Definition byReviews (a b : Prisma.Found) : JS.number :=
  JS.Fin (inject_Z (Provider.totalReviews (Prisma.provider b)
                    - Provider.totalReviews (Prisma.provider a))).

(** [_count: { select: { bookings: true } }]. *)
Definition bookingCount (d : DB) (s : Service.t) : Z :=
  Z.of_nat (List.length (filter (fun b => Booking.serviceId b =? Service.id s) (bookings d))).

(** The handler.  [orderBy: [{ provider: { averageRating: 'desc' } },
    { provider: { totalReviews: 'desc' } }]] is the stable sort on the
    rating of the stable sort on the reviews; [take: 10] cuts it. *)
Definition getPopular (d : DB) : Response (list (Prisma.Found * Z)) :=
  let popularServices :=
    firstn 10 (JS.sort byRating
                       (JS.sort byReviews
                                (filter popular (Prisma.includeAll d (services d))))) in
  Success 200 (map (fun s => (s, bookingCount d (Prisma.service s))) popularServices).

(** ** Properties *)

(** *** Facts about the persistence queries *)

Lemma booking_findMany_In (d : DB) (providerId date : Z) (statuses : list Status.t)
      (extra : Booking.t -> bool) (b : Booking.t) :
  In b (Prisma.booking_findMany d providerId date statuses extra)
  <-> In b (bookings d)
      /\ Booking.providerId b = providerId
      /\ Booking.scheduledDate b = date
      /\ Status.isIn statuses (Booking.status b) = true
      /\ extra b = true.
Proof.
  unfold Prisma.booking_findMany.
  rewrite filter_In, !andb_true_iff, !Z.eqb_eq.
  tauto.
Qed.

Lemma Status_eqb_eq (a b : Status.t) : Status.eqb a b = true <-> a = b.
Proof. destruct a, b; simpl; split; congruence. Qed.

Lemma Status_isIn_In (l : list Status.t) (s : Status.t) :
  Status.isIn l s = true <-> In s l.
Proof.
  unfold Status.isIn.
  rewrite existsb_exists.
  split.
  - intros (x & Hx & E). apply Status_eqb_eq in E. now subst.
  - intros H. exists s. split; [exact H | now apply Status_eqb_eq].
Qed.

Lemma isEmpty_nil {A : Type} (l : list A) : isEmpty l = true <-> l = [].
Proof. destruct l; simpl; split; congruence. Qed.

(** *** The availability calculator *)

(** A slot is in the output exactly when it is a grid time that
    conflicts with no existing booking. *)
Lemma timeSlots_In (date : string) (serviceDuration : Z) (existing : list Booking.t)
      (slot : Slot) :
  In slot (timeSlots date serviceDuration existing)
  <-> exists hour minute,
      In hour (range 9 18 1) /\ In minute (range 0 60 30)
      /\ slot = mkSlot (timeString hour minute) true
      /\ existsb (conflicts date (timeString hour minute) serviceDuration) existing = false.
Proof.
  unfold timeSlots.
  rewrite in_flat_map.
  split.
  - intros (hour & Hh & Hin).
    apply in_flat_map in Hin.
    destruct Hin as (minute & Hm & Hin).
    exists hour, minute.
    destruct (existsb _ existing) eqn:E; simpl in Hin.
    + contradiction.
    + destruct Hin as [<- | []]. auto.
  - intros (hour & minute & Hh & Hm & -> & E).
    exists hour. split; [exact Hh |].
    apply in_flat_map.
    exists minute. split; [exact Hm |].
    rewrite E. simpl. now left.
Qed.

(** The code's conflict test decides the overlap of the specification. *)
Lemma conflicts_overlaps (date time : string) (serviceDuration : Z) (booking : Booking.t) :
  conflicts date time serviceDuration booking = true
  <-> Spec.overlaps (moment (date ++ " " ++ time)) serviceDuration
                    (moment (date ++ " " ++ Booking.scheduledTime booking))
                    (Booking.duration booking).
Proof.
  unfold conflicts, Spec.overlaps.
  destruct (moment (date ++ " " ++ time)) as [s |];
    destruct (moment (date ++ " " ++ Booking.scheduledTime booking)) as [b |]; simpl.
  - rewrite andb_true_iff, !Z.ltb_lt.
    split.
    + intros [H1 H2]. exists s, b. repeat split; lia.
    + intros (s' & b' & Es & Eb & H1 & H2).
      injection Es as <-. injection Eb as <-. lia.
  - split; [discriminate | intros (s' & b' & _ & Eb & _); discriminate].
  - split; [discriminate | intros (s' & b' & Es & _); discriminate].
  - split; [discriminate | intros (s' & b' & Es & _); discriminate].
Qed.

(** X29.  Whatever the service, the date and the provider's bookings,
    no slot the availability route returns passes the route's own test
    against a CONFIRMED or IN_PROGRESS booking of that provider on that
    date: whenever moment reads the date with the time of the slot and
    with the time of the booking, the two instants it reads do not
    satisfy slotStart < bookingEnd and slotEnd > bookingStart.  Nothing
    is said of a text moment does not read. *)
Theorem availability_slots_overlap_no_booking :
  forall (d : DB) (q : AvailabilityQuery.t) (slots : list Slot)
         (service : Service.t) (provider : Provider.t),
    getAvailability d q = Success 200 slots ->
    Prisma.service_findFirst d (AvailabilityQuery.serviceId q) = Some (service, provider) ->
    forall (slot : Slot) (booking : Booking.t),
      In slot slots ->
      In booking (bookings d) ->
      Booking.providerId booking = Provider.id provider ->
      Booking.scheduledDate booking = newDate (AvailabilityQuery.date q) ->
      Booking.status booking = Status.CONFIRMED \/ Booking.status booking = Status.IN_PROGRESS ->
      ~ Spec.overlaps (moment (AvailabilityQuery.date q ++ " " ++ time slot))
                      (Service.duration service)
                      (moment (AvailabilityQuery.date q ++ " " ++ Booking.scheduledTime booking))
                      (Booking.duration booking).
Proof.
  intros d q slots service provider Hrun Hfind slot booking Hslot Hb Hprov Hdate Hstatus.
  unfold getAvailability in Hrun.
  destruct (negb (isEmpty (validateAvailability q))); [discriminate |].
  rewrite Hfind in Hrun.
  injection Hrun as <-.
  apply timeSlots_In in Hslot.
  destruct Hslot as (hour & minute & _ & _ & -> & Hfree).
  cbn [time].
  rewrite <- conflicts_overlaps.
  intros Hconflict.
  assert (Hex : existsb (conflicts (AvailabilityQuery.date q) (timeString hour minute)
                                   (Service.duration service))
                        (existingBookings d provider (AvailabilityQuery.date q)) = true).
  { apply existsb_exists.
    exists booking. split; [| exact Hconflict].
    unfold existingBookings.
    apply booking_findMany_In.
    repeat split; auto.
    apply Status_isIn_In.
    simpl. destruct Hstatus as [-> | ->]; auto. }
  congruence.
Qed.

(** The loop counters: the hours 9 to 17 and the minutes 0 and 30. *)
Lemma grid_hours (hour : Z) : In hour (range 9 18 1) <-> 9 <= hour < 18.
Proof.
  change (range 9 18 1) with [9; 10; 11; 12; 13; 14; 15; 16; 17].
  simpl. lia.
Qed.

Lemma grid_minutes (minute : Z) : In minute (range 0 60 30) <-> minute = 0 \/ minute = 30.
Proof.
  change (range 0 60 30) with [0; 30].
  simpl. lia.
Qed.

(** On a date whose grid times moment reads as minutes after
    [midnight], the conflict with a booking at 10:00 for 60 minutes is a
    comparison of minutes of the day. *)
Lemma conflicts_with_ten (date : string) (midnight : Z) (booking : Booking.t)
      (hour minute : Z) :
  Booking.scheduledTime booking = "10:00" ->
  Booking.duration booking = 60 ->
  (forall h m, 9 <= h < 18 -> m = 0 \/ m = 30 ->
               moment (date ++ " " ++ timeString h m) = Some (midnight + (h * 60 + m) * 60000)) ->
  9 <= hour < 18 -> minute = 0 \/ minute = 30 ->
  conflicts date (timeString hour minute) 60 booking
  = (hour * 60 + minute <? 660) && (600 <? hour * 60 + minute + 60).
Proof.
  intros Htime Hdur Hread Hh Hm.
  unfold conflicts.
  rewrite Htime, Hdur.
  change "10:00" with (timeString 10 0).
  rewrite (Hread 10 0) by lia.
  rewrite (Hread hour minute Hh Hm).
  unfold Moment.add, Moment.isBefore, Moment.isAfter, option_map.
  f_equal.
  - destruct (Z.ltb_spec (midnight + (hour * 60 + minute) * 60000)
                         (midnight + (10 * 60 + 0) * 60000 + 60 * 60000));
      destruct (Z.ltb_spec (hour * 60 + minute) 660); try reflexivity; lia.
  - destruct (Z.ltb_spec (midnight + (10 * 60 + 0) * 60000)
                         (midnight + (hour * 60 + minute) * 60000 + 60 * 60000));
      destruct (Z.ltb_spec 600 (hour * 60 + minute + 60)); try reflexivity; lia.
Qed.

(** X30.  On a date that moment reads, with each time of the grid, as
    that many minutes after one midnight (a plain calendar date), a
    service of 60 minutes and a single CONFIRMED or IN_PROGRESS booking
    at 10:00 for 60 minutes: the output of the availability route lists
    09:00 and 11:00, lists neither 10:00 nor 10:30, and every slot it
    lists is a time of the 30-minute grid from 09:00 to 18:00
    (exclusive) tagged available. *)
Theorem availability_around_a_booking_at_ten :
  forall (d : DB) (q : AvailabilityQuery.t) (service : Service.t) (provider : Provider.t)
         (booking : Booking.t) (midnight : Z),
    validateAvailability q = [] ->
    Prisma.service_findFirst d (AvailabilityQuery.serviceId q) = Some (service, provider) ->
    Service.duration service = 60 ->
    existingBookings d provider (AvailabilityQuery.date q) = [booking] ->
    Booking.scheduledTime booking = "10:00" ->
    Booking.duration booking = 60 ->
    (forall h m, 9 <= h < 18 -> m = 0 \/ m = 30 ->
                 moment (AvailabilityQuery.date q ++ " " ++ timeString h m)
                 = Some (midnight + (h * 60 + m) * 60000)) ->
    exists slots,
      getAvailability d q = Success 200 slots
      /\ In (mkSlot "09:00" true) slots
      /\ In (mkSlot "11:00" true) slots
      /\ forall slot, In slot slots ->
           time slot <> "10:00" /\ time slot <> "10:30" /\ available slot = true
           /\ exists hour minute,
               9 <= hour < 18 /\ (minute = 0 \/ minute = 30)
               /\ time slot = timeString hour minute.
Proof.
  intros d q service provider booking midnight Hvalid Hfind Hdur Hex Htime Hbdur Hread.
  exists (timeSlots (AvailabilityQuery.date q) 60 [booking]).
  assert (Hat : forall hour minute, 9 <= hour < 18 -> minute = 0 \/ minute = 30 ->
                existsb (conflicts (AvailabilityQuery.date q) (timeString hour minute) 60) [booking]
                = (hour * 60 + minute <? 660) && (600 <? hour * 60 + minute + 60)).
  { intros hour minute Hh Hm. simpl existsb.
    rewrite orb_false_r.
    now apply conflicts_with_ten with (midnight := midnight). }
  split; [| split; [| split]].
  - unfold getAvailability.
    rewrite Hvalid. simpl. rewrite Hfind, Hex, Hdur. reflexivity.
  - apply timeSlots_In. exists 9, 0.
    rewrite grid_hours, grid_minutes, Hat by lia.
    repeat split; auto; lia.
  - apply timeSlots_In. exists 11, 0.
    rewrite grid_hours, grid_minutes, Hat by lia.
    repeat split; auto; lia.
  - intros slot Hslot.
    apply timeSlots_In in Hslot.
    destruct Hslot as (hour & minute & Hh & Hm & -> & Hfree).
    apply grid_hours in Hh. apply grid_minutes in Hm.
    rewrite Hat in Hfree by assumption.
    cbn [time available].
    assert (Hcases : In hour [9; 10; 11; 12; 13; 14; 15; 16; 17]) by (simpl; lia).
    repeat split; try (exists hour, minute; auto).
    + intros E. simpl in Hcases.
      destruct Hm as [-> | ->];
        repeat (destruct Hcases as [<- | Hcases]; [discriminate |]); contradiction.
    + intros E. simpl in Hcases.
      destruct Hm as [-> | ->];
        repeat (destruct Hcases as [<- | Hcases]; [discriminate |]); contradiction.
Qed.

(** *** Booking creation *)

Lemma notify_db (w : World) (e : Emission) : db (notify w e) = db w.
Proof.
  unfold notify.
  destruct (getIO w) as [err | server]; [reflexivity |].
  destruct (emit server e); reflexivity.
Qed.

Lemma service_findFirst_withBookings (d : DB) (bs : list Booking.t) (i : Z) :
  Prisma.service_findFirst (withBookings bs d) i = Prisma.service_findFirst d i.
Proof. reflexivity. Qed.







Lemma notify_failed (w : World) (e : Emission) (socketError : JS.Error) :
  emissionError w e = Some socketError ->
  notify w e = log ("Socket notification failed: " ++ JS.message socketError) w.
Proof.
  unfold emissionError, notify.
  destruct (getIO w) as [err | server].
  - now intros [= ->].
  - destruct (emit server e) as [err | server']; [now intros [= ->] | discriminate].
Qed.

(** C8.  Whenever POST /bookings stores a booking, the response is 201
    with that booking, whatever the socket server does; when the
    realtime emission fails (getIO throws because the server is not
    initialised, or the transport throws) the failure is logged and
    changes neither the status nor the body. *)
Theorem created_booking_is_answered_201 :
  forall (w : World) (uuid : string) (user : User.t) (body : CreateBody.t)
         (w' : World) (response : Response (string * Booking.t)),
    createBooking w uuid user body = (w', response) ->
    bookings (db w') <> bookings (db w) ->
    exists service provider,
      Prisma.service_findFirst (db w) (CreateBody.serviceId body) = Some (service, provider)
      /\ response = Success 201 ("Booking created successfully",
                                 created w uuid user body service provider)
      /\ bookings (db w') = (bookings (db w) ++ [created w uuid user body service provider])%list
      /\ forall socketError,
          emissionError w (newBookingEmission user provider
                                              (created w uuid user body service provider))
          = Some socketError ->
          console w'
          = (console w ++ [("Socket notification failed: " ++ JS.message socketError)%string])%list
          /\ io w' = io w.
Proof.
  intros w uuid user body w' response Hrun Hstored.
  unfold createBooking in Hrun.
  destruct (negb (isEmpty (validateCreate body)));
    [injection Hrun as <- <-; contradiction |].
  destruct (Prisma.service_findFirst (db w) (CreateBody.serviceId body))
    as [[service provider] |] eqn:Hfind;
    [| injection Hrun as <- <-; contradiction].
  destruct (negb (Provider.isAvailable provider));
    [injection Hrun as <- <-; contradiction |].
  destruct (0 <? List.length (conflictingBookings (db w) provider body))%nat;
    [injection Hrun as <- <-; contradiction |].
  cbv zeta in Hrun. unfold Prisma.booking_create in Hrun.
  injection Hrun as <- <-.
  exists service, provider.
  split; [reflexivity |].
  split; [reflexivity |].
  split; [now rewrite notify_db |].
  intros socketError Hfail.
  rewrite (notify_failed _ _ socketError).
  - split; reflexivity.
  - exact Hfail.
Qed.

(** *** Booking status transition *)

Lemma booking_findFirst_owned (d : DB) (bookingId : string) (userId : Z) (b : Booking.t) :
  Prisma.booking_findFirst d bookingId userId = Some b ->
  In b (bookings d)
  /\ Booking.bookingId b = bookingId
  /\ exists p, Prisma.findProvider d (Booking.providerId b) = Some p
               /\ Provider.userId p = userId.
Proof.
  unfold Prisma.booking_findFirst.
  intros H. apply find_some in H.
  destruct H as [Hin H].
  apply andb_true_iff in H. destruct H as [Hid Hown].
  apply String.eqb_eq in Hid.
  destruct (Prisma.findProvider d (Booking.providerId b)) as [p |]; [| discriminate].
  apply Z.eqb_eq in Hown.
  repeat split; auto. now exists p.
Qed.

(** C7, amended.  A PATCH /bookings/:bookingId/status request that
    passes validation, from a user who is not the user of the owning
    provider of any booking with that bookingId (in particular when no
    such booking exists), is answered 404 "Booking not found" and
    changes nothing. *)
Theorem status_update_by_stranger_is_404 :
  forall (w : World) (user : User.t) (body : StatusBody.t),
    validateStatus body = [] ->
    (forall b p,
        In b (bookings (db w)) ->
        Booking.bookingId b = StatusBody.bookingId body ->
        Prisma.findProvider (db w) (Booking.providerId b) = Some p ->
        Provider.userId p <> User.id user) ->
    updateStatus w user body = (w, Failure 404 "Booking not found").
Proof.
  intros w user body Hvalid Hstranger.
  unfold updateStatus.
  rewrite Hvalid. simpl.
  destruct (Prisma.booking_findFirst (db w) (StatusBody.bookingId body) (User.id user))
    as [b |] eqn:Hfind; [| reflexivity].
  apply booking_findFirst_owned in Hfind.
  destruct Hfind as (Hin & Hid & p & Hp & Hown).
  exfalso. exact (Hstranger b p Hin Hid Hp Hown).
Qed.

(** C6, amended.  After a successful PATCH /bookings/:bookingId/status
    the stored booking carries the target status, and its
    cancellationReason is the supplied reason when the target is
    CANCELLED and a reason is supplied, the reason stored before when
    the target is CANCELLED and none is supplied, and null for every
    other target. *)
Theorem status_update_cancellation_reason :
  forall (w : World) (user : User.t) (body : StatusBody.t)
         (w' : World) (message : string) (updated : Booking.t),
    updateStatus w user body = (w', Success 200 (message, updated)) ->
    In updated (bookings (db w'))
    /\ Booking.status updated = StatusBody.status body
    /\ (forall reason,
           StatusBody.status body = Status.CANCELLED ->
           StatusBody.cancellationReason body = Some reason ->
           Booking.cancellationReason updated = Some reason)
    /\ (StatusBody.status body = Status.CANCELLED ->
        StatusBody.cancellationReason body = None ->
        exists previous,
          In previous (bookings (db w))
          /\ Booking.id previous = Booking.id updated
          /\ Booking.cancellationReason updated = Booking.cancellationReason previous)
    /\ (StatusBody.status body <> Status.CANCELLED ->
        Booking.cancellationReason updated = None).
Proof.
  intros w user body w' message updated Hrun.
  unfold updateStatus in Hrun.
  destruct (negb (isEmpty (validateStatus body))); [discriminate |].
  destruct (Prisma.booking_findFirst (db w) (StatusBody.bookingId body) (User.id user))
    as [booking |]; [| discriminate].
  unfold Prisma.booking_update in Hrun.
  destruct (find (fun b => Booking.id b =? Booking.id booking) (bookings (db w)))
    as [row |] eqn:Hrow; simpl in Hrun; [| discriminate].
  injection Hrun as <- _ <-.
  apply find_some in Hrow. destruct Hrow as [Hin Hid].
  split; [| split; [| split; [| split]]].
  - rewrite notify_db. cbn [db withDb bookings withBookings].
    apply in_map_iff. exists row. now rewrite Hid.
  - reflexivity.
  - intros reason Hs Hr.
    unfold Prisma.updateRow, reasonField. rewrite Hs, Hr. reflexivity.
  - intros Hs Hr.
    exists row. split; [exact Hin |]. split; [reflexivity |].
    unfold Prisma.updateRow, reasonField. rewrite Hs, Hr. reflexivity.
  - intros Hs.
    unfold Prisma.updateRow, reasonField.
    destruct (Status.eqb (StatusBody.status body) Status.CANCELLED) eqn:E.
    + apply Status_eqb_eq in E. contradiction.
    + reflexivity.
Qed.

(** *** Array.prototype.sort *)

Section SortFacts.
Context {A : Type} (cmp : A -> A -> JS.number).

Lemma insert_Permutation (x : A) (l : list A) :
  Permutation (JS.insert cmp x l) (x :: l).
Proof.
  induction l as [| y r IH]; simpl.
  - apply Permutation_refl.
  - destruct (JS.after cmp x y).
    + apply perm_trans with (y :: x :: r).
      * now apply perm_skip.
      * apply perm_swap.
    + apply Permutation_refl.
Qed.

Lemma sort_Permutation (l : list A) : Permutation (JS.sort cmp l) l.
Proof.
  induction l as [| x r IH]; simpl.
  - apply perm_nil.
  - apply perm_trans with (x :: JS.sort cmp r).
    + apply insert_Permutation.
    + now apply perm_skip.
Qed.

(** On a comparator that orders its arguments consistently, the
    result is sorted: no element is strictly after a later one. *)
Hypothesis after_asym :
  forall a b, JS.after cmp a b = true -> JS.after cmp b a = false.
Hypothesis after_trans :
  forall a b c, JS.after cmp a b = false -> JS.after cmp b c = false ->
                JS.after cmp a c = false.

Lemma insert_sorted (x : A) (l : list A) :
  StronglySorted (fun a b => JS.after cmp a b = false) l ->
  StronglySorted (fun a b => JS.after cmp a b = false) (JS.insert cmp x l).
Proof.
  induction l as [| y r IH]; intros Hs; simpl.
  - constructor; constructor.
  - apply StronglySorted_inv in Hs. destruct Hs as [Hr Hy].
    destruct (JS.after cmp x y) eqn:E.
    + constructor; [now apply IH |].
      rewrite Forall_forall in Hy |- *.
      intros z Hz.
      apply (Permutation_in _ (insert_Permutation x r)) in Hz.
      destruct Hz as [<- | Hz]; [now apply after_asym | now apply Hy].
    + constructor; [now constructor |].
      constructor; [exact E |].
      rewrite Forall_forall in Hy |- *.
      intros z Hz. apply after_trans with y; auto.
Qed.

Lemma sort_sorted (l : list A) :
  StronglySorted (fun a b => JS.after cmp a b = false) (JS.sort cmp l).
Proof.
  induction l as [| x r IH]; simpl.
  - constructor.
  - now apply insert_sorted.
Qed.
End SortFacts.

Lemma StronglySorted_nth_error {A : Type} (R : A -> A -> Prop) (l : list A) :
  StronglySorted R l ->
  forall (i j : nat) (a b : A),
    (i < j)%nat -> nth_error l i = Some a -> nth_error l j = Some b -> R a b.
Proof.
  induction 1 as [| x r Hr IH Hx]; intros i j a b Hij Ha Hb.
  - destruct i; discriminate.
  - destruct j as [| j]; [lia |].
    simpl in Hb.
    destruct i as [| i]; simpl in Ha.
    + injection Ha as <-.
      rewrite Forall_forall in Hx. apply Hx.
      now apply nth_error_In with j.
    + apply (IH i j); auto. lia.
Qed.

(** *** The order of JavaScript numbers *)

Lemma ltb_Fin (x y : Q) : JS.ltb (JS.Fin x) (JS.Fin y) = true <-> (x < y)%Q.
Proof.
  simpl. rewrite negb_true_iff.
  split.
  - intros E. apply Qnot_le_lt. intros H.
    apply Qle_bool_iff in H. congruence.
  - intros H. destruct (Qle_bool y x) eqn:E; [| reflexivity].
    apply Qle_bool_iff in E. exfalso. now apply (Qlt_not_le x y).
Qed.

(** The sign of a difference is the order of its operands. *)
Lemma positive_difference (x y : JS.number) :
  x <> JS.NaN -> y <> JS.NaN ->
  JS.ltb JS.zero (JS.sub x y) = JS.ltb y x.
Proof.
  intros Hx Hy.
  destruct x as [| | x |], y as [| | y |]; try congruence; try reflexivity.
  apply eq_true_iff_eq.
  unfold JS.zero. cbn [JS.sub].
  rewrite !ltb_Fin.
  unfold Qminus. rewrite <- (Qlt_minus_iff y x). tauto.
Qed.

Lemma ltb_asym (x y : JS.number) : JS.ltb x y = true -> JS.ltb y x = false.
Proof.
  destruct x as [| | x |], y as [| | y |]; try reflexivity; try discriminate.
  intros H. apply ltb_Fin in H.
  apply not_true_iff_false. rewrite ltb_Fin.
  intros H'. exact (Qlt_irrefl x (Qlt_trans _ _ _ H H')).
Qed.

Lemma ltb_false_trans (x y z : JS.number) :
  x <> JS.NaN -> y <> JS.NaN -> z <> JS.NaN ->
  JS.ltb y x = false -> JS.ltb z y = false -> JS.ltb z x = false.
Proof.
  intros Hx Hy Hz.
  destruct x as [| | x |], y as [| | y |], z as [| | z |];
    try congruence; try reflexivity; try discriminate.
  rewrite <- !not_true_iff_false, !ltb_Fin.
  intros H1 H2 H3.
  apply Qnot_lt_le in H1. apply Qnot_lt_le in H2.
  apply (Qlt_not_le z x H3).
  now apply Qle_trans with y.
Qed.

Lemma orInfinity_not_NaN (v : JS.value) : JS.orInfinity v <> JS.NaN.
Proof.
  destruct v as [| | n]; try discriminate.
  simpl. destruct n; simpl; try discriminate.
  destruct (negb (Qeq_bool q 0)); discriminate.
Qed.

(** The distance comparator orders by [distanceKey]. *)
Lemma after_byDistance (a b : Prisma.Found) :
  JS.after byDistance a b = JS.ltb (distanceKey b) (distanceKey a).
Proof.
  unfold JS.after, byDistance.
  apply positive_difference; apply orInfinity_not_NaN.
Qed.

Lemma sort_byDistance_sorted (l : list Prisma.Found) :
  StronglySorted (fun a b => JS.after byDistance a b = false) (JS.sort byDistance l).
Proof.
  apply sort_sorted.
  - intros a b. rewrite !after_byDistance. apply ltb_asym.
  - intros a b c. rewrite !after_byDistance.
    apply ltb_false_trans; apply orInfinity_not_NaN.
Qed.

(** *** The search pipeline *)

Lemma check_nil (field : string) (ok : bool) : check field ok = [] <-> ok = true.
Proof. destruct ok; simpl; split; congruence. Qed.

(** What a successful search responds with. *)
Lemma searchServices_Success (d : DB) (q : SearchQuery.t)
      (services : list Prisma.Found) (pg : Pagination) :
  searchServices d q = Success 200 (services, pg) ->
  validateSearch q = []
  /\ services = sortServices q (addDistance q (filterByDistance q (fetchedPage d q)))
  /\ pg = mkPagination (pageOf q)
                       (ceilDiv (Prisma.service_count d (whereClause q)) (takeOf q))
                       (Prisma.service_count d (whereClause q))
                       (skipOf q + takeOf q <? Prisma.service_count d (whereClause q))
                       (1 <? pageOf q).
Proof.
  unfold searchServices.
  destruct (isEmpty (validateSearch q)) eqn:E; simpl; [| discriminate].
  apply isEmpty_nil in E.
  intros [= <- <-]. auto.
Qed.

Lemma validateSearch_paging (q : SearchQuery.t) :
  validateSearch q = [] -> 1 <= pageOf q /\ 1 <= limitOf q <= 50.
Proof.
  unfold validateSearch. intros H.
  do 8 (apply app_eq_nil in H; destruct H as [_ H]).
  apply app_eq_nil in H. destruct H as [Hp Hl].
  apply check_nil in Hp. apply check_nil in Hl.
  unfold pageOf, limitOf, optional in *.
  destruct (SearchQuery.page q), (SearchQuery.limit q);
    try (apply andb_true_iff in Hl; destruct Hl as [Hl1 Hl2];
         apply Z.leb_le in Hl1; apply Z.leb_le in Hl2);
    try apply Z.leb_le in Hp; lia.
Qed.

Lemma sortServices_Permutation (q : SearchQuery.t) (l : list Prisma.Found) :
  Permutation (sortServices q l) l.
Proof.
  unfold sortServices.
  repeat match goal with
         | |- context [if ?c then _ else _] => destruct c
         end;
    try apply sort_Permutation; apply Permutation_refl.
Qed.

Lemma fetchedPage_length (d : DB) (q : SearchQuery.t) :
  validateSearch q = [] ->
  Z.of_nat (List.length (fetchedPage d q))
  = Z.min (takeOf q) (Z.max 0 (Prisma.service_count d (whereClause q) - skipOf q)).
Proof.
  intros Hvalid.
  destruct (validateSearch_paging q Hvalid) as [Hp Hl].
  unfold fetchedPage, Prisma.service_count.
  rewrite length_firstn, length_skipn.
  assert (0 <= skipOf q) by (unfold skipOf; nia).
  unfold takeOf in *. lia.
Qed.

(** C4.  With origin coordinates and maxDistance supplied, the page is
    cut (skip, take) from the rows matching the where clause before the
    distance filter runs on it, and totalCount and totalPages count the
    rows matching the where clause, not the distance filter; so the
    services returned are the fetched page less the rows the distance
    filter drops, fewer than the page totalCount accounts for whenever
    it drops one. *)
Theorem pagination_precedes_distance_filter :
  forall (d : DB) (q : SearchQuery.t) (services : list Prisma.Found) (pg : Pagination),
    searchServices d q = Success 200 (services, pg) ->
    located q = true ->
    JS.given (SearchQuery.maxDistance q) = true ->
    services = sortServices q (map (attachDistance q)
                                   (filter (withinDistance q) (fetchedPage d q)))
    /\ totalCount pg = Z.of_nat (List.length (Prisma.candidates d (whereClause q)))
    /\ totalPages pg = ceilDiv (totalCount pg) (takeOf q)
    /\ Z.of_nat (List.length (fetchedPage d q))
       = Z.min (takeOf q) (Z.max 0 (totalCount pg - skipOf q))
    /\ (List.length services
        + List.length (filter (fun s => negb (withinDistance q s)) (fetchedPage d q))
        = List.length (fetchedPage d q))%nat.
Proof.
  intros d q services pg Hrun Hloc Hmax.
  apply searchServices_Success in Hrun.
  destruct Hrun as (Hvalid & -> & ->).
  unfold addDistance, filterByDistance.
  rewrite Hloc, Hmax. cbn [andb totalCount totalPages].
  split; [reflexivity |].
  split; [reflexivity |].
  split; [reflexivity |].
  split; [now apply fetchedPage_length |].
  rewrite (Permutation_length (sortServices_Permutation q _)).
  rewrite length_map.
  apply filter_length.
Qed.

Lemma exactlyZero_falsy (c : option JS.number) : Spec.exactlyZero c -> JS.present c = false.
Proof.
  intros (z & -> & Hz). simpl.
  apply Qeq_bool_iff in Hz. now rewrite Hz.
Qed.

Lemma attachDistance_user (q : SearchQuery.t) (s : Prisma.Found) :
  Prisma.user (attachDistance q s) = Prisma.user s.
Proof. reflexivity. Qed.

(** The distance filter keeps only rows whose two coordinates are truthy. *)
Lemma withinDistance_present (q : SearchQuery.t) (s : Prisma.Found) :
  withinDistance q s = true ->
  JS.present (User.latitude (Prisma.user s)) = true
  /\ JS.present (User.longitude (Prisma.user s)) = true.
Proof.
  unfold withinDistance.
  destruct (User.latitude (Prisma.user s)) as [lat |]; [| discriminate].
  destruct (User.longitude (Prisma.user s)) as [lon |]; [| discriminate].
  simpl.
  destruct (JS.truthy lat), (JS.truthy lon); simpl; try discriminate. auto.
Qed.

(** A row with a falsy coordinate gets the distance null. *)
Lemma attachDistance_falsy (q : SearchQuery.t) (s : Prisma.Found) :
  JS.present (User.latitude (Prisma.user s)) = false
  \/ JS.present (User.longitude (Prisma.user s)) = false ->
  Prisma.distance (attachDistance q s) = JS.Null.
Proof.
  unfold attachDistance. cbn [Prisma.distance Prisma.withDistance].
  destruct (User.latitude (Prisma.user s)) as [lat |]; [| reflexivity].
  destruct (User.longitude (Prisma.user s)) as [lon |]; [| reflexivity].
  simpl.
  intros [H | H]; rewrite H; [reflexivity | now rewrite andb_false_r].
Qed.

(** C9.  With latitude and longitude supplied: when maxDistance is
    supplied too, no returned service has a provider whose stored
    latitude or longitude is exactly 0, just as none has a provider
    lacking a coordinate; and whatever maxDistance is, a returned
    service whose provider has a coordinate that is exactly 0 or missing
    carries the distance null. *)
Theorem zero_coordinate_counts_as_missing :
  forall (d : DB) (q : SearchQuery.t) (services : list Prisma.Found) (pg : Pagination),
    searchServices d q = Success 200 (services, pg) ->
    located q = true ->
    (JS.given (SearchQuery.maxDistance q) = true ->
     forall s, In s services ->
       ~ Spec.exactlyZero (User.latitude (Prisma.user s))
       /\ ~ Spec.exactlyZero (User.longitude (Prisma.user s))
       /\ User.latitude (Prisma.user s) <> None
       /\ User.longitude (Prisma.user s) <> None)
    /\ (forall s, In s services ->
          Spec.exactlyZero (User.latitude (Prisma.user s))
          \/ Spec.exactlyZero (User.longitude (Prisma.user s))
          \/ User.latitude (Prisma.user s) = None
          \/ User.longitude (Prisma.user s) = None ->
          Prisma.distance s = JS.Null).
Proof.
  intros d q services pg Hrun Hloc.
  apply searchServices_Success in Hrun.
  destruct Hrun as (_ & -> & _).
  unfold addDistance. rewrite Hloc.
  split.
  - intros Hmax s Hs.
    apply (Permutation_in _ (sortServices_Permutation q _)) in Hs.
    apply in_map_iff in Hs. destruct Hs as (s0 & <- & Hs0).
    unfold filterByDistance in Hs0. rewrite Hloc, Hmax in Hs0. simpl in Hs0.
    apply filter_In in Hs0. destruct Hs0 as [_ Hwithin].
    apply withinDistance_present in Hwithin. destruct Hwithin as [Hlat Hlon].
    rewrite attachDistance_user.
    repeat split.
    + intros Hz. apply exactlyZero_falsy in Hz. congruence.
    + intros Hz. apply exactlyZero_falsy in Hz. congruence.
    + intros E. rewrite E in Hlat. discriminate.
    + intros E. rewrite E in Hlon. discriminate.
  - intros s Hs Hfalsy.
    apply (Permutation_in _ (sortServices_Permutation q _)) in Hs.
    apply in_map_iff in Hs. destruct Hs as (s0 & <- & _).
    rewrite attachDistance_user in Hfalsy.
    apply attachDistance_falsy.
    destruct Hfalsy as [Hz | [Hz | [E | E]]].
    + left. now apply exactlyZero_falsy.
    + right. now apply exactlyZero_falsy.
    + left. now rewrite E.
    + right. now rewrite E.
Qed.

(** C10.  With sortBy=distance and origin coordinates supplied, a
    service whose distance is exactly 0 is compared as if its distance
    were Infinity, and so stands after every service with a positive
    distance in the response. *)
Theorem zero_distance_sorts_as_infinity :
  forall (d : DB) (q : SearchQuery.t) (services : list Prisma.Found) (pg : Pagination),
    searchServices d q = Success 200 (services, pg) ->
    SearchQuery.sortBy q = Some "distance" ->
    located q = true ->
    forall (i j : nat) (s t : Prisma.Found),
      nth_error services i = Some s ->
      nth_error services j = Some t ->
      Spec.zeroDistance (Prisma.distance s) ->
      Spec.positiveDistance (Prisma.distance t) ->
      distanceKey s = JS.Infinity /\ (j < i)%nat.
Proof.
  intros d q services pg Hrun Hsort Hloc i j s t Hi Hj (z & Ez & Hz) (p & Ep & Hp).
  apply searchServices_Success in Hrun.
  destruct Hrun as (_ & -> & _).
  unfold sortServices in Hi, Hj.
  rewrite Hsort, Hloc in Hi, Hj. simpl in Hi, Hj.
  assert (Ks : distanceKey s = JS.Infinity).
  { unfold distanceKey. rewrite Ez. simpl.
    apply Qeq_bool_iff in Hz. now rewrite Hz. }
  assert (Kt : distanceKey t = JS.Fin p).
  { unfold distanceKey. rewrite Ep. simpl.
    destruct (Qeq_bool p 0) eqn:E; [| reflexivity].
    apply Qeq_bool_iff in E. rewrite E in Hp. now apply Qlt_irrefl in Hp. }
  split; [exact Ks |].
  destruct (Nat.lt_trichotomy i j) as [Hlt | [Heq | Hgt]]; [| | exact Hgt].
  - exfalso.
    pose proof (StronglySorted_nth_error _ _ (sort_byDistance_sorted _) i j s t Hlt Hi Hj)
      as Hord.
    simpl in Hord.
    rewrite after_byDistance, Ks, Kt in Hord. discriminate.
  - exfalso. subst j.
    assert (s = t) by congruence. subst t.
    rewrite Ks in Kt. discriminate.
Qed.

(** ** Further properties of the routes *)

(** *** The search pipeline: what a page holds *)




Lemma attachDistance_matches (w : Prisma.Where) (q : SearchQuery.t) (s : Prisma.Found) :
  Prisma.matches w (attachDistance q s) = Prisma.matches w s.
Proof. reflexivity. Qed.

(** Every returned service is a fetched row, with or without the
    distance attached. *)
Lemma returned_is_fetched (d : DB) (q : SearchQuery.t)
      (services : list Prisma.Found) (pg : Pagination) (s : Prisma.Found) :
  searchServices d q = Success 200 (services, pg) ->
  In s services ->
  exists s0, In s0 (fetchedPage d q)
             /\ (s = s0 \/ (located q = true /\ s = attachDistance q s0))
             /\ (located q && JS.given (SearchQuery.maxDistance q) = true ->
                 withinDistance q s0 = true).
Proof.
  intros Hrun Hs.
  apply searchServices_Success in Hrun.
  destruct Hrun as (_ & -> & _).
  apply (Permutation_in _ (sortServices_Permutation q _)) in Hs.
  unfold addDistance, filterByDistance in Hs.
  destruct (located q) eqn:Hloc; simpl in Hs.
  - apply in_map_iff in Hs. destruct Hs as (s0 & <- & Hs0).
    destruct (JS.given (SearchQuery.maxDistance q)) eqn:Hmax.
    + apply filter_In in Hs0. destruct Hs0 as [Hin Hwithin].
      exists s0. split; [exact Hin |]. split; [right; auto | auto].
    + exists s0. split; [exact Hs0 |]. split; [right; auto | discriminate].
  - exists s. split; [exact Hs |]. split; [left; reflexivity | discriminate].
Qed.

Lemma In_firstn {A : Type} (n : nat) (l : list A) (x : A) : In x (firstn n l) -> In x l.
Proof.
  intros H. rewrite <- (firstn_skipn n l). apply in_or_app. now left.
Qed.

Lemma In_skipn {A : Type} (n : nat) (l : list A) (x : A) : In x (skipn n l) -> In x l.
Proof.
  intros H. rewrite <- (firstn_skipn n l). apply in_or_app. now right.
Qed.

Lemma fetchedPage_candidates (d : DB) (q : SearchQuery.t) (s : Prisma.Found) :
  In s (fetchedPage d q) -> In s (Prisma.candidates d (whereClause q)).
Proof.
  unfold fetchedPage. intros H.
  apply In_firstn in H. now apply In_skipn in H.
Qed.

Lemma returned_matches (d : DB) (q : SearchQuery.t)
      (services : list Prisma.Found) (pg : Pagination) (s : Prisma.Found) :
  searchServices d q = Success 200 (services, pg) ->
  In s services ->
  Prisma.matches (whereClause q) s = true.
Proof.
  intros Hrun Hs.
  destruct (returned_is_fetched d q services pg s Hrun Hs) as (s0 & Hin & Hshape & _).
  apply fetchedPage_candidates in Hin.
  apply filter_In in Hin. destruct Hin as [_ Hm].
  destruct Hshape as [-> | [_ ->]]; [exact Hm | now rewrite attachDistance_matches].
Qed.

(** X2.  Every service a search returns satisfies the where clause: it
    is active, its provider is available and rated at least minRating
    (0 when none is given), and its base price is within the bounds
    given. *)
Theorem search_returns_only_matching_services :
  forall (d : DB) (q : SearchQuery.t) (services : list Prisma.Found) (pg : Pagination)
         (s : Prisma.Found),
    searchServices d q = Success 200 (services, pg) ->
    In s services ->
    Service.isActive (Prisma.service s) = true
    /\ Provider.isAvailable (Prisma.provider s) = true
    /\ JS.geb (Provider.averageRating (Prisma.provider s))
              (match SearchQuery.minRating q with
               | Some r => parseFloat r
               | None => JS.Fin 0
               end) = true
    /\ (forall lo, SearchQuery.minPrice q = Some lo -> lo <> "" ->
                   JS.geb (Service.basePrice (Prisma.service s)) (parseFloat lo) = true)
    /\ (forall hi, SearchQuery.maxPrice q = Some hi -> hi <> "" ->
                   JS.leb (Service.basePrice (Prisma.service s)) (parseFloat hi) = true).
Proof.
  intros d q services pg s Hrun Hs.
  pose proof (returned_matches d q services pg s Hrun Hs) as Hms.
  unfold Prisma.matches in Hms.
  repeat (apply andb_true_iff in Hms; destruct Hms as [Hms ?]).
  repeat split; auto.
  - intros lo Elo Hlo.
    assert (Hg : JS.given (Some lo) = true)
      by (simpl; apply negb_true_iff; now apply String.eqb_neq).
    unfold whereClause, Prisma.inRange in H. cbn [Prisma.basePriceRange] in H.
    rewrite Elo, Hg in H. cbn [orb parseFloatOf] in H.
    apply andb_true_iff in H. exact (proj1 H).
  - intros hi Ehi Hhi.
    assert (Hg : JS.given (Some hi) = true)
      by (simpl; apply negb_true_iff; now apply String.eqb_neq).
    unfold whereClause, Prisma.inRange in H. cbn [Prisma.basePriceRange] in H.
    rewrite Ehi, Hg in H. rewrite orb_true_r in H. cbn [parseFloatOf] in H.
    apply andb_true_iff in H. exact (proj2 H).
Qed.

(** X3.  With latitude, longitude and maxDistance supplied, every
    returned service carries the distance [calculateDistance] gives from
    the origin to its provider, and that distance is at most
    maxDistance. *)
Theorem search_returns_only_services_within_maxDistance :
  forall (d : DB) (q : SearchQuery.t) (services : list Prisma.Found) (pg : Pagination)
         (s : Prisma.Found),
    searchServices d q = Success 200 (services, pg) ->
    located q = true ->
    JS.given (SearchQuery.maxDistance q) = true ->
    In s services ->
    exists lat lon,
      User.latitude (Prisma.user s) = Some lat
      /\ User.longitude (Prisma.user s) = Some lon
      /\ Prisma.distance s
         = JS.Num (calculateDistance (parseFloatOf (SearchQuery.latitude q))
                                     (parseFloatOf (SearchQuery.longitude q)) lat lon)
      /\ JS.leb (calculateDistance (parseFloatOf (SearchQuery.latitude q))
                                   (parseFloatOf (SearchQuery.longitude q)) lat lon)
                (parseFloatOf (SearchQuery.maxDistance q)) = true.
Proof.
  intros d q services pg s Hrun Hloc Hmax Hs.
  apply searchServices_Success in Hrun. destruct Hrun as (_ & -> & _).
  apply (Permutation_in _ (sortServices_Permutation q _)) in Hs.
  unfold addDistance, filterByDistance in Hs. rewrite Hloc, Hmax in Hs. simpl in Hs.
  apply in_map_iff in Hs. destruct Hs as (s0 & <- & Hs0).
  apply filter_In in Hs0. destruct Hs0 as [_ Hwithin].
  revert Hwithin.
  unfold withinDistance, attachDistance.
  cbn [Prisma.user Prisma.withDistance Prisma.distance].
  destruct (User.latitude (Prisma.user s0)) as [lat |]; [| discriminate].
  destruct (User.longitude (Prisma.user s0)) as [lon |]; [| discriminate].
  destruct (JS.truthy lat), (JS.truthy lon); simpl; try discriminate.
  intros Hw. exists lat, lon. auto.
Qed.

(** *** The search pipeline: the order of the response *)

Section SortOn.
Context {A : Type} (cmp : A -> A -> JS.number) (P : A -> Prop).

(** Sortedness when the comparator is a consistent order on the
    elements that satisfy [P] (prices that are numbers, say). *)
Hypothesis after_asym_on :
  forall a b, P a -> P b -> JS.after cmp a b = true -> JS.after cmp b a = false.
Hypothesis after_trans_on :
  forall a b c, P a -> P b -> P c ->
                JS.after cmp a b = false -> JS.after cmp b c = false ->
                JS.after cmp a c = false.

Lemma insert_Forall (x : A) (l : list A) :
  P x -> Forall P l -> Forall P (JS.insert cmp x l).
Proof.
  intros Hx Hl.
  rewrite Forall_forall in Hl |- *.
  intros z Hz.
  apply (Permutation_in _ (insert_Permutation cmp x l)) in Hz.
  destruct Hz as [<- | Hz]; auto.
Qed.

Lemma insert_sorted_on (x : A) (l : list A) :
  P x -> Forall P l ->
  StronglySorted (fun a b => JS.after cmp a b = false) l ->
  StronglySorted (fun a b => JS.after cmp a b = false) (JS.insert cmp x l).
Proof.
  induction l as [| y r IH]; intros Hx Hl Hs; simpl.
  - constructor; constructor.
  - apply StronglySorted_inv in Hs. destruct Hs as [Hr Hy].
    apply Forall_cons_iff in Hl. destruct Hl as [Py Pr].
    destruct (JS.after cmp x y) eqn:E.
    + constructor; [now apply IH |].
      rewrite Forall_forall in Hy |- *.
      intros z Hz.
      apply (Permutation_in _ (insert_Permutation cmp x r)) in Hz.
      destruct Hz as [<- | Hz]; [now apply after_asym_on | now apply Hy].
    + constructor; [now constructor |].
      constructor; [exact E |].
      rewrite Forall_forall in Hy, Pr |- *.
      intros z Hz. apply after_trans_on with y; auto.
Qed.

Lemma sort_Forall (l : list A) : Forall P l -> Forall P (JS.sort cmp l).
Proof.
  intros Hl. rewrite Forall_forall in Hl |- *.
  intros z Hz. apply Hl.
  now apply (Permutation_in _ (sort_Permutation cmp l)).
Qed.

Lemma sort_sorted_on (l : list A) :
  Forall P l ->
  StronglySorted (fun a b => JS.after cmp a b = false) (JS.sort cmp l).
Proof.
  induction l as [| x r IH]; intros Hl; simpl.
  - constructor.
  - apply Forall_cons_iff in Hl. destruct Hl as [Px Pr].
    apply insert_sorted_on; auto.
    now apply sort_Forall.
Qed.
End SortOn.

Lemma ltb_false_leb (x y : JS.number) :
  x <> JS.NaN -> y <> JS.NaN -> JS.ltb y x = false -> JS.leb x y = true.
Proof.
  destruct x as [| | x |], y as [| | y |]; try congruence; try reflexivity; try discriminate.
  simpl. intros _ _ H. now apply negb_false_iff in H.
Qed.

Lemma leb_not_NaN (x y : JS.number) : JS.leb x y = true -> x <> JS.NaN /\ y <> JS.NaN.
Proof. destruct x, y; simpl; intros H; split; congruence. Qed.

Lemma after_difference {A : Type} (key : A -> JS.number) (a b : A) :
  key a <> JS.NaN -> key b <> JS.NaN ->
  JS.after (fun x y => JS.sub (key x) (key y)) a b = JS.ltb (key b) (key a).
Proof. intros Ha Hb. unfold JS.after. now apply positive_difference. Qed.

(** Sorting on a difference of keys that are numbers puts the keys in
    non-decreasing order. *)
Lemma sort_by_key_sorted {A : Type} (key : A -> JS.number) (l : list A) :
  Forall (fun a => key a <> JS.NaN) l ->
  forall (i j : nat) (a b : A),
    (i < j)%nat ->
    nth_error (JS.sort (fun x y => JS.sub (key x) (key y)) l) i = Some a ->
    nth_error (JS.sort (fun x y => JS.sub (key x) (key y)) l) j = Some b ->
    JS.leb (key a) (key b) = true.
Proof.
  intros Hl i j a b Hij Ha Hb.
  assert (Hs : StronglySorted
                 (fun a b => JS.after (fun x y => JS.sub (key x) (key y)) a b = false)
                 (JS.sort (fun x y => JS.sub (key x) (key y)) l)).
  { apply sort_sorted_on with (P := fun a => key a <> JS.NaN); [| | exact Hl].
    - intros x y Hx Hy. rewrite !after_difference by assumption. apply ltb_asym.
    - intros x y z Hx Hy Hz. rewrite !after_difference by assumption.
      now apply ltb_false_trans. }
  pose proof (StronglySorted_nth_error _ _ Hs i j a b Hij Ha Hb) as Hord.
  simpl in Hord.
  assert (Hsorted := sort_Forall (fun x y => JS.sub (key x) (key y))
                                 (fun a => key a <> JS.NaN) l Hl).
  rewrite Forall_forall in Hsorted.
  assert (Ka : key a <> JS.NaN) by (apply Hsorted; now apply nth_error_In with i).
  assert (Kb : key b <> JS.NaN) by (apply Hsorted; now apply nth_error_In with j).
  rewrite after_difference in Hord by assumption.
  now apply ltb_false_leb.
Qed.

Lemma sortServices_price (q : SearchQuery.t) (l : list Prisma.Found) :
  SearchQuery.sortBy q = Some "price" ->
  sortServices q l
  = JS.sort (fun x y => JS.sub (Service.basePrice (Prisma.service x))
                               (Service.basePrice (Prisma.service y))) l.
Proof. intros E. unfold sortServices. now rewrite E. Qed.

(** X4.  With sortBy=price the response is in non-decreasing order of
    base price, provided the prices returned are numbers (not NaN). *)
Theorem price_sort_is_ascending :
  forall (d : DB) (q : SearchQuery.t) (services : list Prisma.Found) (pg : Pagination),
    searchServices d q = Success 200 (services, pg) ->
    SearchQuery.sortBy q = Some "price" ->
    (forall s, In s services -> Service.basePrice (Prisma.service s) <> JS.NaN) ->
    forall (i j : nat) (a b : Prisma.Found),
      (i < j)%nat ->
      nth_error services i = Some a ->
      nth_error services j = Some b ->
      JS.leb (Service.basePrice (Prisma.service a))
             (Service.basePrice (Prisma.service b)) = true.
Proof.
  intros d q services pg Hrun Hsort Hnum i j a b Hij Ha Hb.
  apply searchServices_Success in Hrun.
  destruct Hrun as (_ & -> & _).
  rewrite (sortServices_price q _ Hsort) in Ha, Hb, Hnum.
  refine (sort_by_key_sorted (fun s => Service.basePrice (Prisma.service s)) _ _
                             i j a b Hij Ha Hb).
  apply Forall_forall. intros s Hs. apply Hnum.
  apply Permutation_in with (2 := Hs).
  apply Permutation_sym, sort_Permutation.
Qed.

(** Sorting on the reversed difference puts the keys in non-increasing
    order. *)
Lemma sort_by_key_descending {A : Type} (key : A -> JS.number) (l : list A) :
  Forall (fun a => key a <> JS.NaN) l ->
  forall (i j : nat) (a b : A),
    (i < j)%nat ->
    nth_error (JS.sort (fun x y => JS.sub (key y) (key x)) l) i = Some a ->
    nth_error (JS.sort (fun x y => JS.sub (key y) (key x)) l) j = Some b ->
    JS.leb (key b) (key a) = true.
Proof.
  intros Hl i j a b Hij Ha Hb.
  assert (Hafter : forall x y, key x <> JS.NaN -> key y <> JS.NaN ->
                     JS.after (fun x y => JS.sub (key y) (key x)) x y
                     = JS.ltb (key x) (key y)).
  { intros x y Hx Hy. unfold JS.after. now apply positive_difference. }
  assert (Hs : StronglySorted
                 (fun a b => JS.after (fun x y => JS.sub (key y) (key x)) a b = false)
                 (JS.sort (fun x y => JS.sub (key y) (key x)) l)).
  { apply sort_sorted_on with (P := fun a => key a <> JS.NaN); [| | exact Hl].
    - intros x y Hx Hy. rewrite !Hafter by assumption. apply ltb_asym.
    - intros x y z Hx Hy Hz. rewrite !Hafter by assumption.
      intros H1 H2. now apply (ltb_false_trans (key z) (key y) (key x)). }
  pose proof (StronglySorted_nth_error _ _ Hs i j a b Hij Ha Hb) as Hord.
  simpl in Hord.
  assert (Hsorted := sort_Forall (fun x y => JS.sub (key y) (key x))
                                 (fun a => key a <> JS.NaN) l Hl).
  rewrite Forall_forall in Hsorted.
  assert (Ka : key a <> JS.NaN) by (apply Hsorted; now apply nth_error_In with i).
  assert (Kb : key b <> JS.NaN) by (apply Hsorted; now apply nth_error_In with j).
  rewrite Hafter in Hord by assumption.
  now apply ltb_false_leb.
Qed.

(** X5.  With sortBy=rating the response is in non-increasing order of
    the provider's average rating. *)
Theorem rating_sort_is_descending :
  forall (d : DB) (q : SearchQuery.t) (services : list Prisma.Found) (pg : Pagination),
    searchServices d q = Success 200 (services, pg) ->
    SearchQuery.sortBy q = Some "rating" ->
    forall (i j : nat) (a b : Prisma.Found),
      (i < j)%nat ->
      nth_error services i = Some a ->
      nth_error services j = Some b ->
      JS.leb (Provider.averageRating (Prisma.provider b))
             (Provider.averageRating (Prisma.provider a)) = true.
Proof.
  intros d q services pg Hrun Hsort i j a b Hij Ha Hb.
  assert (Hnum : forall s, In s services ->
                           Provider.averageRating (Prisma.provider s) <> JS.NaN).
  { intros s Hs.
    pose proof (returned_matches d q services pg s Hrun Hs) as Hm.
    unfold Prisma.matches in Hm.
    repeat (apply andb_true_iff in Hm; destruct Hm as [Hm ?]).
    match goal with H : JS.geb _ _ = true |- _ => apply leb_not_NaN in H; exact (proj2 H) end. }
  apply searchServices_Success in Hrun.
  destruct Hrun as (_ & -> & _).
  assert (E : forall l, sortServices q l
                        = JS.sort (fun x y => JS.sub (Provider.averageRating (Prisma.provider y))
                                                     (Provider.averageRating (Prisma.provider x))) l).
  { intros l. unfold sortServices. now rewrite Hsort. }
  rewrite E in Ha, Hb, Hnum.
  refine (sort_by_key_descending (fun s => Provider.averageRating (Prisma.provider s)) _ _
                                 i j a b Hij Ha Hb).
  apply Forall_forall. intros s Hs. apply Hnum.
  apply Permutation_in with (2 := Hs).
  apply Permutation_sym, sort_Permutation.
Qed.

Lemma after_byNewest (a b : Prisma.Found) :
  JS.after byNewest a b
  = (Service.createdAt (Prisma.service a) <? Service.createdAt (Prisma.service b)).
Proof.
  unfold JS.after, byNewest.
  apply eq_true_iff_eq.
  unfold JS.zero. rewrite ltb_Fin, Z.ltb_lt.
  change 0%Q with (inject_Z 0). rewrite <- Zlt_Qlt. lia.
Qed.

(** X6.  With no sortBy, or sortBy=newest, the response is in
    non-increasing order of creation time: newest first. *)
Theorem default_sort_is_newest_first :
  forall (d : DB) (q : SearchQuery.t) (services : list Prisma.Found) (pg : Pagination),
    searchServices d q = Success 200 (services, pg) ->
    SearchQuery.sortBy q = None \/ SearchQuery.sortBy q = Some "newest" ->
    forall (i j : nat) (a b : Prisma.Found),
      (i < j)%nat ->
      nth_error services i = Some a ->
      nth_error services j = Some b ->
      Service.createdAt (Prisma.service b) <= Service.createdAt (Prisma.service a).
Proof.
  intros d q services pg Hrun Hsort i j a b Hij Ha Hb.
  apply searchServices_Success in Hrun.
  destruct Hrun as (_ & -> & _).
  assert (E : forall l, sortServices q l = JS.sort byNewest l).
  { intros l. unfold sortServices. destruct Hsort as [-> | ->]; reflexivity. }
  rewrite E in Ha, Hb.
  assert (Hs : StronglySorted (fun a b => JS.after byNewest a b = false)
                 (JS.sort byNewest (addDistance q (filterByDistance q (fetchedPage d q))))).
  { apply sort_sorted.
    - intros x y. rewrite !after_byNewest, Z.ltb_lt, Z.ltb_ge. lia.
    - intros x y z. rewrite !after_byNewest, !Z.ltb_ge. lia. }
  pose proof (StronglySorted_nth_error _ _ Hs i j a b Hij Ha Hb) as Hord.
  simpl in Hord.
  rewrite after_byNewest in Hord. now apply Z.ltb_ge in Hord.
Qed.

(** X7.  With sortBy=distance and origin coordinates supplied the
    response is in non-decreasing order of [distance || Infinity]; so a
    service whose distance is null (a provider without usable
    coordinates) stands after every service with a positive distance. *)
Theorem distance_sort_is_ascending_with_null_last :
  forall (d : DB) (q : SearchQuery.t) (services : list Prisma.Found) (pg : Pagination),
    searchServices d q = Success 200 (services, pg) ->
    SearchQuery.sortBy q = Some "distance" ->
    located q = true ->
    forall (i j : nat) (a b : Prisma.Found),
      nth_error services i = Some a ->
      nth_error services j = Some b ->
      ((i < j)%nat -> JS.leb (distanceKey a) (distanceKey b) = true)
      /\ (Prisma.distance a = JS.Null -> Spec.positiveDistance (Prisma.distance b) ->
          (j < i)%nat).
Proof.
  intros d q services pg Hrun Hsort Hloc i j a b Ha Hb.
  apply searchServices_Success in Hrun.
  destruct Hrun as (_ & -> & _).
  unfold sortServices in Ha, Hb.
  rewrite Hsort, Hloc in Ha, Hb. simpl in Ha, Hb.
  assert (Hlt : (i < j)%nat -> JS.leb (distanceKey a) (distanceKey b) = true).
  { intros Hij.
    pose proof (StronglySorted_nth_error _ _ (sort_byDistance_sorted _) i j a b Hij Ha Hb)
      as Hord.
    simpl in Hord. rewrite after_byDistance in Hord.
    apply ltb_false_leb; auto; apply orInfinity_not_NaN. }
  split; [exact Hlt |].
  intros Hnull (p & Ep & Hp).
  assert (Ka : distanceKey a = JS.Infinity) by (unfold distanceKey; now rewrite Hnull).
  assert (Kb : distanceKey b = JS.Fin p).
  { unfold distanceKey. rewrite Ep. simpl.
    destruct (Qeq_bool p 0) eqn:E; [| reflexivity].
    apply Qeq_bool_iff in E. rewrite E in Hp. now apply Qlt_irrefl in Hp. }
  destruct (Nat.lt_trichotomy i j) as [Hij | [Heq | Hgt]]; [| | exact Hgt].
  - exfalso. specialize (Hlt Hij). rewrite Ka, Kb in Hlt. discriminate.
  - exfalso. subst j. assert (a = b) by congruence. subst b.
    rewrite Ka in Kb. discriminate.
Qed.

(** *** The search pipeline: pages and their metadata *)

Lemma nextPage_shape (q : SearchQuery.t) :
  whereClause (nextPage q) = whereClause q
  /\ takeOf (nextPage q) = takeOf q
  /\ skipOf (nextPage q) = skipOf q + takeOf q.
Proof.
  split; [reflexivity |]. split; [reflexivity |].
  unfold takeOf, skipOf, nextPage, pageOf at 1. cbn [SearchQuery.page].
  unfold limitOf. cbn [SearchQuery.limit]. lia.
Qed.

Lemma skipOf_nonneg (q : SearchQuery.t) : validateSearch q = [] -> 0 <= skipOf q.
Proof.
  intros Hvalid. destruct (validateSearch_paging q Hvalid) as [Hp Hl].
  unfold skipOf. nia.
Qed.

Lemma fetchedPage_next (d : DB) (q : SearchQuery.t) :
  validateSearch q = [] ->
  fetchedPage d (nextPage q)
  = firstn (Z.to_nat (takeOf q))
           (skipn (Z.to_nat (takeOf q))
                  (skipn (Z.to_nat (skipOf q)) (Prisma.candidates d (whereClause q)))).
Proof.
  intros Hvalid.
  pose proof (skipOf_nonneg q Hvalid) as Hs.
  destruct (validateSearch_paging q Hvalid) as [_ Hl].
  destruct (nextPage_shape q) as (Ew & Et & Es).
  unfold fetchedPage. rewrite Ew, Et, Es, skipn_skipn.
  f_equal. f_equal. unfold takeOf in *. lia.
Qed.

(** X8.  Consecutive pages neither skip nor repeat a row: the rows
    matching the where clause are, in order, the rows of the earlier
    pages, the page fetched for [q], the page fetched for the following
    page number, and the rows after it. *)
Theorem consecutive_pages_partition_the_matches :
  forall (d : DB) (q : SearchQuery.t),
    validateSearch q = [] ->
    Prisma.candidates d (whereClause q)
    = (firstn (Z.to_nat (skipOf q)) (Prisma.candidates d (whereClause q))
       ++ fetchedPage d q
       ++ fetchedPage d (nextPage q)
       ++ skipn (Z.to_nat (skipOf q + 2 * takeOf q)) (Prisma.candidates d (whereClause q)))%list.
Proof.
  intros d q Hvalid.
  pose proof (skipOf_nonneg q Hvalid) as Hs.
  destruct (validateSearch_paging q Hvalid) as [_ Hl].
  rewrite (fetchedPage_next d q Hvalid).
  unfold fetchedPage.
  set (cands := Prisma.candidates d (whereClause q)).
  set (s := Z.to_nat (skipOf q)).
  set (t := Z.to_nat (takeOf q)).
  replace (Z.to_nat (skipOf q + 2 * takeOf q)) with (t + (t + s))%nat
    by (unfold s, t, takeOf in *; lia).
  rewrite <- !skipn_skipn.
  rewrite (firstn_skipn t (skipn t (skipn s cands))).
  rewrite (firstn_skipn t (skipn s cands)).
  now rewrite (firstn_skipn s cands).
Qed.

Lemma includeAll_distance (d : DB) (l : list Service.t) (s : Prisma.Found) :
  In s (Prisma.includeAll d l) -> Prisma.distance s = JS.Undefined.
Proof.
  induction l as [| x r IH]; simpl; [contradiction |].
  destruct (Prisma.include d x) as [f |] eqn:E; [| exact IH].
  intros [<- | H]; [| now apply IH].
  unfold Prisma.include in E.
  destruct (Prisma.findProvider d (Service.providerId x)); [| discriminate].
  destruct (Prisma.findUser d _); [| discriminate].
  destruct (Prisma.findCategory d _); [| discriminate].
  now injection E as <-.
Qed.

(** X9.  Without both origin coordinates the response holds exactly the
    fetched page, reordered by the sort, and no service carries a
    distance. *)
Theorem search_without_origin_attaches_no_distance :
  forall (d : DB) (q : SearchQuery.t) (services : list Prisma.Found) (pg : Pagination),
    searchServices d q = Success 200 (services, pg) ->
    located q = false ->
    Permutation services
                (Prisma.service_findMany d (whereClause q) (skipOf q) (takeOf q))
    /\ forall s, In s services -> Prisma.distance s = JS.Undefined.
Proof.
  intros d q services pg Hrun Hloc.
  apply searchServices_Success in Hrun.
  destruct Hrun as (_ & -> & _).
  unfold addDistance, filterByDistance. rewrite Hloc. simpl.
  split; [apply sortServices_Permutation |].
  intros s Hs.
  apply (Permutation_in _ (sortServices_Permutation q _)) in Hs.
  apply fetchedPage_candidates in Hs.
  apply filter_In in Hs. destruct Hs as [Hs _].
  now apply includeAll_distance in Hs.
Qed.

Lemma window_nonempty {A : Type} (n m : nat) (l : list A) :
  firstn n (skipn m l) <> [] <-> (0 < n /\ m < List.length l)%nat.
Proof.
  rewrite <- length_zero_iff_nil, length_firstn, length_skipn. lia.
Qed.

(** X10.  The pagination block agrees with the fetched pages: hasNext
    is true exactly when the following page would fetch a row, the page
    fetched is non-empty exactly when currentPage is at most totalPages,
    and hasPrev is true exactly on the pages after the first. *)
Theorem pagination_metadata_matches_the_pages :
  forall (d : DB) (q : SearchQuery.t) (services : list Prisma.Found) (pg : Pagination),
    searchServices d q = Success 200 (services, pg) ->
    (hasNext pg = true <-> fetchedPage d (nextPage q) <> [])
    /\ (fetchedPage d q <> [] <-> currentPage pg <= totalPages pg)
    /\ (hasPrev pg = true <-> 1 < currentPage pg)
    /\ currentPage pg = pageOf q.
Proof.
  intros d q services pg Hrun.
  apply searchServices_Success in Hrun.
  destruct Hrun as (Hvalid & _ & ->).
  cbn [hasNext hasPrev currentPage totalPages].
  pose proof (skipOf_nonneg q Hvalid) as Hs.
  destruct (validateSearch_paging q Hvalid) as [Hp Hl].
  destruct (nextPage_shape q) as (Ew & Et & Es).
  unfold Prisma.service_count.
  split; [| split; [| split]].
  - unfold fetchedPage. rewrite Ew, Et, Es, window_nonempty, Z.ltb_lt.
    unfold takeOf in *. lia.
  - unfold fetchedPage. rewrite window_nonempty.
    unfold ceilDiv, takeOf, skipOf in *.
    set (n := Z.of_nat (List.length (Prisma.candidates d (whereClause q)))).
    assert (Hn : 0 <= n) by (unfold n; lia).
    split.
    + intros [_ H].
      apply Z.div_le_lower_bound; [lia |].
      assert ((pageOf q - 1) * limitOf q < n) by (unfold n; lia). nia.
    + intros H.
      assert (limitOf q * pageOf q <= n + limitOf q - 1).
      { apply Z.le_trans with (limitOf q * ((n + limitOf q - 1) / limitOf q)).
        - apply Z.mul_le_mono_nonneg_l; lia.
        - apply Z.mul_div_le. lia. }
      assert ((pageOf q - 1) * limitOf q < n) by nia.
      unfold n in *. lia.
  - apply Z.ltb_lt.
  - reflexivity.
Qed.

Lemma invalid_search (d : DB) (q : SearchQuery.t) (field : string) :
  In field (validateSearch q) -> searchServices d q = Invalid (validateSearch q).
Proof.
  intros H. unfold searchServices.
  destruct (validateSearch q); [contradiction | reflexivity].
Qed.

(** X11.  A search whose limit is outside 1..50, whose page is below 1,
    or whose sortBy is not one of price, rating, distance and newest is
    answered 400 with the field among the errors. *)
Theorem search_rejects_paging_and_sort_out_of_range :
  forall (d : DB) (q : SearchQuery.t),
    (forall l, SearchQuery.limit q = Some l -> l < 1 \/ 50 < l ->
               exists errors, searchServices d q = Invalid errors /\ In "limit" errors)
    /\ (forall p, SearchQuery.page q = Some p -> p < 1 ->
                  exists errors, searchServices d q = Invalid errors /\ In "page" errors)
    /\ (forall s, SearchQuery.sortBy q = Some s ->
                  ~ In s ["price"; "rating"; "distance"; "newest"] ->
                  exists errors, searchServices d q = Invalid errors /\ In "sortBy" errors).
Proof.
  intros d q.
  assert (Hgo : forall field, In field (validateSearch q) ->
                  exists errors, searchServices d q = Invalid errors /\ In field errors).
  { intros field H. exists (validateSearch q). split; [| exact H].
    now apply invalid_search with field. }
  split; [| split].
  - intros l El Hl. apply Hgo.
    unfold validateSearch. do 9 (apply in_or_app; right).
    rewrite El. simpl.
    destruct (Z.leb_spec 1 l), (Z.leb_spec l 50); simpl; auto; lia.
  - intros p Ep Hp. apply Hgo.
    unfold validateSearch. do 8 (apply in_or_app; right). apply in_or_app; left.
    rewrite Ep. simpl.
    destruct (Z.leb_spec 1 p); simpl; auto; lia.
  - intros s Es Hs. apply Hgo.
    unfold validateSearch. do 7 (apply in_or_app; right). apply in_or_app; left.
    rewrite Es. cbn [optional].
    destruct (existsb (String.eqb s) ["price"; "rating"; "distance"; "newest"]) eqn:E.
    + exfalso. apply Hs.
      apply existsb_exists in E. destruct E as (x & Hx & Ex).
      apply String.eqb_eq in Ex. now subst.
    + simpl. auto.
Qed.

(** *** The availability calculator: the grid *)

Lemma flat_map_keep {A B C : Type} (g : A -> B) (keep : B -> bool) (f : B -> C) (l : list A) :
  flat_map (fun x => if keep (g x) then [f (g x)] else []) l
  = map f (filter keep (map g l)).
Proof.
  induction l as [| x r IH]; simpl; [reflexivity |].
  rewrite IH. now destruct (keep (g x)).
Qed.

Lemma flat_map_map_filter {A B C : Type} (G : A -> list B) (keep : B -> bool) (f : B -> C)
      (l : list A) :
  flat_map (fun x => map f (filter keep (G x))) l = map f (filter keep (flat_map G l)).
Proof.
  induction l as [| x r IH]; simpl; [reflexivity |].
  now rewrite IH, filter_app, map_app.
Qed.

(** The two loops filter the grid. *)
Lemma timeSlots_filter (date : string) (serviceDuration : Z) (existing : list Booking.t) :
  timeSlots date serviceDuration existing
  = map (fun t => mkSlot t true)
        (filter (fun t => negb (existsb (conflicts date t serviceDuration) existing))
                gridTimes).
Proof.
  unfold timeSlots, gridTimes.
  rewrite <- flat_map_map_filter.
  apply flat_map_ext. intros hour.
  apply (flat_map_keep (timeString hour)
                       (fun t => negb (existsb (conflicts date t serviceDuration) existing))
                       (fun t => mkSlot t true)).
Qed.

Lemma gridTimes_explicit :
  gridTimes = ["09:00"; "09:30"; "10:00"; "10:30"; "11:00"; "11:30";
               "12:00"; "12:30"; "13:00"; "13:30"; "14:00"; "14:30";
               "15:00"; "15:30"; "16:00"; "16:30"; "17:00"; "17:30"].
Proof. reflexivity. Qed.

Lemma gridTimes_NoDup : NoDup gridTimes.
Proof.
  rewrite gridTimes_explicit.
  repeat (constructor; [simpl; intuition discriminate |]).
  constructor.
Qed.

(** X12.  Whatever the bookings, the slots of a successful availability
    response are times of the grid 09:00, 09:30, ..., 17:30 kept in
    chronological order: at most 18 of them, none twice, all tagged
    available. *)
Theorem availability_slots_are_grid_times_in_order :
  forall (d : DB) (q : AvailabilityQuery.t) (slots : list Slot),
    getAvailability d q = Success 200 slots ->
    (exists keep,
        map time slots
        = filter keep ["09:00"; "09:30"; "10:00"; "10:30"; "11:00"; "11:30";
                       "12:00"; "12:30"; "13:00"; "13:30"; "14:00"; "14:30";
                       "15:00"; "15:30"; "16:00"; "16:30"; "17:00"; "17:30"])
    /\ (List.length slots <= 18)%nat
    /\ NoDup (map time slots)
    /\ Forall (fun slot => available slot = true) slots.
Proof.
  intros d q slots Hrun.
  unfold getAvailability in Hrun.
  destruct (negb (isEmpty (validateAvailability q))); [discriminate |].
  destruct (Prisma.service_findFirst d (AvailabilityQuery.serviceId q))
    as [[service provider] |]; [| discriminate].
  injection Hrun as <-.
  rewrite timeSlots_filter.
  set (keep := fun t => negb (existsb (conflicts (AvailabilityQuery.date q) t
                                                 (Service.duration service))
                                      (existingBookings d provider (AvailabilityQuery.date q)))).
  assert (Etimes : map time (map (fun t => mkSlot t true) (filter keep gridTimes))
                   = filter keep gridTimes).
  { rewrite map_map. simpl. apply map_id. }
  split; [| split; [| split]].
  - exists keep. now rewrite Etimes, gridTimes_explicit.
  - rewrite length_map.
    apply Nat.le_trans with (List.length gridTimes); [apply filter_length_le |].
    rewrite gridTimes_explicit. simpl. lia.
  - rewrite Etimes. apply NoDup_filter, gridTimes_NoDup.
  - apply Forall_forall. intros slot Hslot.
    apply in_map_iff in Hslot. now destruct Hslot as (t & <- & _).
Qed.

(** X13.  The converse of the no-overlap guarantee: a grid time whose
    slot overlaps no CONFIRMED or IN_PROGRESS booking of the provider on
    the date is listed. *)
Theorem free_grid_slot_is_listed :
  forall (d : DB) (q : AvailabilityQuery.t) (slots : list Slot)
         (service : Service.t) (provider : Provider.t) (hour minute : Z),
    getAvailability d q = Success 200 slots ->
    Prisma.service_findFirst d (AvailabilityQuery.serviceId q) = Some (service, provider) ->
    9 <= hour < 18 ->
    minute = 0 \/ minute = 30 ->
    (forall booking,
        In booking (bookings d) ->
        Booking.providerId booking = Provider.id provider ->
        Booking.scheduledDate booking = newDate (AvailabilityQuery.date q) ->
        Booking.status booking = Status.CONFIRMED
        \/ Booking.status booking = Status.IN_PROGRESS ->
        ~ Spec.overlaps (moment (AvailabilityQuery.date q ++ " " ++ timeString hour minute))
                        (Service.duration service)
                        (moment (AvailabilityQuery.date q ++ " "
                                 ++ Booking.scheduledTime booking))
                        (Booking.duration booking)) ->
    In (mkSlot (timeString hour minute) true) slots.
Proof.
  intros d q slots service provider hour minute Hrun Hfind Hh Hm Hfree.
  unfold getAvailability in Hrun.
  destruct (negb (isEmpty (validateAvailability q))); [discriminate |].
  rewrite Hfind in Hrun. injection Hrun as <-.
  apply timeSlots_In.
  exists hour, minute.
  rewrite grid_hours, grid_minutes.
  split; [exact Hh |]. split; [exact Hm |]. split; [reflexivity |].
  apply not_true_iff_false. intros Hex.
  apply existsb_exists in Hex. destruct Hex as (booking & Hin & Hconflict).
  unfold existingBookings in Hin.
  apply booking_findMany_In in Hin.
  destruct Hin as (Hb & Hp & Hd & Hs & _).
  apply Status_isIn_In in Hs. simpl in Hs.
  apply conflicts_overlaps in Hconflict.
  apply (Hfree booking); auto.
  destruct Hs as [<- | [<- | []]]; auto.
Qed.

Lemma existingBookings_insert (d : DB) (provider : Provider.t) (date : string)
      (before after : list Booking.t) (b : Booking.t) :
  bookings d = (before ++ after)%list ->
  Booking.status b <> Status.CONFIRMED ->
  Booking.status b <> Status.IN_PROGRESS ->
  existingBookings (withBookings (before ++ b :: after) d) provider date
  = existingBookings d provider date.
Proof.
  intros Hsplit Hc Hp.
  unfold existingBookings, Prisma.booking_findMany.
  cbn [bookings withBookings]. rewrite Hsplit.
  change (before ++ b :: after)%list with (before ++ [b] ++ after)%list.
  rewrite !filter_app.
  assert (E : Status.isIn [Status.CONFIRMED; Status.IN_PROGRESS] (Booking.status b) = false).
  { destruct (Booking.status b); simpl; congruence. }
  cbn [filter]. rewrite E, andb_false_r. reflexivity.
Qed.

(** X14.  Bookings that are PENDING, COMPLETED or CANCELLED take no slot
    off the list: storing one, anywhere in the table, leaves the answer
    of the availability route as it was. *)
Theorem availability_ignores_bookings_not_confirmed :
  forall (d : DB) (q : AvailabilityQuery.t) (before after : list Booking.t) (b : Booking.t),
    bookings d = (before ++ after)%list ->
    Booking.status b <> Status.CONFIRMED ->
    Booking.status b <> Status.IN_PROGRESS ->
    getAvailability (withBookings (before ++ b :: after) d) q = getAvailability d q.
Proof.
  intros d q before after b Hsplit Hc Hp.
  unfold getAvailability.
  rewrite service_findFirst_withBookings.
  destruct (negb (isEmpty (validateAvailability q))); [reflexivity |].
  destruct (Prisma.service_findFirst d (AvailabilityQuery.serviceId q))
    as [[service provider] |]; [| reflexivity].
  now rewrite (existingBookings_insert d provider _ before after b Hsplit Hc Hp).
Qed.

Lemma service_findFirst_none (d : DB) (i : Z) :
  (forall s, In s (services d) -> Service.id s = i -> Service.isActive s = false) ->
  Prisma.service_findFirst d i = None.
Proof.
  intros H. unfold Prisma.service_findFirst.
  destruct (find _ (services d)) as [s |] eqn:E; [| reflexivity].
  apply find_some in E. destruct E as [Hin Hs].
  apply andb_true_iff in Hs. destruct Hs as [Hid Hact].
  apply Z.eqb_eq in Hid. rewrite (H s Hin Hid) in Hact. discriminate.
Qed.

(** X15.  A service that does not exist or is not active is not found:
    for an id within the range of the id column ([int32Max]), the
    availability route answers 404, and so does the create route, which
    stores nothing. *)
Theorem inactive_or_unknown_service_is_not_found :
  forall (w : World) (i : Z),
    i <= int32Max ->
    (forall s, In s (services (db w)) -> Service.id s = i -> Service.isActive s = false) ->
    (forall q, validateAvailability q = [] -> AvailabilityQuery.serviceId q = i ->
               getAvailability (db w) q = Failure 404 "Service not found")
    /\ (forall uuid user body, validateCreate body = [] -> CreateBody.serviceId body = i ->
                               createBooking w uuid user body
                               = (w, Failure 404 "Service not found")).
Proof.
  intros w i _ Hnone.
  pose proof (service_findFirst_none (db w) i Hnone) as Hfind.
  split.
  - intros q Hvalid <-. unfold getAvailability. now rewrite Hvalid, Hfind.
  - intros uuid user body Hvalid <-. unfold createBooking. now rewrite Hvalid, Hfind.
Qed.

(** *** Booking creation: outcomes *)


(** X17.  The booking a 201 answer carries is the request made
    concrete: PENDING with no cancellation reason, for the authenticated
    customer, the service found and its provider, on the requested date
    and time, with the duration and the base price the service has at
    that moment, and with the identifier generated for the run. *)
Theorem created_booking_copies_the_service :
  forall (w : World) (uuid : string) (user : User.t) (body : CreateBody.t)
         (w' : World) (message : string) (booking : Booking.t),
    createBooking w uuid user body = (w', Success 201 (message, booking)) ->
    exists service provider,
      Prisma.service_findFirst (db w) (CreateBody.serviceId body) = Some (service, provider)
      /\ Booking.status booking = Status.PENDING
      /\ Booking.cancellationReason booking = None
      /\ Booking.bookingId booking = uuid
      /\ Booking.customerId booking = User.id user
      /\ Booking.serviceId booking = Service.id service
      /\ Booking.providerId booking = Provider.id provider
      /\ Booking.scheduledDate booking = newDate (CreateBody.scheduledDate body)
      /\ Booking.scheduledTime booking = CreateBody.scheduledTime body
      /\ Booking.duration booking = Service.duration service
      /\ Booking.totalPrice booking = Service.basePrice service.
Proof.
  intros w uuid user body w' message booking Hrun.
  unfold createBooking in Hrun.
  destruct (negb (isEmpty (validateCreate body))); [discriminate |].
  destruct (Prisma.service_findFirst (db w) (CreateBody.serviceId body))
    as [[service provider] |]; [| discriminate].
  destruct (negb (Provider.isAvailable provider)); [discriminate |].
  destruct (0 <? List.length (conflictingBookings (db w) provider body))%nat;
    [discriminate |].
  cbv zeta in Hrun. unfold Prisma.booking_create in Hrun.
  injection Hrun as _ _ <-.
  exists service, provider. repeat split.
Qed.

(** *** Booking status transition: outcomes *)

Lemma find_by_id_of_member (bs : list Booking.t) (b : Booking.t) :
  In b bs -> exists row, find (fun x => Booking.id x =? Booking.id b) bs = Some row
                         /\ Booking.id row = Booking.id b.
Proof.
  intros Hin.
  destruct (find (fun x => Booking.id x =? Booking.id b) bs) as [row |] eqn:E.
  - exists row. split; [reflexivity |].
    apply find_some in E. now apply Z.eqb_eq.
  - exfalso. pose proof (find_none _ _ E b Hin) as H. simpl in H.
    rewrite Z.eqb_refl in H. discriminate.
Qed.

(** X18.  The owning provider's user can move a booking to any of the
    four target statuses whatever its current status is: a valid
    request for a booking the user owns is answered 200 with the booking
    in the requested status. *)
Theorem owner_can_set_any_allowed_status :
  forall (w : World) (user : User.t) (body : StatusBody.t) (booking : Booking.t),
    validateStatus body = [] ->
    Prisma.booking_findFirst (db w) (StatusBody.bookingId body) (User.id user)
    = Some booking ->
    exists w' updated,
      updateStatus w user body
      = (w', Success 200 ("Booking status updated successfully", updated))
      /\ Booking.id updated = Booking.id booking
      /\ Booking.status updated = StatusBody.status body.
Proof.
  intros w user body booking Hvalid Hfind.
  unfold updateStatus. rewrite Hvalid, Hfind. simpl.
  apply booking_findFirst_owned in Hfind. destruct Hfind as (Hin & _).
  destruct (find_by_id_of_member _ _ Hin) as (row & Hrow & Hid).
  rewrite Hrow. simpl.
  eexists. eexists. split; [reflexivity |]. split; [exact Hid | reflexivity].
Qed.

(** X19.  A successful status update touches the status and the
    cancellation reason of the bookings with the updated id and nothing
    else: the table keeps its length, every booking with another id is
    unchanged in place, a booking with that id keeps every other column,
    and the other tables are as before. *)
Theorem status_update_touches_only_that_booking :
  forall (w : World) (user : User.t) (body : StatusBody.t)
         (w' : World) (message : string) (updated : Booking.t),
    updateStatus w user body = (w', Success 200 (message, updated)) ->
    List.length (bookings (db w')) = List.length (bookings (db w))
    /\ (forall k b, nth_error (bookings (db w)) k = Some b ->
                    Booking.id b <> Booking.id updated ->
                    nth_error (bookings (db w')) k = Some b)
    /\ (forall k b, nth_error (bookings (db w)) k = Some b ->
                    Booking.id b = Booking.id updated ->
                    exists b',
                      nth_error (bookings (db w')) k = Some b'
                      /\ Booking.status b' = StatusBody.status body
                      /\ Booking.setCancellationReason (Booking.cancellationReason b)
                           (Booking.setStatus (Booking.status b) b') = b)
    /\ users (db w') = users (db w)
    /\ providers (db w') = providers (db w)
    /\ services (db w') = services (db w).
Proof.
  intros w user body w' message updated Hrun.
  unfold updateStatus in Hrun.
  destruct (negb (isEmpty (validateStatus body))); [discriminate |].
  destruct (Prisma.booking_findFirst (db w) (StatusBody.bookingId body) (User.id user))
    as [booking |]; [| discriminate].
  unfold Prisma.booking_update in Hrun.
  destruct (find (fun b => Booking.id b =? Booking.id booking) (bookings (db w)))
    as [row |] eqn:Hrow; simpl in Hrun; [| discriminate].
  injection Hrun as <- _ <-.
  apply find_some in Hrow. destruct Hrow as [_ Hid]. apply Z.eqb_eq in Hid.
  rewrite notify_db. cbn [db withDb bookings withBookings users providers services].
  assert (Eid : Booking.id (Prisma.updateRow (StatusBody.status body) (reasonField body) row)
                = Booking.id booking) by exact Hid.
  rewrite Eid.
  split; [apply length_map |].
  split; [| split; [| repeat split]].
  - intros k b Hk Hne.
    rewrite nth_error_map, Hk. simpl.
    destruct (Z.eqb_spec (Booking.id b) (Booking.id booking)); [contradiction | reflexivity].
  - intros k b Hk He.
    rewrite nth_error_map, Hk. simpl.
    rewrite He, Z.eqb_refl.
    eexists. split; [reflexivity |]. split; [reflexivity |].
    now destruct b.
Qed.

Lemma find_map_preserved {A : Type} (p : A -> bool) (f : A -> A) (l : list A) :
  (forall x, p (f x) = p x) -> find p (map f l) = option_map f (find p l).
Proof.
  intros Hp. induction l as [| x r IH]; simpl; [reflexivity |].
  rewrite Hp. destruct (p x); [reflexivity | exact IH].
Qed.

Lemma updateRow_idempotent (s : Status.t) (r : Prisma.Field string) (b : Booking.t) :
  Prisma.updateRow s r (Prisma.updateRow s r b) = Prisma.updateRow s r b.
Proof. destruct r; reflexivity. Qed.

(** X20.  Sending the same status update twice is the same as sending
    it once: the second request is answered 200 with the same booking
    and leaves the database as the first one left it. *)
Theorem status_update_is_idempotent :
  forall (w : World) (user : User.t) (body : StatusBody.t)
         (w1 : World) (message : string) (updated : Booking.t),
    updateStatus w user body = (w1, Success 200 (message, updated)) ->
    exists w2,
      updateStatus w1 user body = (w2, Success 200 (message, updated))
      /\ db w2 = db w1.
Proof.
  intros w user body w1 message updated Hrun.
  unfold updateStatus in Hrun |- *.
  destruct (negb (isEmpty (validateStatus body))); [discriminate |].
  destruct (Prisma.booking_findFirst (db w) (StatusBody.bookingId body) (User.id user))
    as [booking |] eqn:Hfind; [| discriminate].
  unfold Prisma.booking_update in Hrun.
  destruct (find (fun b => Booking.id b =? Booking.id booking) (bookings (db w)))
    as [row |] eqn:Hrow; simpl in Hrun; [| discriminate].
  injection Hrun as <- <- <-.
  set (s := StatusBody.status body).
  set (r := reasonField body).
  set (f := fun b : Booking.t =>
              if Booking.id b =? Booking.id booking then Prisma.updateRow s r b else b).
  assert (Hff : forall b, f (f b) = f b).
  { intros b. unfold f.
    destruct (Booking.id b =? Booking.id booking) eqn:E.
    - change (Booking.id (Prisma.updateRow s r b)) with (Booking.id b).
      rewrite E. apply updateRow_idempotent.
    - now rewrite E. }
  assert (Hfid : forall b, Booking.id (f b) = Booking.id b).
  { intros b. unfold f. now destruct (Booking.id b =? Booking.id booking). }
  rewrite notify_db. cbn [db withDb].
  assert (Efind : Prisma.booking_findFirst
                    (withBookings (map f (bookings (db w))) (db w))
                    (StatusBody.bookingId body) (User.id user)
                  = Some (f booking)).
  { unfold Prisma.booking_findFirst in Hfind |- *.
    cbn [bookings withBookings].
    rewrite find_map_preserved.
    - unfold Prisma.findProvider in Hfind |- *. cbn [providers withBookings].
      now rewrite Hfind.
    - intros x. unfold f, Prisma.findProvider. cbn [providers withBookings].
      now destruct (Booking.id x =? Booking.id booking). }
  rewrite Efind.
  unfold Prisma.booking_update. cbn [bookings withBookings].
  rewrite Hfid.
  rewrite (find_map_preserved (fun b => Booking.id b =? Booking.id booking) f).
  2:{ intros x. now rewrite Hfid. }
  rewrite Hrow. cbn [option_map].
  apply find_some in Hrow. destruct Hrow as [_ Hid].
  assert (Efrow : f row = Prisma.updateRow s r row) by (unfold f; now rewrite Hid).
  rewrite Efrow, updateRow_idempotent.
  eexists. split; [reflexivity |].
  rewrite notify_db. cbn [db withDb].
  unfold withBookings. cbn [users providers categories services].
  f_equal.
  rewrite map_map. apply map_ext. exact Hff.
Qed.

(** *** The time texts of the two booking routes *)

Lemma range_unit_In (lo hi x : Z) : In x (range lo hi 1) <-> lo <= x < hi.
Proof.
  unfold range. rewrite in_map_iff.
  replace ((hi - lo + 1 - 1) / 1) with (hi - lo) by (rewrite Z.div_1_r; lia).
  split.
  - intros (k & <- & Hk). apply in_seq in Hk. lia.
  - intros H. exists (Z.to_nat (x - lo)). split; [lia |].
    apply in_seq. lia.
Qed.

Lemma every_clock_time_matches :
  forallb (fun h => forallb (fun m => matchesTime (timeString h m)) (range 0 60 1))
          (range 0 24 1) = true.
Proof. vm_compute. reflexivity. Qed.

(** X21.  The time text the availability route builds for an hour and
    a minute of the clock always passes the scheduledTime pattern of the
    create route; in particular every slot the availability route lists
    can be sent back as the scheduledTime of a booking. *)
Theorem listed_slot_times_pass_the_create_pattern :
  (forall hour minute, 0 <= hour < 24 -> 0 <= minute < 60 ->
                       matchesTime (timeString hour minute) = true)
  /\ (forall (d : DB) (q : AvailabilityQuery.t) (slots : list Slot) (slot : Slot),
         getAvailability d q = Success 200 slots ->
         In slot slots ->
         matchesTime (time slot) = true).
Proof.
  assert (Hclock : forall hour minute, 0 <= hour < 24 -> 0 <= minute < 60 ->
                                       matchesTime (timeString hour minute) = true).
  { intros hour minute Hh Hm.
    pose proof every_clock_time_matches as H.
    rewrite forallb_forall in H.
    specialize (H hour (proj2 (range_unit_In 0 24 hour) Hh)).
    rewrite forallb_forall in H.
    exact (H minute (proj2 (range_unit_In 0 60 minute) Hm)). }
  split; [exact Hclock |].
  intros d q slots slot Hrun Hslot.
  unfold getAvailability in Hrun.
  destruct (negb (isEmpty (validateAvailability q))); [discriminate |].
  destruct (Prisma.service_findFirst d (AvailabilityQuery.serviceId q))
    as [[service provider] |]; [| discriminate].
  injection Hrun as <-.
  apply timeSlots_In in Hslot.
  destruct Hslot as (hour & minute & Hh & Hm & -> & _).
  apply grid_hours in Hh. apply grid_minutes in Hm.
  apply Hclock; lia.
Qed.

(** *** GET /popular *)

Lemma nth_error_firstn_Some {A : Type} (n i : nat) (l : list A) (a : A) :
  nth_error (firstn n l) i = Some a -> nth_error l i = Some a.
Proof.
  revert i l. induction n as [| n IH]; intros i l H.
  - destruct i; discriminate.
  - destruct l as [| x l]; [destruct i; discriminate |].
    destruct i as [| i]; [exact H |]. simpl in H |- *. now apply IH.
Qed.

(** X28.  GET /popular returns at most 10 services, each active with
    an available provider rated at least 4, each with the number of
    bookings stored for it, in non-increasing order of the provider's
    average rating. *)
Theorem popular_lists_the_ten_best_rated :
  forall (d : DB) (rows : list (Prisma.Found * Z)),
    getPopular d = Success 200 rows ->
    (List.length rows <= 10)%nat
    /\ (forall s n, In (s, n) rows ->
          Service.isActive (Prisma.service s) = true
          /\ Provider.isAvailable (Prisma.provider s) = true
          /\ JS.geb (Provider.averageRating (Prisma.provider s)) (JS.Fin 4) = true
          /\ n = Z.of_nat (List.length (filter (fun b => Booking.serviceId b
                                                         =? Service.id (Prisma.service s))
                                               (bookings d))))
    /\ (forall i j a b,
          (i < j)%nat ->
          nth_error rows i = Some a ->
          nth_error rows j = Some b ->
          JS.leb (Provider.averageRating (Prisma.provider (fst b)))
                 (Provider.averageRating (Prisma.provider (fst a))) = true).
Proof.
  intros d rows Hrun.
  set (matching := filter popular (Prisma.includeAll d (services d))).
  assert (E : rows = map (fun s => (s, bookingCount d (Prisma.service s)))
                         (firstn 10 (JS.sort byRating (JS.sort byReviews matching)))).
  { unfold getPopular in Hrun. fold matching in Hrun. congruence. }
  subst rows. clear Hrun.
  assert (Hpop : forall s, In s (JS.sort byRating (JS.sort byReviews matching)) ->
                           popular s = true).
  { intros s Hs.
    apply (Permutation_in _ (sort_Permutation byRating _)) in Hs.
    apply (Permutation_in _ (sort_Permutation byReviews _)) in Hs.
    unfold matching in Hs. apply filter_In in Hs. exact (proj2 Hs). }
  split; [| split].
  - rewrite length_map. apply firstn_le_length.
  - intros s n Hin.
    apply in_map_iff in Hin. destruct Hin as (s0 & [= <- <-] & Hs0).
    apply In_firstn in Hs0. apply Hpop in Hs0.
    unfold popular in Hs0.
    repeat (apply andb_true_iff in Hs0; destruct Hs0 as [Hs0 ?]).
    repeat split; auto.
  - intros i j a b Hij Ha Hb.
    rewrite nth_error_map in Ha, Hb.
    destruct (nth_error (firstn 10 (JS.sort byRating (JS.sort byReviews matching))) i)
      as [a0 |] eqn:Ea; [| discriminate].
    destruct (nth_error (firstn 10 (JS.sort byRating (JS.sort byReviews matching))) j)
      as [b0 |] eqn:Eb; [| discriminate].
    injection Ha as <-. injection Hb as <-. cbn [fst].
    apply nth_error_firstn_Some in Ea. apply nth_error_firstn_Some in Eb.
    refine (sort_by_key_descending (fun s => Provider.averageRating (Prisma.provider s))
                                   (JS.sort byReviews matching) _ i j a0 b0 Hij Ea Eb).
    apply Forall_forall. intros s Hs.
    assert (Hp : popular s = true).
    { apply Hpop. apply Permutation_in with (2 := Hs).
      apply Permutation_sym, sort_Permutation. }
    unfold popular in Hp.
    apply andb_true_iff in Hp. destruct Hp as [_ Hp].
    unfold JS.geb in Hp. apply leb_not_NaN in Hp. exact (proj2 Hp).
Qed.

End Routes.


(** ** The routes on the sample marketplace *)

(** C2.  The create route accepts a booking that overlaps an active one:
    with Bob booked from 10:00 to 11:00, a request for 09:30 to 10:30 on
    the same day is answered 201 and stored, and the no-overlap invariant,
    which held before, is lost. *)
Theorem overlapping_booking_is_created :
  Spec.noOverlap Sample.market = true
  /\ exists w' booking,
      createBooking Plain.moment Plain.newDate Plain.isISO8601 Plain.emit
                    Sample.world Sample.uuid Sample.dee Sample.carpetsAtHalfPastNine
      = (w', Success 201 ("Booking created successfully", booking))
      /\ In booking (bookings (db w'))
      /\ In Sample.atTen (bookings (db w'))
      /\ Spec.clash booking Sample.atTen = true
      /\ Spec.noOverlap (db w') = false.
Proof.
  split; [reflexivity |].
  eexists. eexists.
  split; [reflexivity |].
  split; [simpl; auto |].
  split; [simpl; auto |].
  split; reflexivity.
Qed.

(** C1.  The availability route returns a slot over a CONFIRMED booking
    when the date of the request carries a time.  Bob is booked from 10:00
    to 11:00 on 2024-06-01.  Asked for his carpets, a service of 60
    minutes, on [2024-06-01T00:00:00Z], the route accepts the date, finds
    that booking, and still lists the slot 10:00, whose interval
    10:00-11:00 overlaps the booking's: the text it hands to moment,
    [2024-06-01T00:00:00Z 10:00], is not read, and isBefore and isAfter
    of an invalid moment are false. *)
Theorem slot_over_a_booking_is_listed_for_a_date_with_a_time :
  validateAvailability Stamp.isISO8601 Cases.carpetsOnJune1WithTime = []
  /\ Prisma.service_findFirst Sample.market 200 = Some (Sample.carpets, Sample.bobProvider)
  /\ existingBookings Stamp.newDate Sample.market Sample.bobProvider "2024-06-01T00:00:00Z"
     = [Sample.atTen]
  /\ Booking.status Sample.atTen = Status.CONFIRMED
  /\ Stamp.moment "2024-06-01T00:00:00Z 10:00" = None
  /\ exists slots,
      getAvailability Stamp.moment Stamp.newDate Stamp.isISO8601 Sample.market
                      Cases.carpetsOnJune1WithTime
      = Success 200 slots
      /\ In (mkSlot "10:00" true) slots
      /\ overlapsOnTheClock "10:00" (Service.duration Sample.carpets) Sample.atTen = true.
Proof.
  split; [reflexivity |].
  split; [reflexivity |].
  split; [reflexivity |].
  split; [reflexivity |].
  split; [reflexivity |].
  eexists.
  split; [reflexivity |].
  split; [simpl; auto | reflexivity].
Qed.

(** C5.  With a service of 60 minutes and a single CONFIRMED booking at
    10:00 for 60 minutes on the queried date, the availability route
    lists 10:00 and 10:30 when the date of the request carries a time:
    asked for Bob's carpets on [2024-06-01T00:00:00Z], it answers with
    all eighteen times of the grid. *)
Theorem booked_times_are_listed_for_a_date_with_a_time :
  Service.duration Sample.carpets = 60
  /\ existingBookings Stamp.newDate Sample.market Sample.bobProvider "2024-06-01T00:00:00Z"
     = [Sample.atTen]
  /\ Booking.status Sample.atTen = Status.CONFIRMED
  /\ Booking.scheduledTime Sample.atTen = "10:00"
  /\ Booking.duration Sample.atTen = 60
  /\ exists slots,
      getAvailability Stamp.moment Stamp.newDate Stamp.isISO8601 Sample.market
                      Cases.carpetsOnJune1WithTime
      = Success 200 slots
      /\ In (mkSlot "10:00" true) slots
      /\ In (mkSlot "10:30" true) slots
      /\ List.length slots = 18%nat.
Proof.
  split; [reflexivity |].
  split; [reflexivity |].
  split; [reflexivity |].
  split; [reflexivity |].
  split; [reflexivity |].
  eexists.
  split; [reflexivity |].
  split; [simpl; auto |].
  split; [simpl; auto | reflexivity].
Qed.

(** On the sample: the slot 09:00 is returned for Bob's carpets on
    2024-06-01 and does not overlap his booking at 10:00. *)
Lemma availability_slots_overlap_no_booking_witness :
  In (mkSlot "09:00" true)
     (timeSlots Plain.moment "2024-06-01" 60 [Sample.atTen])
  /\ ~ Spec.overlaps (Plain.moment "2024-06-01 09:00") 60 (Plain.moment "2024-06-01 10:00") 60.
Proof.
  split.
  - vm_compute. auto.
  - apply (availability_slots_overlap_no_booking Plain.moment Plain.newDate Plain.isISO8601
             Sample.market Sample.carpetsOnJune1 _ Sample.carpets Sample.bobProvider
             eq_refl eq_refl (mkSlot "09:00" true) Sample.atTen).
    + vm_compute. auto.
    + simpl. auto.
    + reflexivity.
    + reflexivity.
    + left. reflexivity.
Defined.

(** On the sample: Bob's single booking at 10:00 on 2024-06-01, read by the
    UTC parser. *)
Lemma availability_around_a_booking_at_ten_witness :
  exists slots,
    getAvailability Plain.moment Plain.newDate Plain.isISO8601 Sample.market Sample.carpetsOnJune1
    = Success 200 slots
    /\ In (mkSlot "09:00" true) slots
    /\ In (mkSlot "11:00" true) slots
    /\ forall slot, In slot slots ->
         time slot <> "10:00" /\ time slot <> "10:30" /\ available slot = true
         /\ exists hour minute,
             9 <= hour < 18 /\ (minute = 0 \/ minute = 30)
             /\ time slot = timeString hour minute.
Proof.
  apply (availability_around_a_booking_at_ten Plain.moment Plain.newDate Plain.isISO8601
           Sample.market Sample.carpetsOnJune1 Sample.carpets Sample.bobProvider
           Sample.atTen Sample.june1); try reflexivity.
  intros h m Hh Hm.
  assert (Hcases : In h [9; 10; 11; 12; 13; 14; 15; 16; 17]) by (simpl; lia).
  simpl in Hcases.
  destruct Hm as [-> | ->];
    repeat (destruct Hcases as [<- | Hcases]; [reflexivity |]); contradiction.
Defined.


(** On the sample, before [initializeSocket]: Dee books Cy at 09:00; getIO
    throws, the line is logged and the answer is 201. *)
Lemma created_booking_is_answered_201_witness :
  exists service provider,
    Prisma.service_findFirst Sample.market 300 = Some (service, provider)
    /\ snd (createBooking Plain.moment Plain.newDate Plain.isISO8601 Plain.emit
                          Sample.world Sample.uuid Sample.dee Sample.guttersAtNine)
       = Success 201 ("Booking created successfully",
                      created Plain.newDate Sample.world Sample.uuid Sample.dee
                              Sample.guttersAtNine service provider)
    /\ console (fst (createBooking Plain.moment Plain.newDate Plain.isISO8601 Plain.emit
                                   Sample.world Sample.uuid Sample.dee Sample.guttersAtNine))
       = ["Socket notification failed: Socket.io not initialized"].
Proof.
  destruct (created_booking_is_answered_201 Plain.moment Plain.newDate Plain.isISO8601
              Plain.emit Sample.world Sample.uuid Sample.dee Sample.guttersAtNine _ _ eq_refl)
    as (service & provider & Hfind & Hresponse & _ & Hlog).
  - vm_compute. intros H. discriminate H.
  - exists service, provider.
    split; [exact Hfind |].
    split; [exact Hresponse |].
    apply (Hlog (JS.mkError "Socket.io not initialized")).
    reflexivity.
Defined.

(** On the sample: Ann confirms Bob's booking. *)
Lemma status_update_by_stranger_is_404_witness :
  updateStatus Plain.isUUID Plain.emit Sample.world Sample.ann Sample.confirmAtTen
  = (Sample.world, Failure 404 "Booking not found").
Proof.
  apply status_update_by_stranger_is_404.
  - reflexivity.
  - intros b p Hin Hid Hp.
    simpl in Hin.
    destruct Hin as [<- | [<- | []]].
    + vm_compute in Hp. injection Hp as <-. vm_compute. discriminate.
    + vm_compute in Hid. discriminate Hid.
Defined.

(** On the sample: Bob cancels his booking with the reason "sick". *)
Lemma status_update_cancellation_reason_witness :
  exists w' message updated,
    updateStatus Plain.isUUID Plain.emit Sample.world Sample.bob Sample.cancelAtTen
    = (w', Success 200 (message, updated))
    /\ In updated (bookings (db w'))
    /\ Booking.status updated = Status.CANCELLED
    /\ Booking.cancellationReason updated = Some "sick".
Proof.
  eexists. eexists. eexists.
  split; [reflexivity |].
  destruct (status_update_cancellation_reason Plain.isUUID Plain.emit
              Sample.world Sample.bob Sample.cancelAtTen _ _ _ eq_refl)
    as (Hin & Hstatus & Hreason & _).
  split; [exact Hin |].
  split; [exact Hstatus |].
  apply Hreason; reflexivity.
Defined.

(** C6 as stated fails: Cy cancels again, without a reason, the booking
    that was cancelled with the reason "late"; the request succeeds and
    the stored reason is still "late", not the absent one of the request. *)
Lemma cancelling_without_reason_keeps_stored_reason :
  exists w' message updated,
    updateStatus Plain.isUUID Plain.emit Sample.world Sample.cy Sample.cancelAgain
    = (w', Success 200 (message, updated))
    /\ In updated (bookings (db w'))
    /\ StatusBody.status Sample.cancelAgain = Status.CANCELLED
    /\ StatusBody.cancellationReason Sample.cancelAgain = None
    /\ Booking.cancellationReason updated = Some "late"
    /\ Booking.cancellationReason updated <> StatusBody.cancellationReason Sample.cancelAgain.
Proof.
  eexists. eexists. eexists.
  split; [reflexivity |].
  split; [simpl; auto |].
  repeat split.
  discriminate.
Qed.

(** C7 as stated fails: Ann, who is not Bob, asks for the status PENDING
    on Bob's booking, and asks for a status on a bookingId no booking has;
    both requests stop at validation with 400 and the failing field, not
    with 404. *)
Lemma invalid_status_request_is_answered_400 :
  Prisma.booking_findFirst Sample.market (StatusBody.bookingId Sample.backToPending)
                           (User.id Sample.ann) = None
  /\ updateStatus Plain.isUUID Plain.emit Sample.world Sample.ann Sample.backToPending
     = (Sample.world, Invalid ["status"])
  /\ Forall (fun b => Booking.bookingId b <> StatusBody.bookingId Sample.malformed)
            (bookings Sample.market)
  /\ updateStatus Plain.isUUID Plain.emit Sample.world Sample.ann Sample.malformed
     = (Sample.world, Invalid ["bookingId"])
  /\ Invalid ["bookingId"] <> Failure (A := string * Booking.t) 404 "Booking not found"
  /\ Invalid ["status"] <> Failure (A := string * Booking.t) 404 "Booking not found".
Proof.
  split; [reflexivity |].
  split; [reflexivity |].
  split; [repeat constructor; discriminate |].
  split; [reflexivity |].
  split; discriminate.
Qed.

(** On the sample: three rows match and fill the page, the distance filter
    drops Ann's (latitude 0), two services are returned and totalCount is 3. *)
Lemma pagination_precedes_distance_filter_witness :
  exists services pg,
    searchServices Plain.isFloat Plain.parseFloat Plain.calculateDistance
                   Sample.market Sample.nearby
    = Success 200 (services, pg)
    /\ totalCount pg = 3
    /\ totalPages pg = 1
    /\ List.length (fetchedPage Plain.parseFloat Sample.market Sample.nearby) = 3%nat
    /\ List.length services = 2%nat
    /\ (List.length services
        + List.length (filter (fun s => negb (withinDistance Plain.parseFloat
                                                Plain.calculateDistance Sample.nearby s))
                              (fetchedPage Plain.parseFloat Sample.market Sample.nearby))
        = List.length (fetchedPage Plain.parseFloat Sample.market Sample.nearby))%nat.
Proof.
  eexists. eexists.
  split; [reflexivity |].
  split; [reflexivity |].
  split; [reflexivity |].
  split; [reflexivity |].
  split; [reflexivity |].
  apply (pagination_precedes_distance_filter Plain.isFloat Plain.parseFloat
           Plain.calculateDistance Sample.market Sample.nearby _ _ eq_refl eq_refl eq_refl).
Defined.

(** On the sample: Ann's service, at latitude 0, is returned with the
    distance null when no maxDistance is given. *)
Lemma zero_coordinate_counts_as_missing_witness :
  exists services pg s,
    searchServices Plain.isFloat Plain.parseFloat Plain.calculateDistance
                   Sample.market Sample.around
    = Success 200 (services, pg)
    /\ In s services
    /\ Prisma.service s = Sample.windows
    /\ User.latitude (Prisma.user s) = Some (JS.Fin 0)
    /\ Prisma.distance s = JS.Null.
Proof.
  eexists. eexists.
  exists (Prisma.mkFound Sample.windows Sample.cleaning Sample.annProvider Sample.ann JS.Null).
  split; [reflexivity |].
  split; [vm_compute; auto |].
  split; [reflexivity |].
  split; [reflexivity |].
  apply (proj2 (zero_coordinate_counts_as_missing Plain.isFloat Plain.parseFloat
                  Plain.calculateDistance Sample.market Sample.around _ _ eq_refl eq_refl)).
  - vm_compute. auto.
  - left. exists 0%Q. split; reflexivity.
Defined.

(** On the sample: Bob, at the origin of the search, is listed last, after
    Cy at a positive distance. *)
Lemma zero_distance_sorts_as_infinity_witness :
  exists services pg s t,
    searchServices Plain.isFloat Plain.parseFloat Plain.calculateDistance
                   Sample.market Sample.nearestFirst
    = Success 200 (services, pg)
    /\ nth_error services 2 = Some s
    /\ nth_error services 0 = Some t
    /\ Prisma.service s = Sample.carpets
    /\ Prisma.service t = Sample.gutters
    /\ distanceKey s = JS.Infinity
    /\ (0 < 2)%nat.
Proof.
  eexists. eexists. eexists. eexists.
  split; [reflexivity |].
  split; [reflexivity |].
  split; [reflexivity |].
  split; [reflexivity |].
  split; [reflexivity |].
  eapply (zero_distance_sorts_as_infinity Plain.isFloat Plain.parseFloat
           Plain.calculateDistance Sample.market Sample.nearestFirst _ _
           eq_refl eq_refl eq_refl 2%nat 0%nat).
  - reflexivity.
  - reflexivity.
  - eexists. split; [vm_compute; reflexivity | reflexivity].
  - eexists. split; [vm_compute; reflexivity | reflexivity].
Defined.

(** ** Properties of the socket server and of the auth routes *)

Section AccountFacts.

Variable jwtVerify : string -> option Z.
Variable jwtSign : Z -> string.
Variable bcryptCompare : string -> string -> bool.

(** *** The socket server *)

(** X22.  A socket is accepted only with a non-empty token that
    verifies to the id of an existing user; it is bound to that user and
    joins that user's personal room, which is the room the create route
    addresses new_booking to for the provider's user and the status
    route addresses booking_update to for the customer.  A connection
    that is refused is refused with "Authentication error", or with
    "User not found" when the token verifies to an id no user has. *)
Theorem socket_is_bound_to_the_verified_user :
  forall (d : DB) (token : option string),
    (forall user rooms,
        connect jwtVerify d token = inr (user, rooms) ->
        (exists t, token = Some t /\ t <> "" /\ jwtVerify t = Some (User.id user))
        /\ In user (users d)
        /\ rooms = [personalRoom (User.id user)]
        /\ (forall customer provider booking,
               Provider.userId provider = User.id user ->
               In (room (newBookingEmission customer provider booking)) rooms)
        /\ (forall booking updated status,
               Booking.customerId booking = User.id user ->
               In (room (statusEmission booking updated status)) rooms))
    /\ (forall e,
           connect jwtVerify d token = inl e ->
           JS.message e = "Authentication error"
           \/ (JS.message e = "User not found"
               /\ exists t userId, token = Some t /\ jwtVerify t = Some userId
                                   /\ Prisma.findUser d userId = None)).
Proof.
  intros d token.
  unfold connect, authenticateSocket.
  destruct token as [t |]; simpl.
  - destruct (String.eqb_spec t "") as [-> | Hne]; simpl.
    + split; [discriminate | intros e [= <-]; now left].
    + destruct (jwtVerify t) as [userId |] eqn:Hv.
      * destruct (Prisma.findUser d userId) as [u |] eqn:Hu.
        -- split; [| discriminate].
           intros user rooms [= <- <-].
           unfold Prisma.findUser in Hu. apply find_some in Hu.
           destruct Hu as [Hin Hid]. apply Z.eqb_eq in Hid.
           split; [exists t; rewrite Hid; auto |].
           split; [exact Hin |].
           split; [reflexivity |].
           split.
           ++ intros customer provider booking E. simpl.
              unfold personalRoom. rewrite E. now left.
           ++ intros booking updated status E. simpl.
              unfold personalRoom. rewrite E. now left.
        -- split; [discriminate |].
           intros e [= <-]. right. split; [reflexivity |].
           exists t, userId. auto.
      * split; [discriminate | intros e [= <-]; now left].
  - split; [discriminate | intros e [= <-]; now left].
Qed.

Lemma message_updateMany_nth (messages : list Message.t) (ids : list Z) (uid : Z)
      (k : nat) (m : Message.t) :
  nth_error messages k = Some m ->
  nth_error (message_updateMany messages ids uid) k
  = Some (if existsb (Z.eqb (Message.id m)) ids && (Message.receiverId m =? uid)
          then Message.setRead true m else m).
Proof.
  intros H. unfold message_updateMany. now rewrite nth_error_map, H.
Qed.

Lemma listed_iff (ids : list Z) (i : Z) : existsb (Z.eqb i) ids = true <-> In i ids.
Proof.
  rewrite existsb_exists. split.
  - intros (x & Hx & E). apply Z.eqb_eq in E. now subst.
  - intros H. exists i. split; [exact H | apply Z.eqb_refl].
Qed.

(** X23.  mark_read marks as read exactly the listed messages that are
    addressed to the socket's user: every message keeps its place and
    every other column, a message is read afterwards exactly when it was
    read before or is listed and addressed to the caller, so a listed
    message of another receiver is left alone; the reply echoes the
    whole list all the same; and marking again changes nothing. *)
Theorem mark_read_marks_only_the_callers_messages :
  forall (messages : list Message.t) (socketUserId : Z) (messageIds : list Z)
         (messages' : list Message.t) (reply : Reply),
    markRead messages socketUserId messageIds = (messages', reply) ->
    reply = MessagesMarkedRead messageIds
    /\ List.length messages' = List.length messages
    /\ (forall k m,
           nth_error messages k = Some m ->
           exists m',
             nth_error messages' k = Some m'
             /\ Message.setRead (Message.isRead m) m' = m
             /\ (Message.isRead m' = true
                 <-> Message.isRead m = true
                     \/ (In (Message.id m) messageIds
                         /\ Message.receiverId m = socketUserId)))
    /\ fst (markRead messages' socketUserId messageIds) = messages'.
Proof.
  intros messages uid ids messages' reply [= <- <-].
  split; [reflexivity |].
  split; [apply length_map |].
  split.
  - intros k m Hk.
    rewrite (message_updateMany_nth _ _ _ _ _ Hk).
    eexists. split; [reflexivity |].
    destruct (existsb (Z.eqb (Message.id m)) ids && (Message.receiverId m =? uid)) eqn:E.
    + split; [now destruct m |].
      apply andb_true_iff in E. destruct E as [E1 E2].
      apply listed_iff in E1. apply Z.eqb_eq in E2.
      simpl. split; [intros _; right; split; assumption | reflexivity].
    + split; [now destruct m |].
      split; [intros H; now left |].
      intros [H | [H1 H2]]; [exact H |].
      apply listed_iff in H1. apply Z.eqb_eq in H2.
      rewrite H1, H2 in E. discriminate.
  - simpl. unfold message_updateMany. rewrite map_map.
    apply map_ext. intros m.
    destruct (existsb (Z.eqb (Message.id m)) ids && (Message.receiverId m =? uid)) eqn:E.
    + cbn [Message.id Message.receiverId Message.setRead]. now rewrite E.
    + now rewrite E.
Qed.

(** *** The auth routes *)


Lemma account_findUnique_some (accounts : list Account.t) (email : string) (a : Account.t) :
  account_findUnique accounts email = Some a -> In a accounts /\ Account.email a = email.
Proof.
  unfold account_findUnique. intros H. apply find_some in H.
  destruct H as [Hin E]. apply String.eqb_eq in E. auto.
Qed.

Lemma account_findUnique_none (accounts : list Account.t) (email : string) :
  account_findUnique accounts email = None <->
  forall a, In a accounts -> Account.email a <> email.
Proof.
  unfold account_findUnique. split.
  - intros H a Hin E.
    pose proof (find_none _ _ H a Hin) as Hn. simpl in Hn.
    apply String.eqb_neq in Hn. contradiction.
  - intros H.
    destruct (find _ accounts) as [a |] eqn:E; [| reflexivity].
    apply find_some in E. destruct E as [Hin E].
    apply String.eqb_eq in E. exfalso. now apply (H a).
Qed.

(** X24.  Signup stores nothing unless it answers 201.  When it does,
    all three fields were given, the password has at least 6 characters,
    no account had the email, and exactly one account is appended: it
    has the email and the name of the request and the digest as its
    password, and the answer carries that account without the password
    and a token for its id. *)
Theorem signup_stores_one_account_or_nothing :
  forall (accounts : list Account.t) (hashedPassword : string) (now : Z)
         (body : Credentials.t) (accounts' : list Account.t) (response : Response Session),
    signup jwtSign accounts hashedPassword now body = (accounts', response) ->
    ((forall code session, response <> Success code session) -> accounts' = accounts)
    /\ (forall code session,
           response = Success code session ->
           exists email password name user,
             code = 201
             /\ Credentials.email body = Some email
             /\ Credentials.password body = Some password
             /\ Credentials.name body = Some name
             /\ (6 <= String.length password)%nat
             /\ (forall a, In a accounts -> Account.email a <> email)
             /\ accounts' = (accounts ++ [user])%list
             /\ Account.email user = email
             /\ Account.name user = name
             /\ Account.password user = hashedPassword
             /\ session = mkSession "User created successfully" (Account.public user)
                                    (jwtSign (Account.id user))).
Proof.
  intros accounts hashed now body accounts' response Hrun.
  unfold signup in Hrun.
  destruct (Credentials.email body) as [email |]; simpl in Hrun;
    [| injection Hrun as <- <-; split; [reflexivity | discriminate]].
  destruct (String.eqb email ""); simpl in Hrun;
    [injection Hrun as <- <-; split; [reflexivity | discriminate] |].
  destruct (Credentials.password body) as [password |]; simpl in Hrun;
    [| injection Hrun as <- <-; split; [reflexivity | discriminate]].
  destruct (String.eqb password ""); simpl in Hrun;
    [injection Hrun as <- <-; split; [reflexivity | discriminate] |].
  destruct (Credentials.name body) as [name |]; simpl in Hrun;
    [| injection Hrun as <- <-; split; [reflexivity | discriminate]].
  destruct (String.eqb name ""); simpl in Hrun;
    [injection Hrun as <- <-; split; [reflexivity | discriminate] |].
  destruct (Nat.ltb_spec (String.length password) 6) as [Hshort | Hlong];
    [injection Hrun as <- <-; split; [reflexivity | discriminate] |].
  destruct (account_findUnique accounts email) as [existing |] eqn:Hfind;
    [injection Hrun as <- <-; split; [reflexivity | discriminate] |].
  injection Hrun as <- <-.
  split.
  - intros H. exfalso. eapply H. reflexivity.
  - intros code session [= <- <-].
    exists email, password, name.
    eexists. repeat split; try reflexivity; auto.
    now apply account_findUnique_none.
Qed.

(** X25.  Signup keeps the emails of the accounts distinct. *)
Theorem signup_keeps_emails_unique :
  forall (accounts : list Account.t) (hashedPassword : string) (now : Z)
         (body : Credentials.t),
    NoDup (map Account.email accounts) ->
    NoDup (map Account.email (fst (signup jwtSign accounts hashedPassword now body))).
Proof.
  intros accounts hashed now body Hnodup.
  unfold signup.
  destruct (negb (JS.given (Credentials.email body))
            || negb (JS.given (Credentials.password body))
            || negb (JS.given (Credentials.name body))); [exact Hnodup |].
  destruct (String.length (field (Credentials.password body)) <? 6)%nat; [exact Hnodup |].
  destruct (account_findUnique accounts (field (Credentials.email body))) eqn:Hfind;
    [exact Hnodup |].
  cbn [fst]. rewrite map_app. simpl.
  apply Permutation_NoDup with (l := field (Credentials.email body) :: map Account.email accounts).
  - apply Permutation_cons_append.
  - constructor; [| exact Hnodup].
    intros Hin. apply in_map_iff in Hin. destruct Hin as (a & E & Hin).
    rewrite account_findUnique_none in Hfind. now apply (Hfind a).
Qed.


(** X27.  Signin answers 200 only for an account with the given email
    whose stored digest bcrypt.compare accepts for the given password,
    and then with a token for that account's id; an unknown email and a
    wrong password are answered alike, 401 "Invalid email or password". *)
Theorem signin_needs_the_stored_password :
  forall (accounts : list Account.t) (body : Credentials.t),
    (forall code session,
        signin jwtSign bcryptCompare accounts body = Success code session ->
        exists email password user,
          Credentials.email body = Some email
          /\ Credentials.password body = Some password
          /\ In user accounts
          /\ Account.email user = email
          /\ bcryptCompare password (Account.password user) = true
          /\ code = 200
          /\ session = mkSession "Sign in successful" (Account.public user)
                                 (jwtSign (Account.id user)))
    /\ (JS.given (Credentials.email body) = true ->
        JS.given (Credentials.password body) = true ->
        (forall user, In user accounts ->
                      Account.email user = field (Credentials.email body) ->
                      bcryptCompare (field (Credentials.password body))
                                    (Account.password user) = false) ->
        signin jwtSign bcryptCompare accounts body = Failure 401 "Invalid email or password").
Proof.
  intros accounts body. split.
  - intros code session Hrun.
    unfold signin in Hrun.
    destruct (Credentials.email body) as [email |]; simpl in Hrun; [| discriminate].
    destruct (String.eqb email ""); simpl in Hrun; [discriminate |].
    destruct (Credentials.password body) as [password |]; simpl in Hrun; [| discriminate].
    destruct (String.eqb password ""); simpl in Hrun; [discriminate |].
    destruct (account_findUnique accounts email) as [user |] eqn:Hfind; [| discriminate].
    destruct (bcryptCompare password (Account.password user)) eqn:Hc; simpl in Hrun;
      [| discriminate].
    injection Hrun as <- <-.
    apply account_findUnique_some in Hfind. destruct Hfind as [Hin He].
    exists email, password, user. repeat split; auto.
  - intros He Hp Hwrong.
    unfold signin. rewrite He, Hp. simpl.
    destruct (account_findUnique accounts (field (Credentials.email body)))
      as [user |] eqn:Hfind; [| reflexivity].
    apply account_findUnique_some in Hfind. destruct Hfind as [Hin Hemail].
    now rewrite (Hwrong user Hin Hemail).
Qed.

End AccountFacts.

(** ** The further properties on the sample marketplace *)


(** Between 20 and 28 the search returns Cy's gutters, at 25. *)
Lemma search_returns_only_matching_services_witness :
  exists services pg s,
    searchServices Plain.isFloat Plain.parseFloat Plain.calculateDistance
                   Sample.market Cases.priced
    = Success 200 (services, pg)
    /\ In s services
    /\ Prisma.service s = Sample.gutters
    /\ Service.isActive (Prisma.service s) = true
    /\ JS.geb (Service.basePrice (Prisma.service s)) (Plain.parseFloat "20") = true
    /\ JS.leb (Service.basePrice (Prisma.service s)) (Plain.parseFloat "28") = true.
Proof.
  eexists. eexists. eexists.
  split; [reflexivity |].
  split; [left; reflexivity |].
  split; [reflexivity |].
  destruct (search_returns_only_matching_services Plain.isFloat Plain.parseFloat
              Plain.calculateDistance Sample.market Cases.priced _ _ _ eq_refl
              (or_introl eq_refl))
    as (Hactive & _ & _ & Hlo & Hhi).
  split; [exact Hactive |].
  split.
  - apply Hlo; [reflexivity | discriminate].
  - apply Hhi; [reflexivity | discriminate].
Defined.

(** Within 500 km of (1, 1) the search returns Cy with his distance. *)
Lemma search_returns_only_services_within_maxDistance_witness :
  exists services pg s lat lon,
    searchServices Plain.isFloat Plain.parseFloat Plain.calculateDistance
                   Sample.market Sample.nearby
    = Success 200 (services, pg)
    /\ In s services
    /\ Prisma.user s = Sample.cy
    /\ Prisma.distance s
       = JS.Num (Plain.calculateDistance (JS.Fin 1) (JS.Fin 1) lat lon)
    /\ JS.leb (Plain.calculateDistance (JS.Fin 1) (JS.Fin 1) lat lon) (JS.Fin 500) = true.
Proof.
  destruct (search_returns_only_services_within_maxDistance Plain.isFloat Plain.parseFloat
              Plain.calculateDistance Sample.market Sample.nearby _ _
              (Prisma.mkFound Sample.gutters Sample.cleaning Sample.cyProvider Sample.cy
                 (JS.Num (Plain.calculateDistance (JS.Fin 1) (JS.Fin 1) (JS.Fin 2) (JS.Fin 2))))
              eq_refl eq_refl eq_refl (or_introl eq_refl))
    as (lat & lon & _ & _ & Hd & Hle).
  eexists. eexists. eexists. exists lat, lon.
  split; [reflexivity |].
  split; [left; reflexivity |].
  split; [reflexivity |].
  split; [exact Hd | exact Hle].
Defined.

(** By price: carpets at 20 come before gutters at 25. *)
Lemma price_sort_is_ascending_witness :
  exists services pg a b,
    searchServices Plain.isFloat Plain.parseFloat Plain.calculateDistance
                   Sample.market Cases.cheapestFirst
    = Success 200 (services, pg)
    /\ nth_error services 0 = Some a
    /\ nth_error services 1 = Some b
    /\ Prisma.service a = Sample.carpets
    /\ Prisma.service b = Sample.gutters
    /\ JS.leb (Service.basePrice (Prisma.service a)) (Service.basePrice (Prisma.service b))
       = true.
Proof.
  eexists. eexists. eexists. eexists.
  split; [reflexivity |].
  split; [reflexivity |].
  split; [reflexivity |].
  split; [reflexivity |].
  split; [reflexivity |].
  apply (price_sort_is_ascending Plain.isFloat Plain.parseFloat Plain.calculateDistance
           Sample.market Cases.cheapestFirst _ _ eq_refl eq_refl) with (i := 0%nat) (j := 1%nat).
  - intros s Hs. simpl in Hs.
    destruct Hs as [<- | [<- | [<- | []]]]; discriminate.
  - lia.
  - reflexivity.
  - reflexivity.
Defined.

(** By rating: Bob at 5 comes before Ann at 4. *)
Lemma rating_sort_is_descending_witness :
  exists services pg a b,
    searchServices Plain.isFloat Plain.parseFloat Plain.calculateDistance
                   Sample.market Cases.bestFirst
    = Success 200 (services, pg)
    /\ nth_error services 0 = Some a
    /\ nth_error services 2 = Some b
    /\ Prisma.provider a = Sample.bobProvider
    /\ Prisma.provider b = Sample.annProvider
    /\ JS.leb (Provider.averageRating (Prisma.provider b))
              (Provider.averageRating (Prisma.provider a)) = true.
Proof.
  eexists. eexists. eexists. eexists.
  split; [reflexivity |].
  split; [reflexivity |].
  split; [reflexivity |].
  split; [reflexivity |].
  split; [reflexivity |].
  apply (rating_sort_is_descending Plain.isFloat Plain.parseFloat Plain.calculateDistance
           Sample.market Cases.bestFirst _ _ eq_refl eq_refl) with (i := 0%nat) (j := 2%nat).
  - lia.
  - reflexivity.
  - reflexivity.
Defined.

(** By default: the gutters, created at 3000, come before the windows,
    created at 1000. *)
Lemma default_sort_is_newest_first_witness :
  exists services pg a b,
    searchServices Plain.isFloat Plain.parseFloat Plain.calculateDistance
                   Sample.market Sample.noQuery
    = Success 200 (services, pg)
    /\ nth_error services 0 = Some a
    /\ nth_error services 2 = Some b
    /\ Prisma.service a = Sample.gutters
    /\ Prisma.service b = Sample.windows
    /\ Service.createdAt (Prisma.service b) <= Service.createdAt (Prisma.service a).
Proof.
  eexists. eexists. eexists. eexists.
  split; [reflexivity |].
  split; [reflexivity |].
  split; [reflexivity |].
  split; [reflexivity |].
  split; [reflexivity |].
  apply (default_sort_is_newest_first Plain.isFloat Plain.parseFloat Plain.calculateDistance
           Sample.market Sample.noQuery _ _ eq_refl (or_introl eq_refl))
    with (i := 0%nat) (j := 2%nat).
  - lia.
  - reflexivity.
  - reflexivity.
Defined.

(** By distance from (1, 1): Cy, at a positive distance, comes before
    Ann, whose latitude 0 leaves her without a distance. *)
Lemma distance_sort_is_ascending_with_null_last_witness :
  exists services pg a b,
    searchServices Plain.isFloat Plain.parseFloat Plain.calculateDistance
                   Sample.market Sample.nearestFirst
    = Success 200 (services, pg)
    /\ nth_error services 1 = Some a
    /\ nth_error services 0 = Some b
    /\ Prisma.user a = Sample.ann
    /\ Prisma.user b = Sample.cy
    /\ Prisma.distance a = JS.Null
    /\ (0 < 1)%nat.
Proof.
  eexists. eexists. eexists. eexists.
  split; [reflexivity |].
  split; [reflexivity |].
  split; [reflexivity |].
  split; [reflexivity |].
  split; [reflexivity |].
  split; [reflexivity |].
  eapply (proj2 (distance_sort_is_ascending_with_null_last Plain.isFloat Plain.parseFloat
                   Plain.calculateDistance Sample.market Sample.nearestFirst _ _
                   eq_refl eq_refl eq_refl 1%nat 0%nat _ _ eq_refl eq_refl)).
  - reflexivity.
  - eexists. split; [vm_compute; reflexivity | reflexivity].
Defined.

(** One service per page: page 1 holds the windows, page 2 the carpets,
    and the gutters are left for page 3. *)
Lemma consecutive_pages_partition_the_matches_witness :
  map (fun s => Service.id (Prisma.service s))
      (Prisma.candidates Sample.market (whereClause Plain.parseFloat Cases.oneByOne))
  = [100; 200; 300]
  /\ map (fun s => Service.id (Prisma.service s))
         (fetchedPage Plain.parseFloat Sample.market Cases.oneByOne) = [100]
  /\ map (fun s => Service.id (Prisma.service s))
         (fetchedPage Plain.parseFloat Sample.market (nextPage Cases.oneByOne)) = [200]
  /\ Prisma.candidates Sample.market (whereClause Plain.parseFloat Cases.oneByOne)
     = (firstn (Z.to_nat (skipOf Cases.oneByOne))
               (Prisma.candidates Sample.market (whereClause Plain.parseFloat Cases.oneByOne))
        ++ fetchedPage Plain.parseFloat Sample.market Cases.oneByOne
        ++ fetchedPage Plain.parseFloat Sample.market (nextPage Cases.oneByOne)
        ++ skipn (Z.to_nat (skipOf Cases.oneByOne + 2 * takeOf Cases.oneByOne))
                 (Prisma.candidates Sample.market
                                    (whereClause Plain.parseFloat Cases.oneByOne)))%list.
Proof.
  split; [reflexivity |].
  split; [reflexivity |].
  split; [reflexivity |].
  apply (consecutive_pages_partition_the_matches Plain.isFloat Plain.parseFloat
           Sample.market Cases.oneByOne).
  reflexivity.
Defined.

(** Without coordinates the windows come back with no distance. *)
Lemma search_without_origin_attaches_no_distance_witness :
  exists services pg s,
    searchServices Plain.isFloat Plain.parseFloat Plain.calculateDistance
                   Sample.market Sample.noQuery
    = Success 200 (services, pg)
    /\ In s services
    /\ Prisma.distance s = JS.Undefined.
Proof.
  eexists. eexists. eexists.
  split; [reflexivity |].
  split; [left; reflexivity |].
  apply (proj2 (search_without_origin_attaches_no_distance Plain.isFloat Plain.parseFloat
                  Plain.calculateDistance Sample.market Sample.noQuery _ _
                  eq_refl eq_refl)).
  left. reflexivity.
Defined.

(** One service per page, page 1 of 3: there is a next page and it is
    not empty. *)
Lemma pagination_metadata_matches_the_pages_witness :
  exists services pg,
    searchServices Plain.isFloat Plain.parseFloat Plain.calculateDistance
                   Sample.market Cases.oneByOne
    = Success 200 (services, pg)
    /\ hasNext pg = true
    /\ totalPages pg = 3
    /\ fetchedPage Plain.parseFloat Sample.market (nextPage Cases.oneByOne) <> [].
Proof.
  eexists. eexists.
  split; [reflexivity |].
  split; [reflexivity |].
  split; [reflexivity |].
  apply (proj1 (pagination_metadata_matches_the_pages Plain.isFloat Plain.parseFloat
                  Plain.calculateDistance Sample.market Cases.oneByOne _ _ eq_refl)).
  reflexivity.
Defined.

(** [?limit=51] is answered 400 on the field limit. *)
Lemma search_rejects_paging_and_sort_out_of_range_witness :
  exists errors,
    searchServices Plain.isFloat Plain.parseFloat Plain.calculateDistance
                   Sample.market Cases.tooMany
    = Invalid errors
    /\ In "limit" errors.
Proof.
  apply (proj1 (search_rejects_paging_and_sort_out_of_range Plain.isFloat Plain.parseFloat
                  Plain.calculateDistance Sample.market Cases.tooMany) 51).
  - reflexivity.
  - right. lia.
Defined.

(** Bob's carpets on 2024-06-01: fifteen slots, 09:00 first. *)
Lemma availability_slots_are_grid_times_in_order_witness :
  exists slots,
    getAvailability Plain.moment Plain.newDate Plain.isISO8601 Sample.market
                    Sample.carpetsOnJune1
    = Success 200 slots
    /\ List.length slots = 15%nat
    /\ (List.length slots <= 18)%nat
    /\ NoDup (map time slots).
Proof.
  eexists.
  split; [reflexivity |].
  split; [reflexivity |].
  destruct (availability_slots_are_grid_times_in_order Plain.moment Plain.newDate
              Plain.isISO8601 Sample.market Sample.carpetsOnJune1 _ eq_refl)
    as (_ & Hle & Hnodup & _).
  split; [exact Hle | exact Hnodup].
Defined.

(** 11:00 does not overlap Bob's booking from 10:00 to 11:00 and is
    listed. *)
Lemma free_grid_slot_is_listed_witness :
  exists slots,
    getAvailability Plain.moment Plain.newDate Plain.isISO8601 Sample.market
                    Sample.carpetsOnJune1
    = Success 200 slots
    /\ In (mkSlot "11:00" true) slots.
Proof.
  eexists.
  split; [reflexivity |].
  apply (free_grid_slot_is_listed Plain.moment Plain.newDate Plain.isISO8601
           Sample.market Sample.carpetsOnJune1 _ Sample.carpets Sample.bobProvider 11 0
           eq_refl eq_refl).
  - lia.
  - left. reflexivity.
  - intros booking Hin Hp Hd Hs (s & b & Es & Eb & H1 & H2).
    simpl in Hin.
    destruct Hin as [<- | [<- | []]].
    + vm_compute in Es. vm_compute in Eb.
      injection Es as <-. injection Eb as <-.
      vm_compute in H1. discriminate H1.
    + vm_compute in Hp. discriminate Hp.
Defined.

(** A pending booking of Bob at 11:00, stored between the two bookings
    of the sample, changes nothing in the availability of his carpets. *)
Lemma availability_ignores_bookings_not_confirmed_witness :
  getAvailability Plain.moment Plain.newDate Plain.isISO8601
                  (withBookings [Sample.atTen; Cases.pendingAtEleven; Sample.cancelled]
                                Sample.market)
                  Sample.carpetsOnJune1
  = getAvailability Plain.moment Plain.newDate Plain.isISO8601 Sample.market
                    Sample.carpetsOnJune1.
Proof.
  apply (availability_ignores_bookings_not_confirmed Plain.moment Plain.newDate
           Plain.isISO8601 Sample.market Sample.carpetsOnJune1
           [Sample.atTen] [Sample.cancelled] Cases.pendingAtEleven).
  - reflexivity.
  - discriminate.
  - discriminate.
Defined.

(** No service has the id 999, which is within the range of the column. *)
Lemma inactive_or_unknown_service_is_not_found_witness :
  999 <= int32Max
  /\ getAvailability Plain.moment Plain.newDate Plain.isISO8601 Sample.market
                     Cases.unknownService
     = Failure 404 "Service not found"
  /\ createBooking Plain.moment Plain.newDate Plain.isISO8601 Plain.emit
                   Sample.world Sample.uuid Sample.dee Cases.unknownBody
     = (Sample.world, Failure 404 "Service not found").
Proof.
  assert (Hnone : forall s, In s (services (db Sample.world)) -> Service.id s = 999 ->
                            Service.isActive s = false).
  { intros s Hin Hid. simpl in Hin.
    destruct Hin as [<- | [<- | [<- | []]]]; discriminate Hid. }
  assert (Hrange : 999 <= int32Max) by (unfold int32Max; lia).
  destruct (inactive_or_unknown_service_is_not_found Plain.moment Plain.newDate
              Plain.isISO8601 Plain.emit Sample.world 999 Hrange Hnone) as [Hq Hc].
  split; [exact Hrange | split].
  - apply Hq; reflexivity.
  - apply Hc; reflexivity.
Defined.


(** Dee's booking of the gutters: pending, 60 minutes, 25. *)
Lemma created_booking_copies_the_service_witness :
  exists w' message booking,
    createBooking Plain.moment Plain.newDate Plain.isISO8601 Plain.emit
                  Sample.world Sample.uuid Sample.dee Sample.guttersAtNine
    = (w', Success 201 (message, booking))
    /\ Booking.status booking = Status.PENDING
    /\ Booking.duration booking = 60
    /\ Booking.totalPrice booking = JS.Fin 25
    /\ Booking.customerId booking = 4.
Proof.
  eexists. eexists. eexists.
  split; [reflexivity |].
  destruct (created_booking_copies_the_service Plain.moment Plain.newDate Plain.isISO8601
              Plain.emit Sample.world Sample.uuid Sample.dee Sample.guttersAtNine _ _ _
              eq_refl)
    as (service & provider & Hfind & Hs & _ & _ & Hc & _ & _ & _ & _ & Hd & Hp).
  vm_compute in Hfind. injection Hfind as <- <-.
  split; [exact Hs |]. split; [exact Hd |]. split; [exact Hp | exact Hc].
Defined.

(** Cy moves his cancelled booking back to CONFIRMED. *)
Lemma owner_can_set_any_allowed_status_witness :
  Booking.status Sample.cancelled = Status.CANCELLED
  /\ exists w' updated,
      updateStatus Plain.isUUID Plain.emit Sample.world Sample.cy
                   (StatusBody.mk (Booking.bookingId Sample.cancelled) Status.CONFIRMED None)
      = (w', Success 200 ("Booking status updated successfully", updated))
      /\ Booking.id updated = Booking.id Sample.cancelled
      /\ Booking.status updated = Status.CONFIRMED.
Proof.
  split; [reflexivity |].
  apply (owner_can_set_any_allowed_status Plain.isUUID Plain.emit Sample.world Sample.cy
           (StatusBody.mk (Booking.bookingId Sample.cancelled) Status.CONFIRMED None)
           Sample.cancelled).
  - reflexivity.
  - reflexivity.
Defined.

(** Bob cancels his booking: Cy's booking, second in the table, is
    untouched. *)
Lemma status_update_touches_only_that_booking_witness :
  exists w' message updated,
    updateStatus Plain.isUUID Plain.emit Sample.world Sample.bob Sample.cancelAtTen
    = (w', Success 200 (message, updated))
    /\ List.length (bookings (db w')) = 2%nat
    /\ nth_error (bookings (db w')) 1 = Some Sample.cancelled.
Proof.
  eexists. eexists. eexists.
  split; [reflexivity |].
  destruct (status_update_touches_only_that_booking Plain.isUUID Plain.emit Sample.world
              Sample.bob Sample.cancelAtTen _ _ _ eq_refl)
    as (Hlen & Hother & _).
  split; [exact Hlen |].
  apply Hother; [reflexivity | discriminate].
Defined.

(** Bob cancels his booking twice. *)
Lemma status_update_is_idempotent_witness :
  exists w1 w2 message updated,
    updateStatus Plain.isUUID Plain.emit Sample.world Sample.bob Sample.cancelAtTen
    = (w1, Success 200 (message, updated))
    /\ updateStatus Plain.isUUID Plain.emit w1 Sample.bob Sample.cancelAtTen
       = (w2, Success 200 (message, updated))
    /\ db w2 = db w1.
Proof.
  destruct (status_update_is_idempotent Plain.isUUID Plain.emit Sample.world Sample.bob
              Sample.cancelAtTen _ _ _ eq_refl) as (w2 & Hrun & Hdb).
  eexists. exists w2. eexists. eexists.
  split; [reflexivity |].
  split; [exact Hrun | exact Hdb].
Defined.

(** 17:30, the last slot of the grid, passes the pattern. *)
Lemma listed_slot_times_pass_the_create_pattern_witness :
  timeString 17 30 = "17:30" /\ matchesTime "17:30" = true.
Proof.
  split; [reflexivity |].
  apply (proj1 (listed_slot_times_pass_the_create_pattern Plain.moment Plain.newDate
                  Plain.isISO8601) 17 30); lia.
Defined.

(** Bob's socket joins user_2, the room his new bookings are announced
    in; a token for an unknown id is refused with "User not found". *)
Lemma socket_is_bound_to_the_verified_user_witness :
  (exists user rooms,
      connect PlainAuth.jwtVerify Sample.market Cases.bobToken = inr (user, rooms)
      /\ user = Sample.bob
      /\ rooms = ["user_2"]
      /\ In (room (newBookingEmission Sample.dee Sample.bobProvider Sample.atTen)) rooms)
  /\ exists e,
      connect PlainAuth.jwtVerify Sample.market Cases.ghostToken = inl e
      /\ JS.message e = "User not found".
Proof.
  split.
  - eexists. eexists.
    split; [reflexivity |].
    split; [reflexivity |].
    destruct (proj1 (socket_is_bound_to_the_verified_user PlainAuth.jwtVerify Sample.market
                       Cases.bobToken) _ _ eq_refl)
      as (_ & _ & Hrooms & Hnew & _).
    split; [exact Hrooms |].
    apply Hnew. reflexivity.
  - eexists. split; [reflexivity |].
    destruct (proj2 (socket_is_bound_to_the_verified_user PlainAuth.jwtVerify Sample.market
                       Cases.ghostToken) _ eq_refl) as [H | [H _]].
    + discriminate H.
    + exact H.
Defined.

(** Bob marks the messages 1 and 2: message 1 is his and is marked,
    message 2 is Cy's and stays unread, the reply lists both. *)
Lemma mark_read_marks_only_the_callers_messages_witness :
  exists messages' reply m1 m2,
    markRead Inbox.messages 2 [1; 2] = (messages', reply)
    /\ reply = MessagesMarkedRead [1; 2]
    /\ nth_error messages' 0 = Some m1
    /\ nth_error messages' 1 = Some m2
    /\ Message.isRead m1 = true
    /\ m2 = Inbox.forCy.
Proof.
  eexists. eexists. eexists. eexists.
  split; [reflexivity |].
  destruct (mark_read_marks_only_the_callers_messages Inbox.messages 2 [1; 2] _ _ eq_refl)
    as (Hreply & _ & Hrows & _).
  split; [exact Hreply |].
  split; [reflexivity |].
  split; [reflexivity |].
  split; [| reflexivity].
  destruct (Hrows 0%nat Inbox.forBob eq_refl) as (m' & Hm' & _ & Hread).
  injection Hm' as <-.
  apply Hread. right. split; [simpl; auto | reflexivity].
Defined.

(** Eve signs up; with a password of five characters she is refused. *)
Lemma signup_stores_one_account_or_nothing_witness :
  (exists accounts' session user,
      signup PlainAuth.jwtSign Inbox.accounts (PlainAuth.bcryptHash "correct horse") 900
             Inbox.eve
      = (accounts', Success 201 session)
      /\ accounts' = [Inbox.deeAccount; user]
      /\ Account.password user = "digest:correct horse"
      /\ token session = "token:5")
  /\ fst (signup PlainAuth.jwtSign Inbox.accounts (PlainAuth.bcryptHash "horse") 900
                 Inbox.eveShort)
     = Inbox.accounts.
Proof.
  split.
  - eexists. eexists. eexists.
    split; [reflexivity |].
    destruct (proj2 (signup_stores_one_account_or_nothing PlainAuth.jwtSign Inbox.accounts
                       (PlainAuth.bcryptHash "correct horse") 900 Inbox.eve _ _ eq_refl)
                    _ _ eq_refl)
      as (email & password & name & user & _ & _ & _ & _ & _ & _ & Hacc & _ & _ & Hpw & Hs).
    simpl in Hacc. injection Hacc as <-.
    split; [reflexivity |].
    split; [exact Hpw | reflexivity].
  - apply (proj1 (signup_stores_one_account_or_nothing PlainAuth.jwtSign Inbox.accounts
                    (PlainAuth.bcryptHash "horse") 900 Inbox.eveShort _ _ eq_refl)).
    intros code session. discriminate.
Defined.

(** After Eve's signup the two emails are distinct. *)
Lemma signup_keeps_emails_unique_witness :
  NoDup (map Account.email
             (fst (signup PlainAuth.jwtSign Inbox.accounts
                          (PlainAuth.bcryptHash "correct horse") 900 Inbox.eve))).
Proof.
  apply signup_keeps_emails_unique.
  simpl. constructor; [intros [] | constructor].
Defined.


(** A wrong password for Dee and an unknown email get the same answer. *)
Lemma signin_needs_the_stored_password_witness :
  signin PlainAuth.jwtSign PlainAuth.bcryptCompare Inbox.accounts Inbox.deeWrongPassword
  = Failure 401 "Invalid email or password"
  /\ signin PlainAuth.jwtSign PlainAuth.bcryptCompare Inbox.accounts Inbox.nobody
     = Failure 401 "Invalid email or password".
Proof.
  split.
  - apply (proj2 (signin_needs_the_stored_password PlainAuth.jwtSign PlainAuth.bcryptCompare
                    Inbox.accounts Inbox.deeWrongPassword)); try reflexivity.
    intros user Hin _. simpl in Hin. destruct Hin as [<- | []]. reflexivity.
  - apply (proj2 (signin_needs_the_stored_password PlainAuth.jwtSign PlainAuth.bcryptCompare
                    Inbox.accounts Inbox.nobody)); try reflexivity.
    intros user Hin He. simpl in Hin. destruct Hin as [<- | []]. discriminate He.
Defined.

(** The sample has three popular services: Cy's first (rated 5, nine
    reviews), Ann's last (rated 4). *)
Lemma popular_lists_the_ten_best_rated_witness :
  exists rows a b,
    getPopular Sample.market = Success 200 rows
    /\ List.length rows = 3%nat
    /\ nth_error rows 0 = Some a
    /\ nth_error rows 2 = Some b
    /\ Prisma.provider (fst a) = Sample.cyProvider
    /\ Prisma.provider (fst b) = Sample.annProvider
    /\ JS.leb (Provider.averageRating (Prisma.provider (fst b)))
              (Provider.averageRating (Prisma.provider (fst a))) = true.
Proof.
  eexists. eexists. eexists.
  split; [reflexivity |].
  split; [reflexivity |].
  split; [reflexivity |].
  split; [reflexivity |].
  split; [reflexivity |].
  split; [reflexivity |].
  apply (proj2 (proj2 (popular_lists_the_ten_best_rated Sample.market _ eq_refl)))
    with (i := 0%nat) (j := 2%nat).
  - lia.
  - reflexivity.
  - reflexivity.
Defined.
